(** * Paypack payment demo: a shallow embedding of the backend and its properties

    The development follows the two backend files of the repository:

    - [services/paypack.service.ts]: the [ApiError] class, the input checks of
      [cashin], [verifyWebhookSignature], the cached bearer token with its
      shared refresh promise ([getValidAccessToken], [authenticate]) and
      [handleApiError];
    - [server.ts]: the [paymentSockets] registry, the socket events and the
      two routes [/api/initiate-payment] and [/api/webhook].

    Node's [crypto] primitives used by the verifier (HMAC-SHA256 and the
    base64 digest encoding) are written out after FIPS 180-4, RFC 2104 and
    RFC 4648 so that the verifier can be evaluated on concrete requests.

    Data: a JS string is a [string] (code units below 256), a JS number a
    binary64 [float], a [Buffer] a [list byte], a [Date] its time value in
    milliseconds; [undefined] and [null] are [None].  An [async] function is
    run either from call to return, with the replies of the store and of the
    gateway supplied by an [Env], or step by step between its [await]s when
    calls overlap. *)

From Stdlib Require Import ZArith List String Ascii Bool Lia PrimFloat.
From Stdlib.Strings Require Import Byte.
Import ListNotations.

Local Open Scope string_scope.
Local Open Scope list_scope.
Local Open Scope Z_scope.

(* ================================================================== *)
(** ** JavaScript values used by the backend *)

Module Js.

(** A JS string is falsy exactly when it is empty. *)
Definition truthy_string (s : string) : bool :=
  match s with EmptyString => false | String _ _ => true end.

(** A JS number is falsy exactly when it is [0], [-0] or [NaN]. *)
Definition truthy_number (x : float) : bool :=
  negb (PrimFloat.eqb x 0%float) && PrimFloat.eqb x x.

Definition byte_of_Z (z : Z) : byte :=
  match Byte.of_N (Z.to_N (z mod 256)) with
  | Some b => b
  | None => x00
  end.

Definition Z_of_byte (b : byte) : Z := Z.of_N (Byte.to_N b).

Definition Z_of_ascii (c : ascii) : Z := Z.of_N (N_of_ascii c).

(** [Buffer.from(s)] on a string whose code units are below 256 (header
    values are decoded as latin1 by Node's HTTP parser, the digest encoding
    is ASCII): the UTF-8 encoding, one byte below 128 and two bytes from
    128 to 255. *)
Definition utf8_char (c : ascii) : list byte :=
  let n := Z_of_ascii c in
  if n <? 128 then [byte_of_Z n]
  else [byte_of_Z (Z.lor 192 (Z.shiftr n 6)); byte_of_Z (Z.lor 128 (Z.land n 63))].

Fixpoint Buffer_from (s : string) : list byte :=
  match s with
  | EmptyString => []
  | String c rest => utf8_char c ++ Buffer_from rest
  end.

(** Reads one character back from the head of a buffer; the left inverse of
    [utf8_char], by which distinct strings have distinct buffers. *)
Definition utf8_head (l : list byte) : option (ascii * list byte) :=
  match l with
  | [] => None
  | b :: rest =>
      if Z_of_byte b <? 128 then Some (ascii_of_byte b, rest)
      else
        match rest with
        | [] => None
        | b2 :: rest' =>
            Some (ascii_of_N (Z.to_N (Z.lor (Z.shiftl (Z.land (Z_of_byte b) 3) 6)
                                            (Z.land (Z_of_byte b2) 63))),
                  rest')
        end
  end.

(** [buf.length] *)
Definition Buffer_length (b : list byte) : Z := Z.of_nat (List.length b).

End Js.

(* ================================================================== *)
(** ** SHA-256 (FIPS 180-4), on 32-bit words held in [Z] *)

Module Sha256.

Definition w32 : Z := 2 ^ 32.

Definition add32 (x y : Z) : Z := (x + y) mod w32.

Definition rotr (n x : Z) : Z :=
  Z.lor (Z.shiftr x n) ((Z.shiftl x (32 - n)) mod w32).

Definition shr (n x : Z) : Z := Z.shiftr x n.

Definition not32 (x : Z) : Z := Z.lxor x (w32 - 1).

Definition Ch (x y z : Z) : Z :=
  Z.lxor (Z.land x y) (Z.land (not32 x) z).

Definition Maj (x y z : Z) : Z :=
  Z.lxor (Z.lxor (Z.land x y) (Z.land x z)) (Z.land y z).

Definition bigsig0 (x : Z) : Z :=
  Z.lxor (Z.lxor (rotr 2 x) (rotr 13 x)) (rotr 22 x).

Definition bigsig1 (x : Z) : Z :=
  Z.lxor (Z.lxor (rotr 6 x) (rotr 11 x)) (rotr 25 x).

Definition smallsig0 (x : Z) : Z :=
  Z.lxor (Z.lxor (rotr 7 x) (rotr 18 x)) (shr 3 x).

Definition smallsig1 (x : Z) : Z :=
  Z.lxor (Z.lxor (rotr 17 x) (rotr 19 x)) (shr 10 x).

(** The constants of the standard are fractional parts of roots of the first
    primes: [frac_root32 k p] is the first 32 bits of the fractional part of
    the [k]-th root of [p], found bit by bit as the integer root of
    [p * 2^(32k)]. *)
Fixpoint root_bits (k : Z) (i : nat) (n r : Z) : Z :=
  match i with
  | O => r
  | S i' =>
      let r' := r + 2 ^ Z.of_nat i' in
      root_bits k i' n (if r' ^ k <=? n then r' else r)
  end.

Definition frac_root32 (k p : Z) : Z :=
  root_bits k 36 (p * 2 ^ (32 * k)) 0 mod w32.

Definition is_prime (n : nat) : bool :=
  forallb (fun d => negb (Nat.eqb (Nat.modulo n d) 0)) (seq 2 (n - 2)).

Definition first_primes (n : nat) : list Z :=
  map Z.of_nat (firstn n (filter is_prime (seq 2 310))).

(** K: cube roots of the first sixty-four primes. *)
Definition round_constants : list Z :=
  Eval vm_compute in map (frac_root32 3) (first_primes 64).

(** The eight working variables, also the shape of a hash value. *)
Record hash_state : Type := mkHash
{ ha : Z; hb : Z; hc : Z; hd : Z; he : Z; hf : Z; hg : Z; hh : Z }.

(** H(0): square roots of the first eight primes. *)
Definition initial_hash : hash_state :=
  Eval vm_compute in
  match map (frac_root32 2) (first_primes 8) with
  | [a; b; c; d; e; f; g; h] => mkHash a b c d e f g h
  | _ => mkHash 0 0 0 0 0 0 0 0
  end.

(** Padding: a [0x80] byte, zeros, and the bit length on 64 bits, up to a
    multiple of 64 bytes. *)
Definition be_bytes (n : nat) (x : Z) : list byte :=
  map (fun i => Js.byte_of_Z (Z.shiftr x (8 * Z.of_nat (n - 1 - i)))) (seq 0 n).

Definition pad (msg : list byte) : list byte :=
  let len := Z.of_nat (List.length msg) in
  msg ++ [x80] ++ repeat x00 (Z.to_nat ((55 - len) mod 64)) ++ be_bytes 8 (8 * len).

Fixpoint words_of_bytes (l : list byte) : list Z :=
  match l with
  | b0 :: b1 :: b2 :: b3 :: rest =>
      (Js.Z_of_byte b0 * 16777216 + Js.Z_of_byte b1 * 65536
       + Js.Z_of_byte b2 * 256 + Js.Z_of_byte b3) :: words_of_bytes rest
  | _ => []
  end.

Fixpoint blocks (fuel : nat) (l : list byte) : list (list byte) :=
  match fuel with
  | O => []
  | S fuel' =>
      match l with
      | [] => []
      | _ => firstn 64 l :: blocks fuel' (skipn 64 l)
      end
  end.

(** Message schedule: [rev_w] holds W(t-1), W(t-2), ... (newest first). *)
Fixpoint extend_schedule (n : nat) (rev_w : list Z) : list Z :=
  match n with
  | O => rev_w
  | S n' =>
      let wt :=
        add32 (add32 (smallsig1 (nth 1 rev_w 0)) (nth 6 rev_w 0))
              (add32 (smallsig0 (nth 14 rev_w 0)) (nth 15 rev_w 0)) in
      extend_schedule n' (wt :: rev_w)
  end.

Definition schedule (block : list byte) : list Z :=
  rev (extend_schedule 48 (rev (words_of_bytes block))).

Definition round (s : hash_state) (kw : Z * Z) : hash_state :=
  let t1 := add32 (add32 (add32 (hh s) (bigsig1 (he s)))
                         (add32 (Ch (he s) (hf s) (hg s)) (fst kw))) (snd kw) in
  let t2 := add32 (bigsig0 (ha s)) (Maj (ha s) (hb s) (hc s)) in
  mkHash (add32 t1 t2) (ha s) (hb s) (hc s) (add32 (hd s) t1) (he s) (hf s) (hg s).

Definition compress (h : hash_state) (block : list byte) : hash_state :=
  let s := fold_left round (combine round_constants (schedule block)) h in
  mkHash (add32 (ha h) (ha s)) (add32 (hb h) (hb s))
         (add32 (hc h) (hc s)) (add32 (hd h) (hd s))
         (add32 (he h) (he s)) (add32 (hf h) (hf s))
         (add32 (hg h) (hg s)) (add32 (hh h) (hh s)).

Definition digest_bytes (h : hash_state) : list byte :=
  be_bytes 4 (ha h) ++ be_bytes 4 (hb h) ++ be_bytes 4 (hc h) ++ be_bytes 4 (hd h)
  ++ be_bytes 4 (he h) ++ be_bytes 4 (hf h) ++ be_bytes 4 (hg h) ++ be_bytes 4 (hh h).

Definition sha256 (msg : list byte) : list byte :=
  let p := pad msg in
  digest_bytes (fold_left compress (blocks (List.length p) p) initial_hash).

End Sha256.

(* ================================================================== *)
(** ** HMAC (RFC 2104) and base64 (RFC 4648) *)

Module Hmac.

Definition block_size : nat := 64.

Definition xor_byte (c : Z) (b : byte) : byte :=
  Js.byte_of_Z (Z.lxor c (Js.Z_of_byte b)).

Definition block_key (key : list byte) : list byte :=
  let k := if (block_size <? List.length key)%nat then Sha256.sha256 key else key in
  k ++ repeat x00 (block_size - List.length k).

Definition hmac_sha256 (key msg : list byte) : list byte :=
  let k := block_key key in
  Sha256.sha256 (map (xor_byte 0x5c) k ++ Sha256.sha256 (map (xor_byte 0x36) k ++ msg)).

End Hmac.

Module Base64.

Definition alphabet : string :=
  "ABCDEFGHIJKLMNOPQRSTUVWXYZabcdefghijklmnopqrstuvwxyz0123456789+/".

Definition digit (i : Z) : ascii :=
  match String.get (Z.to_nat i) alphabet with
  | Some c => c
  | None => "="%char
  end.

(** The position of a character in the alphabet. *)
Fixpoint index_of (c : ascii) (s : string) (i : Z) : option Z :=
  match s with
  | EmptyString => None
  | String c' rest => if Ascii.eqb c' c then Some i else index_of c rest (i + 1)
  end.

Definition undigit (c : ascii) : option Z := index_of c alphabet 0.

Fixpoint encode (l : list byte) : string :=
  match l with
  | [] => EmptyString
  | [a] =>
      let n := Js.Z_of_byte a in
      String (digit (Z.shiftr n 2))
        (String (digit (Z.shiftl (Z.land n 3) 4)) "==")
  | [a; b] =>
      let n := Js.Z_of_byte a * 256 + Js.Z_of_byte b in
      String (digit (Z.shiftr n 10))
        (String (digit (Z.land (Z.shiftr n 4) 63))
           (String (digit (Z.shiftl (Z.land n 15) 2)) "="))
  | a :: b :: c :: rest =>
      let n := Js.Z_of_byte a * 65536 + Js.Z_of_byte b * 256 + Js.Z_of_byte c in
      String (digit (Z.shiftr n 18))
        (String (digit (Z.land (Z.shiftr n 12) 63))
           (String (digit (Z.land (Z.shiftr n 6) 63))
              (String (digit (Z.land n 63)) (encode rest))))
  end.

End Base64.

(* ================================================================== *)
(** ** Exceptions and results *)

(** Body of an upstream error response, as [handleApiError] reads it. *)
Record ErrorBody : Type := mkErrorBody
  { body_message : option string;
    body_error : option string }.

(** [class ApiError extends Error] *)
Record ApiError : Type := mkApiError
  { statusCode : Z;
    message : string;
    code : string;
    details : option ErrorBody }.

(** The part of an [AxiosError] that the service reads. *)
Record AxiosError : Type := mkAxiosError
  { ax_status : option Z;            (* error.response?.status *)
    ax_data : option ErrorBody;      (* error.response?.data *)
    ax_message : string }.           (* error.message *)

(** What a [throw] can carry in this program. *)
Inductive exn : Type :=
| ApiErr (e : ApiError)
| AxiosErr (e : AxiosError)
| JsError (msg : string).            (* Error, TypeError, RangeError *)

Inductive result (A : Type) : Type :=
| Ok (a : A)
| Throw (e : exn).

Arguments Ok {A} a.
Arguments Throw {A} e.

Definition bind_result {A B : Type} (m : result A) (k : A -> result B) : result B :=
  match m with
  | Ok a => k a
  | Throw e => Throw e
  end.

(** [try { body } catch (error) { handler(error) }] *)
Definition try_catch {A : Type} (body : result A) (handler : exn -> result A) : result A :=
  match body with
  | Ok a => Ok a
  | Throw e => handler e
  end.

(** [(error as Error).message] *)
Definition exn_message (e : exn) : string :=
  match e with
  | ApiErr a => message a
  | AxiosErr a => ax_message a
  | JsError m => m
  end.

(** [a || b] on optional strings: the first truthy operand. *)
Definition or_string (a : option string) (b : option string) : option string :=
  match a with
  | Some s => if Js.truthy_string s then Some s else b
  | None => b
  end.

(* ================================================================== *)
(** ** [services/paypack.service.ts] *)

Record Config : Type := mkConfig
  { PAYPACK_CLIENT_ID : string;
    PAYPACK_CLIENT_SECRET : string;
    PAYPACK_WEBHOOK_SECRET : string }.

Record PaypackAuthResponse : Type := mkAuthResponse
  { access : string;
    refresh : string;
    expires : Z }.                   (* Unix time, seconds *)

Record CashinParams : Type := mkCashinParams
  { number : string;
    amount : float }.

Record CashinResponse : Type := mkCashinResponse
  { ref : string;
    cashin_status : string;
    cashin_amount : float;
    provider : string;
    created_at : string }.

(** Outcome of an [axiosInstance.post]: the response data, or the rejection. *)
Inductive NetResult (A : Type) : Type :=
| NetOk (data : A)
| NetFail (e : AxiosError).

Arguments NetOk {A} data.
Arguments NetFail {A} e.

(** The mutable fields of [class PaypackService]; dates are milliseconds and
    a promise is named by its position in the table of promises. *)
Record PaypackService : Type := mkService
  { accessToken : option string;
    tokenExpiresAt : option Z;
    isRefreshingToken : bool;
    tokenRefreshPromise : option nat }.

(** [new PaypackService()] *)
Definition new_PaypackService : PaypackService :=
  mkService None None false None.

(** [createPaypackService()] *)
Definition createPaypackService (config : Config) : result PaypackService :=
  if negb (Js.truthy_string (PAYPACK_CLIENT_ID config))
     || negb (Js.truthy_string (PAYPACK_CLIENT_SECRET config))
  then Throw (JsError "Paypack service is not configured. Missing API credentials.")
  else if negb (Js.truthy_string (PAYPACK_WEBHOOK_SECRET config))
  then Throw (JsError "Paypack service is not configured. Missing Webhook Secret.")
  else Ok new_PaypackService.

(** [/^07\d{8}$/.test(s)]: the whole string is 0, 7 and eight decimal digits. *)
Definition is_digit (c : ascii) : bool :=
  (48 <=? Js.Z_of_ascii c) && (Js.Z_of_ascii c <=? 57).

Definition phone_regex_test (s : string) : bool :=
  match s with
  | String "0"%char (String "7"%char rest) =>
      (String.length rest =? 8)%nat && forallb is_digit (list_ascii_of_string rest)
  | _ => false
  end.

Definition INVALID_AMOUNT_error : ApiError :=
  mkApiError 400 "Payment amount must be at least 100 RWF." "INVALID_AMOUNT" None.

Definition INVALID_PHONE_error : ApiError :=
  mkApiError 400 "Invalid Rwandan phone number format. Must be 07XXXXXXXX."
             "INVALID_PHONE" None.

(** The two guards at the head of [cashin], before anything else runs. *)
Definition cashin_validate (params : CashinParams) : result unit :=
  if PrimFloat.ltb (amount params) 100%float then Throw (ApiErr INVALID_AMOUNT_error)
  else if negb (phone_regex_test (number params)) then Throw (ApiErr INVALID_PHONE_error)
  else Ok tt.

(** [handleApiError(error, context): never] always throws an [ApiError];
    this is the error it throws. *)
Definition handleApiError (error : exn) : ApiError :=
  match error with
  | AxiosErr ax =>
      let status :=
        match ax_status ax with
        | Some st => if st =? 0 then 500 else st
        | None => 500
        end in
      let msg :=
        match or_string (or_string
                           (match ax_data ax with Some d => body_message d | None => None end)
                           (match ax_data ax with Some d => body_error d | None => None end))
                        (Some (ax_message ax)) with
        | Some m => m
        | None => ax_message ax
        end in
      mkApiError status ("Payment Provider Error: " ++ msg)%string
                 "PAYPACK_API_ERROR" (ax_data ax)
  | _ =>
      mkApiError 500
        (if Js.truthy_string (exn_message error) then exn_message error
         else "An unknown error occurred.")
        "UNKNOWN_PAYPACK_ERROR" None
  end.

(** [crypto.timingSafeEqual(a, b)]: a [RangeError] on buffers of different
    lengths, otherwise the differences of all byte pairs are accumulated and
    tested once at the end. *)
Definition timingSafeEqual (a b : list byte) : result bool :=
  if negb (Js.Buffer_length a =? Js.Buffer_length b)
  then Throw (JsError "Input buffers must have the same byte length")
  else Ok (fold_left Z.lor
             (map (fun p => Z.lxor (Js.Z_of_byte (fst p)) (Js.Z_of_byte (snd p)))
                  (combine a b)) 0 =? 0).

(** [crypto.createHmac("sha256", secret).update(rawBody).digest("base64")];
    [update] throws a [TypeError] when the body is [undefined]. *)
Definition expected_signature (secret : string) (rawBody : option (list byte)) : result string :=
  match rawBody with
  | Some body => Ok (Base64.encode (Hmac.hmac_sha256 (Js.Buffer_from secret) body))
  | None => Throw (JsError "The data argument must be of type string or Buffer")
  end.

Definition missing_signature_error : ApiError :=
  mkApiError 403 "Missing webhook signature." "INVALID_SIGNATURE" None.

Definition invalid_signature_error : ApiError :=
  mkApiError 401 "Invalid webhook signature." "INVALID_SIGNATURE" None.

Definition signature_verification_failed_error : ApiError :=
  mkApiError 500 "Could not verify webhook signature." "SIGNATURE_VERIFICATION_FAILED" None.

(** The comparison in the [try] block: unequal lengths or unequal bytes
    throw the 401 error. *)
Definition compare_signatures (signature expectedSignature : string) : result bool :=
  let sigBuffer := Js.Buffer_from signature in
  let expectedSigBuffer := Js.Buffer_from expectedSignature in
  bind_result
    (if negb (Js.Buffer_length sigBuffer =? Js.Buffer_length expectedSigBuffer)
     then Ok true
     else bind_result (timingSafeEqual sigBuffer expectedSigBuffer)
                      (fun same => Ok (negb same)))
    (fun mismatch =>
       if mismatch then Throw (ApiErr invalid_signature_error) else Ok true).

(** The body of the [try] block of [verifyWebhookSignature]. *)
Definition verify_try_block (secret signature : string) (rawBody : option (list byte))
  : result bool :=
  bind_result (expected_signature secret rawBody) (compare_signatures signature).

(** [verifyWebhookSignature(signature, rawBody)]; [signature] is [None] when
    the header is absent ([undefined]). *)
Definition verifyWebhookSignature (secret : string) (signature : option string)
           (rawBody : option (list byte)) : result bool :=
  match signature with
  | None => Throw (ApiErr missing_signature_error)
  | Some sig =>
      if negb (Js.truthy_string sig) then Throw (ApiErr missing_signature_error)
      else try_catch (verify_try_block secret sig rawBody)
                     (fun _ => Throw (ApiErr signature_verification_failed_error))
  end.

(* ================================================================== *)
(** ** The state of the process and what it does to the outside *)

(** A row of the [Payment] table (see the migration). *)
Record Payment : Type := mkPayment
  { id : string;
    payment_amount : float;
    status : string;
    paypackRef : option string;
    createdAt : Z;
    updatedAt : Z }.

(** Effects that leave the process, in the order they are issued. *)
Inductive Event : Type :=
| NetAuthorize (client_id client_secret : string)   (* POST /auth/agents/authorize *)
| NetCashin (token : string) (amt : float) (num : string) (* POST /transactions/cashin *)
| DbCreate (payment_id : string)
| DbSetRef (payment_id : string) (r : string)
| DbSetStatus (payment_id : string) (st : string)
| Emit (socketId : string) (st : string).  (* io.to(socketId).emit("payment:update", {status}) *)

(** How a promise of [authenticate()] is settled. *)
Inductive Settled : Type :=
| Fulfilled (token : string)
| Rejected (e : ApiError).

Record World : Type := mkWorld
  { payments : list Payment;                   (* prisma.payment *)
    paymentSockets : list (string * string);   (* Map, in insertion order *)
    service : PaypackService;                  (* paypackService *)
    promises : nat -> option Settled;          (* None: still pending *)
    nextPromise : nat;
    trace : list Event }.

Definition set_payments (f : list Payment -> list Payment) (w : World) : World :=
  mkWorld (f (payments w)) (paymentSockets w) (service w) (promises w) (nextPromise w) (trace w).

Definition set_paymentSockets (f : list (string * string) -> list (string * string))
           (w : World) : World :=
  mkWorld (payments w) (f (paymentSockets w)) (service w) (promises w) (nextPromise w) (trace w).

Definition set_service (s : PaypackService) (w : World) : World :=
  mkWorld (payments w) (paymentSockets w) s (promises w) (nextPromise w) (trace w).

Definition emit_event (e : Event) (w : World) : World :=
  mkWorld (payments w) (paymentSockets w) (service w) (promises w) (nextPromise w)
          (trace w ++ [e]).

Definition settle (p : nat) (r : Settled) (w : World) : World :=
  mkWorld (payments w) (paymentSockets w) (service w)
          (fun q => if Nat.eqb q p then Some r else promises w q)
          (nextPromise w) (trace w).

Definition new_promise (w : World) : nat * World :=
  (nextPromise w,
   mkWorld (payments w) (paymentSockets w) (service w) (promises w)
           (S (nextPromise w)) (trace w)).

(** The process right after start-up. *)
Definition initial_world : World :=
  mkWorld [] [] new_PaypackService (fun _ => None) 0 [].

(** What the environment supplies while one request is served: the clock,
    the identifier the store generates, and the replies of the gateway. *)
Record Env : Type := mkEnv
  { now : Z;
    newId : string;
    authReply : NetResult PaypackAuthResponse;
    cashinReply : NetResult CashinResponse }.

(** Computations that read and change the process state and may throw. *)
Definition M (A : Type) : Type := World -> result A * World.

Definition ret {A : Type} (a : A) : M A := fun w => (Ok a, w).

Definition throw {A : Type} (e : exn) : M A := fun w => (Throw e, w).

Definition bind {A B : Type} (m : M A) (k : A -> M B) : M B :=
  fun w =>
    match m w with
    | (Ok a, w') => k a w'
    | (Throw e, w') => (Throw e, w')
    end.

Definition lift {A : Type} (r : result A) : M A := fun w => (r, w).

Definition modify (f : World -> World) : M unit := fun w => (Ok tt, f w).

Notation "x <- m ;; k" := (bind m (fun x => k))
  (at level 61, m at next level, right associativity).
Notation "m ;;; k" := (bind m (fun _ => k))
  (at level 61, right associativity).

(** *** The cached token and its refresh *)

(** The test guarding the cached token: both fields set and
    [isBefore(new Date(), addSeconds(tokenExpiresAt, -60))]. *)
Definition token_is_fresh (t : Z) (svc : PaypackService) : option string :=
  match accessToken svc, tokenExpiresAt svc with
  | Some tok, Some exp =>
      if Js.truthy_string tok && (t <? exp - 60 * 1000) then Some tok else None
  | _, _ => None
  end.

(** How a call of [getValidAccessToken] leaves its synchronous part. *)
Inductive TokenEntry : Type :=
| Joined (p : nat)        (* returned the promise of the refresh in flight *)
| Cached (token : string) (* returned the cached token *)
| Started (p : nat).      (* started [authenticate()] and awaits it in [try] *)

(** [getValidAccessToken] up to its first suspension.  [authenticate()] runs
    up to its own [await], that is, the authorize request has been sent. *)
Definition getValidAccessToken_enter (config : Config) (t : Z) (w : World)
  : TokenEntry * World :=
  let svc := service w in
  match isRefreshingToken svc, tokenRefreshPromise svc with
  | true, Some p => (Joined p, w)
  | _, _ =>
      match token_is_fresh t svc with
      | Some tok => (Cached tok, w)
      | None =>
          let w1 := set_service (mkService (accessToken svc) (tokenExpiresAt svc)
                                           true (tokenRefreshPromise svc)) w in
          let w2 := emit_event (NetAuthorize (PAYPACK_CLIENT_ID config)
                                             (PAYPACK_CLIENT_SECRET config)) w1 in
          let (p, w3) := new_promise w2 in
          (Started p,
           set_service (mkService (accessToken svc) (tokenExpiresAt svc)
                                  true (Some p)) w3)
      end
  end.

(** Largest time value of a JS [Date]; beyond it the date is invalid and
    [toISOString()] throws a [RangeError]. *)
Definition MAX_TIME_VALUE : Z := 8640000000000000.

(** [authenticate()] after the reply to its request has arrived: the value
    its promise settles with and the fields it leaves in the service. *)
Definition authenticate_continue (reply : NetResult PaypackAuthResponse)
           (svc : PaypackService) : Settled * PaypackService :=
  let failed (e : exn) :=
    (Rejected (handleApiError e),
     mkService None None (isRefreshingToken svc) (tokenRefreshPromise svc)) in
  match reply with
  | NetOk data =>
      if negb (Js.truthy_string (access data))
      then failed (JsError "Authentication response did not include an access token.")
      else if MAX_TIME_VALUE <? Z.abs (expires data * 1000)
      then failed (JsError "Invalid time value")
      else (Fulfilled (access data),
            mkService (Some (access data)) (Some (expires data * 1000))
                      (isRefreshingToken svc) (tokenRefreshPromise svc))
  | NetFail ax => failed (AxiosErr ax)
  end.

(** The reply to the request of promise [p] arrives (a promise settles once). *)
Definition authenticate_settle (p : nat) (reply : NetResult PaypackAuthResponse)
           (w : World) : World :=
  match promises w p with
  | Some _ => w
  | None =>
      let (r, svc) := authenticate_continue reply (service w) in
      settle p r (set_service svc w)
  end.

(** The [finally] block of [getValidAccessToken]. *)
Definition getValidAccessToken_finally (w : World) : World :=
  set_service (mkService (accessToken (service w)) (tokenExpiresAt (service w))
                         false None) w.

Definition result_of_settled (r : Settled) : result string :=
  match r with
  | Fulfilled tok => Ok tok
  | Rejected e => Throw (ApiErr e)
  end.

(** [getValidAccessToken()] run from call to return while one request is
    served: the reply of the environment settles the refresh that this call
    started or found in flight, and the [finally] of the call that started it
    runs before any other continuation. *)
Definition getValidAccessToken (config : Config) (env : Env) : M string :=
  fun w =>
    match getValidAccessToken_enter config (now env) w with
    | (Cached tok, w1) => (Ok tok, w1)
    | (Started p, w1) | (Joined p, w1) =>
        match promises w1 p with
        | Some r => (result_of_settled r, getValidAccessToken_finally w1)
        | None =>
            let (r, svc) := authenticate_continue (authReply env) (service w1) in
            (result_of_settled r,
             getValidAccessToken_finally (settle p r (set_service svc w1)))
        end
    end.

(** [cashin(params)] *)
Definition cashin (config : Config) (env : Env) (params : CashinParams) : M CashinResponse :=
  lift (cashin_validate params) ;;;
  token <- getValidAccessToken config env ;;
  modify (emit_event (NetCashin token (amount params) (number params))) ;;;
  match cashinReply env with
  | NetOk data => ret data
  | NetFail ax => throw (ApiErr (handleApiError (AxiosErr ax)))
  end.

(* ================================================================== *)
(** ** [server.ts] *)

(** *** The store: what the routes ask of [prisma.payment] *)

Definition has_id (pid : string) (p : Payment) : bool := String.eqb (id p) pid.

Definition has_ref (r : string) (p : Payment) : bool :=
  match paypackRef p with
  | Some r' => String.eqb r' r
  | None => false
  end.

(** [prisma.payment.create({ data: { amount } })]: status defaults to
    PENDING; the primary key is unique. *)
Definition payment_create (env : Env) (amt : float) : M Payment :=
  fun w =>
    if existsb (has_id (newId env)) (payments w)
    then (Throw (JsError "Unique constraint failed on the fields: (id)"), w)
    else
      let p := mkPayment (newId env) amt "PENDING" None (now env) (now env) in
      (Ok p, emit_event (DbCreate (id p)) (set_payments (fun l => l ++ [p]) w)).

Definition with_ref (t : Z) (r : string) (p : Payment) : Payment :=
  mkPayment (id p) (payment_amount p) (status p) (Some r) (createdAt p) t.

Definition with_status (t : Z) (st : string) (p : Payment) : Payment :=
  mkPayment (id p) (payment_amount p) st (paypackRef p) (createdAt p) t.

Definition update_where (pid : string) (f : Payment -> Payment) (l : list Payment)
  : list Payment :=
  map (fun p => if has_id pid p then f p else p) l.

(** [prisma.payment.update({ where: { id }, data: { paypackRef } })]; the
    column carries a unique index. *)
Definition payment_update_ref (env : Env) (pid r : string) : M unit :=
  fun w =>
    if negb (existsb (has_id pid) (payments w))
    then (Throw (JsError "Record to update not found."), w)
    else if existsb (fun p => has_ref r p && negb (has_id pid p)) (payments w)
    then (Throw (JsError "Unique constraint failed on the fields: (paypackRef)"), w)
    else (Ok tt, emit_event (DbSetRef pid r)
                   (set_payments (update_where pid (with_ref (now env) r)) w)).

(** [prisma.payment.update({ where: { id }, data: { status } })] *)
Definition payment_update_status (env : Env) (pid st : string) : M unit :=
  fun w =>
    if negb (existsb (has_id pid) (payments w))
    then (Throw (JsError "Record to update not found."), w)
    else (Ok tt, emit_event (DbSetStatus pid st)
                   (set_payments (update_where pid (with_status (now env) st)) w)).

(** The value of [data.ref], as the store client reads it in
    [where: { paypackRef: data.ref }].  The body is untyped JSON and the route
    checks nothing, so the member may be missing ([undefined]), [null], a
    string, an object that the client accepts as a filter on the column
    ([{ not: null }], [{ in: [...] }], ...), or a value that the client
    refuses (a number, a boolean, an array, any other object).  For a filter
    object the row that comes first is a matter of the store; [pick] is its
    choice, the position of a row or none, made from the column. *)
Inductive RefValue : Type :=
| RefUndefined
| RefNull
| RefString (s : string)
| RefFilter (pick : list (option string) -> option nat)
| RefInvalid.

Definition ref_is_null (p : Payment) : bool :=
  match paypackRef p with
  | Some _ => false
  | None => true
  end.

(** The row that [findFirst] answers with, rows being scanned in the order
    of their insertion: an [undefined] condition is dropped, so that the
    first row of the table is found; [null] finds the first row without a
    reference; a string finds the row with that reference. *)
Definition findFirst_where (v : RefValue) (l : list Payment) : result (option Payment) :=
  match v with
  | RefUndefined => Ok (hd_error l)
  | RefNull => Ok (find ref_is_null l)
  | RefString r => Ok (find (has_ref r) l)
  | RefFilter pick =>
      Ok (match pick (map paypackRef l) with
          | Some i => nth_error l i
          | None => None
          end)
  | RefInvalid => Throw (JsError "Invalid `prisma.payment.findFirst()` invocation")
  end.

(** [prisma.payment.findFirst({ where: { paypackRef } })] *)
Definition payment_findFirst (v : RefValue) : M (option Payment) :=
  fun w => (findFirst_where v (payments w), w).

(** *** [paymentSockets]: a JS [Map] kept in insertion order *)

Fixpoint Map_get (k : string) (m : list (string * string)) : option string :=
  match m with
  | [] => None
  | (k', v) :: rest => if String.eqb k' k then Some v else Map_get k rest
  end.

Fixpoint Map_set (k v : string) (m : list (string * string)) : list (string * string) :=
  match m with
  | [] => [(k, v)]
  | (k', v') :: rest =>
      if String.eqb k' k then (k', v) :: rest else (k', v') :: Map_set k v rest
  end.

Fixpoint Map_delete (k : string) (m : list (string * string)) : list (string * string) :=
  match m with
  | [] => []
  | (k', v') :: rest =>
      if String.eqb k' k then rest else (k', v') :: Map_delete k rest
  end.

(** [socket.on("registerPayment", ...)] *)
Definition registerPayment (socket_id paymentId : string) (w : World) : World :=
  set_paymentSockets (Map_set paymentId socket_id) w.

(** The loop of [socket.on("disconnect", ...)]: the first entry of the
    socket is deleted and the loop stops. *)
Fixpoint drop_first_of_socket (socket_id : string) (m : list (string * string))
  : list (string * string) :=
  match m with
  | [] => []
  | (paymentId, socketId) :: rest =>
      if String.eqb socketId socket_id then rest
      else (paymentId, socketId) :: drop_first_of_socket socket_id rest
  end.

Definition disconnect (socket_id : string) (w : World) : World :=
  set_paymentSockets (drop_first_of_socket socket_id) w.

(** *** Responses *)

Inductive Body : Type :=
| JsonError (error : string)
| JsonPaymentId (paymentId : string)
| Text (s : string).

Record Response : Type := mkResponse
  { res_status : Z;
    res_body : Body }.

(** *** Route 1: [POST /api/initiate-payment] *)

Definition initiate_payment_try (config : Config) (env : Env)
           (phoneNumber : string) (amt : float) : M Response :=
  payment <- payment_create env amt ;;
  paypackResponse <- cashin config env (mkCashinParams phoneNumber amt) ;;
  payment_update_ref env (id payment) (ref paypackResponse) ;;;
  ret (mkResponse 200 (JsonPaymentId (id payment))).

(** The request body carries [phoneNumber] and [amount]; a missing field is
    [None]. *)
Definition initiate_payment (config : Config) (env : Env)
           (phoneNumber : option string) (amt : option float) (w : World)
  : Response * World :=
  match phoneNumber, amt with
  | Some ph, Some a =>
      if negb (Js.truthy_string ph) || negb (Js.truthy_number a)
      then (mkResponse 400 (JsonError "Phone number and amount are required."), w)
      else
        match initiate_payment_try config env ph a w with
        | (Ok res, w') => (res, w')
        | (Throw _, w') =>
            (mkResponse 500 (JsonError "Failed to initiate payment."), w')
        end
  | _, _ => (mkResponse 400 (JsonError "Phone number and amount are required."), w)
  end.

(** *** Route 2: [POST /api/webhook] *)

(** A value of the parsed JSON body, as far as [===] can tell values apart. *)
Inductive JsValue : Type :=
| JsUndefined
| JsNull
| JsBool (b : bool)
| JsNumber (x : float)
| JsString (s : string)
| JsObject.

(** [v === lit] for a string literal [lit] *)
Definition strict_equals_string (v : JsValue) (lit : string) : bool :=
  match v with
  | JsString s => String.eqb s lit
  | _ => false
  end.

(** [req.body.data]: its members [ref] and [status], whatever they hold.  A
    [data] that is a string or a number has neither member: both are
    [undefined]. *)
Record WebhookData : Type := mkWebhookData
  { data_ref : RefValue;
    data_status : JsValue }.

(** [data.status === "successful" ? "SUCCESSFUL" : "FAILED"] *)
Definition newStatus_of (upstream : JsValue) : string :=
  if strict_equals_string upstream "successful" then "SUCCESSFUL" else "FAILED".

(** The real-time update: emit to the registered socket, then clean up. *)
Definition notify_socket (pid newStatus : string) : M unit :=
  fun w =>
    match Map_get pid (paymentSockets w) with
    | Some socketId =>
        if Js.truthy_string socketId
        then (Ok tt, set_paymentSockets (Map_delete pid)
                       (emit_event (Emit socketId newStatus) w))
        else (Ok tt, w)
    | None => (Ok tt, w)
    end.

(** The route after the signature check: look the payment up by reference,
    store the new status, notify. *)
Definition webhook_process (env : Env) (data : WebhookData) : M Response :=
  found <- payment_findFirst (data_ref data) ;;
  match found with
  | None => ret (mkResponse 404 (Text "Payment not found."))
  | Some payment =>
      let newStatus := newStatus_of (data_status data) in
      payment_update_status env (id payment) newStatus ;;;
      notify_socket (id payment) newStatus ;;;
      ret (mkResponse 200 (Text "Webhook processed."))
  end.

(** The state in which [webhook_process] leaves a payment that it found:
    status stored, then the socket notified. *)
Definition resolved (env : Env) (payment : Payment) (newStatus : string) (w : World)
  : World :=
  snd (notify_socket (id payment) newStatus
         (emit_event (DbSetStatus (id payment) newStatus)
            (set_payments (update_where (id payment) (with_status (now env) newStatus)) w))).

Definition webhook_try (config : Config) (env : Env) (signature : option string)
           (rawBody : option (list byte)) (data : option WebhookData) : M Response :=
  verified <- lift (verifyWebhookSignature (PAYPACK_WEBHOOK_SECRET config)
                                           signature rawBody) ;;
  if negb verified then ret (mkResponse 401 (Text "Invalid signature."))
  else
    match data with
    | None => throw (JsError "Cannot read properties of undefined (reading 'ref')")
    | Some d => webhook_process env d
    end.

(** [signature] is the [x-paypack-signature] header, [rawBody] the bytes kept
    by the body parser and [data] the [data] member of the parsed body. *)
Definition webhook (config : Config) (env : Env) (signature : option string)
           (rawBody : option (list byte)) (data : option WebhookData) (w : World)
  : Response * World :=
  match webhook_try config env signature rawBody data w with
  | (Ok res, w') => (res, w')
  | (Throw _, w') => (mkResponse 500 (Text "Error processing webhook."), w')
  end.

(** *** Everything the server does *)

Inductive Request : Type :=
| InitiatePayment (env : Env) (phoneNumber : option string) (amt : option float)
| Webhook (env : Env) (signature : option string) (rawBody : option (list byte))
          (data : option WebhookData)
| RegisterPayment (socket_id paymentId : string)
| Disconnect (socket_id : string).

Definition serve (config : Config) (req : Request) (w : World) : World :=
  match req with
  | InitiatePayment env ph a => snd (initiate_payment config env ph a w)
  | Webhook env sg raw d => snd (webhook config env sg raw d w)
  | RegisterPayment sock pid => registerPayment sock pid w
  | Disconnect sock => disconnect sock w
  end.

Definition serve_all (config : Config) (reqs : list Request) (w : World) : World :=
  fold_left (fun w' req => serve config req w') reqs w.

(** The status stored for a payment identifier, if there is such a row. *)
Definition status_of (pid : string) (w : World) : option string :=
  option_map status (find (has_id pid) (payments w)).

Definition terminal (st : string) : Prop := st = "SUCCESSFUL" \/ st = "FAILED".

(* ================================================================== *)
(** ** Overlapping calls of [getValidAccessToken]

    Calls coming from different requests interleave at their [await]s.  A
    caller is suspended either inside the [try] (it started the refresh) or on
    the promise it returned (it found a refresh in flight); the reply of the
    gateway and the resumption of each suspended caller are separate steps
    that may come in any order. *)

Inductive CallerState : Type :=
| AwaitingInTry (p : nat)
| AwaitingShared (p : nat)
| Returned (r : Settled).

Record Loop : Type := mkLoop
  { world : World;
    callers : nat -> option CallerState }.

Inductive LoopEvent : Type :=
| Call (c : nat) (t : Z)                               (* caller [c] calls at time [t] *)
| Reply (p : nat) (reply : NetResult PaypackAuthResponse)
| Resume (c : nat).

Definition set_caller (c : nat) (st : CallerState) (l : Loop) (w : World) : Loop :=
  mkLoop w (fun c' => if Nat.eqb c' c then Some st else callers l c').

Definition loop_step (config : Config) (l : Loop) (ev : LoopEvent) : Loop :=
  match ev with
  | Call c t =>
      match getValidAccessToken_enter config t (world l) with
      | (Joined p, w) => set_caller c (AwaitingShared p) l w
      | (Cached tok, w) => set_caller c (Returned (Fulfilled tok)) l w
      | (Started p, w) => set_caller c (AwaitingInTry p) l w
      end
  | Reply p reply => mkLoop (authenticate_settle p reply (world l)) (callers l)
  | Resume c =>
      match callers l c with
      | Some (AwaitingInTry p) =>
          match promises (world l) p with
          | Some r => set_caller c (Returned r) l (getValidAccessToken_finally (world l))
          | None => l
          end
      | Some (AwaitingShared p) =>
          match promises (world l) p with
          | Some r => set_caller c (Returned r) l (world l)
          | None => l
          end
      | _ => l
      end
  end.

Definition loop_run (config : Config) (evs : list LoopEvent) (l : Loop) : Loop :=
  fold_left (loop_step config) evs l.

Definition is_authorize (e : Event) : bool :=
  match e with NetAuthorize _ _ => true | _ => false end.

(** Number of authentication requests sent so far. *)
Definition auth_calls (w : World) : nat :=
  List.length (filter is_authorize (trace w)).

Definition is_network (e : Event) : bool :=
  match e with NetAuthorize _ _ | NetCashin _ _ _ => true | _ => false end.

Definition network_calls (w : World) : list Event := filter is_network (trace w).

(** The signature the verifier expects for a body. *)
Definition expectedSignature (secret : string) (body : list byte) : string :=
  Base64.encode (Hmac.hmac_sha256 (Js.Buffer_from secret) body).

(** [l'] is [l] with exactly one position changed. *)
Definition one_changed {A : Type} (l l' : list A) : Prop :=
  exists pre x y post, x <> y /\ l = pre ++ x :: post /\ l' = pre ++ y :: post.

(** What the promise of [authenticate()] settles with, given the reply. *)
Definition auth_outcome (reply : NetResult PaypackAuthResponse) : Settled :=
  fst (authenticate_continue reply new_PaypackService).



(** The process with no caller yet. *)
Definition initial_loop : Loop := mkLoop initial_world (fun _ => None).


(* ================================================================== *)
(** ** Vocabulary of the properties *)

(** The national mobile format: 07 followed by eight decimal digits. *)
Definition phone_format (s : string) : Prop :=
  exists digits,
    s = ("07" ++ digits)%string
    /\ String.length digits = 8%nat
    /\ forall c, In c (list_ascii_of_string digits) -> is_digit c = true.

Definition is_emit (e : Event) : bool :=
  match e with Emit _ _ => true | _ => false end.

(** The notifications pushed so far. *)
Definition pushes (w : World) : list Event := filter is_emit (trace w).

(** A JS [Map] holds a key once. *)
Definition registry_ok (w : World) : Prop := NoDup (map fst (paymentSockets w)).

(** Two states with the same store and the same registry. *)
Definition same_store (w w' : World) : Prop :=
  payments w' = payments w /\ paymentSockets w' = paymentSockets w.

(* ================================================================== *)
(** ** A concrete deployment, used to run the definitions *)

Definition demo_config : Config := mkConfig "client-id" "client-secret" "whsec_demo".

Definition demo_env : Env :=
  mkEnv 1700000000000 "pay_1"
        (NetOk (mkAuthResponse "tok_1" "rfr_1" 1700003600))
        (NetOk (mkCashinResponse "abc123" "pending" 500%float "mtn" "2023-11-14")).

Definition dquote : string := String (ascii_of_nat 34) EmptyString.

(** The bytes of a webhook body with the members [ref] and [status] of [data]. *)
Definition webhook_json (r st : string) : list byte :=
  Js.Buffer_from
    ("{" ++ dquote ++ "data" ++ dquote ++ ":{"
         ++ dquote ++ "ref" ++ dquote ++ ":" ++ dquote ++ r ++ dquote ++ ","
         ++ dquote ++ "status" ++ dquote ++ ":" ++ dquote ++ st ++ dquote ++ "}}")%string.

(** The bytes of a webhook body whose [data] has the member [status] only. *)
Definition webhook_json_without_ref (st : string) : list byte :=
  Js.Buffer_from
    ("{" ++ dquote ++ "data" ++ dquote ++ ":{"
         ++ dquote ++ "status" ++ dquote ++ ":" ++ dquote ++ st ++ dquote ++ "}}")%string.

(** Signatures of the provider under the secret of [demo_config]. *)
Definition sig_successful : string := "jbbxpFKMZZ9oXFkxDHLG0vHjMACrjDoL8nWLC7dBLPs=".
Definition sig_rejected : string := "BUDM6pLQ8pL6sBjvWyF0fUdvtYPEeouasW3+DDf4JpE=".

(** The payment of the scenario: initiated, accepted by the gateway under the
    reference abc123, and watched by socket sock_1. *)
Definition pending_world : World :=
  serve_all demo_config
    [InitiatePayment demo_env (Some "0781234567") (Some 500%float);
     RegisterPayment "sock_1" "pay_1"]
    initial_world.

(** Its row in [pending_world]. *)
Definition pay_1_pending : Payment :=
  mkPayment "pay_1" 500%float "PENDING" (Some "abc123") 1700000000000 1700000000000.

(** What [notify_socket] adds to the trace. *)
Definition push_events (pid newStatus : string) (w : World) : list Event :=
  match Map_get pid (paymentSockets w) with
  | Some socketId => if Js.truthy_string socketId then [Emit socketId newStatus] else []
  | None => []
  end.

Definition webhook_successful : Request :=
  Webhook demo_env (Some sig_successful) (Some (webhook_json "abc123" "successful"))
          (Some (mkWebhookData (RefString "abc123") (JsString "successful"))).

Definition webhook_rejected : Request :=
  Webhook demo_env (Some sig_rejected) (Some (webhook_json "abc123" "rejected"))
          (Some (mkWebhookData (RefString "abc123") (JsString "rejected"))).

(** The scenario after the first webhook: the payment is SUCCESSFUL. *)
Definition paid_world : World := serve demo_config webhook_successful pending_world.

(* ================================================================== *)
(** ** Further vocabulary: well-formed states *)

(** Promises that have not been created yet are pending. *)
Definition promises_fresh (w : World) : Prop :=
  forall q, (nextPromise w <= q)%nat -> promises w q = None.

(** The authorize request of this deployment. *)
Definition authorize_request (config : Config) : Event :=
  NetAuthorize (PAYPACK_CLIENT_ID config) (PAYPACK_CLIENT_SECRET config).








(** The columns of a payment that no update of the routes writes once the
    payment is stored under a reference. *)
Definition fixed_columns (p : Payment) : string * float * option string * Z :=
  (id p, payment_amount p, paypackRef p, createdAt p).

(** The row that [create] stores. *)
Definition new_row (env : Env) (amt : float) : Payment :=
  mkPayment (newId env) amt "PENDING" None (now env) (now env).

(** The registrations held for a socket, oldest first. *)
Definition registrations_of (socket_id : string) (m : list (string * string))
  : list (string * string) :=
  filter (fun kv => String.eqb (snd kv) socket_id) m.

(** The references carried by the stored payments. *)
Definition stored_refs (l : list Payment) : list string :=
  flat_map (fun p => match paypackRef p with Some r => [r] | None => [] end) l.

(** Identifiers and references identify the stored payments. *)
Definition store_ok (w : World) : Prop :=
  NoDup (map id (payments w)) /\ NoDup (stored_refs (payments w)).

(* ================================================================== *)
(** ** [frontend/src/App.tsx]: what the page checks and shows *)

Module Frontend.



(** [PRODUCT.price], the amount of every request of the page. *)
Definition PRODUCT_price : float := 100%float.

(** The pattern [07\d{8}] at the head of the string. *)
Definition matches_here (s : string) : bool :=
  match s with
  | String "0"%char (String "7"%char rest) =>
      (8 <=? String.length rest)%nat
      && forallb is_digit (firstn 8 (list_ascii_of_string rest))
  | _ => false
  end.

(** [/07\d{8}/.test(s)]: the pattern carries no anchor, so it is searched
    from every position of the string. *)
Fixpoint phone_test (s : string) : bool :=
  matches_here s
  || match s with
     | EmptyString => false
     | String _ rest => phone_test rest
     end.


End Frontend.

(* ================================================================== *)
(** ** Properties of the primitives *)

Section Primitives.

(** The primitives on the test vectors of their standards: FIPS 180-4 (one
    and two blocks), RFC 4231 (cases 2 and 6), RFC 4648, and a character
    above 127 for [Buffer.from]. *)
Example sha256_abc :
  Base64.encode (Sha256.sha256 (Js.Buffer_from "abc"))
  = "ungWv48Bz+pBQUDeXa4iI7ADYaOWF3qctBD/YfIAFa0=".
Proof. vm_compute. reflexivity. Qed.

Example sha256_two_blocks :
  Base64.encode
    (Sha256.sha256
       (Js.Buffer_from "abcdbcdecdefdefgefghfghighijhijkijkljklmklmnlmnomnopnopq"))
  = "JI1qYdIGOLjlwCaTDD5gOaM85Flk/yFn9uzt1BnbBsE=".
Proof. vm_compute. reflexivity. Qed.

Example hmac_sha256_short_key :
  Base64.encode (Hmac.hmac_sha256 (Js.Buffer_from "Jefe")
                                  (Js.Buffer_from "what do ya want for nothing?"))
  = "W9zBRr9gdU5qBCQmCJV1x1oAPwidJzmDnexYuWTsOEM=".
Proof. vm_compute. reflexivity. Qed.

Example hmac_sha256_long_key :
  Base64.encode
    (Hmac.hmac_sha256 (repeat xaa 131)
       (Js.Buffer_from "Test Using Larger Than Block-Size Key - Hash Key First"))
  = "YOQxWR7gtn8Niiaqy/W3f44LxiE3KMUUBUYEDw7jf1Q=".
Proof. vm_compute. reflexivity. Qed.

Example base64_padding :
  Base64.encode (Js.Buffer_from "foobar") = "Zm9vYmFy"
  /\ Base64.encode (Js.Buffer_from "fooba") = "Zm9vYmE="
  /\ Base64.encode (Js.Buffer_from "foob") = "Zm9vYg==".
Proof. vm_compute. repeat split. Qed.

Example Buffer_from_e_acute :
  Js.Buffer_from (String (ascii_of_nat 233) EmptyString) = [xc3; xa9].
Proof. vm_compute. reflexivity. Qed.

Lemma Z_of_byte_inj (a b : byte) : Js.Z_of_byte a = Js.Z_of_byte b -> a = b.
Proof.
  unfold Js.Z_of_byte. intros H. apply N2Z.inj in H.
  assert (E : Byte.of_N (Byte.to_N a) = Byte.of_N (Byte.to_N b)) by (now rewrite H).
  rewrite !Byte.of_to_N in E. now inversion E.
Qed.

Lemma utf8_head_char (c : ascii) (l : list byte) :
  Js.utf8_head (Js.utf8_char c ++ l) = Some (c, l).
Proof.
  destruct c as [[] [] [] [] [] [] [] []]; reflexivity.
Qed.

Lemma Buffer_from_inj (s1 s2 : string) :
  Js.Buffer_from s1 = Js.Buffer_from s2 -> s1 = s2.
Proof.
  revert s2. induction s1 as [|c1 r1 IH]; intros [|c2 r2] H; simpl in H.
  - reflexivity.
  - apply (f_equal Js.utf8_head) in H. rewrite utf8_head_char in H. discriminate.
  - apply (f_equal Js.utf8_head) in H. rewrite utf8_head_char in H. discriminate.
  - apply (f_equal Js.utf8_head) in H. rewrite !utf8_head_char in H.
    inversion H; subst. f_equal. now apply IH.
Qed.

Lemma fold_lor_zero (l : list Z) (acc : Z) :
  fold_left Z.lor l acc = 0 <-> acc = 0 /\ Forall (fun x => x = 0) l.
Proof.
  revert acc. induction l as [|x l IH]; intros acc; simpl.
  - split; [intros ->; split; [reflexivity | constructor] | intros [-> _]; reflexivity].
  - rewrite IH, Z.lor_eq_0_iff. split.
    + intros [[-> ->] Hl]. split; [reflexivity | now constructor].
    + intros [-> Hl]. inversion Hl; subst. now repeat split.
Qed.

Lemma xor_pairs_zero (a b : list byte) :
  List.length a = List.length b ->
  Forall (fun x => x = 0)
         (map (fun p => Z.lxor (Js.Z_of_byte (fst p)) (Js.Z_of_byte (snd p))) (combine a b))
  <-> a = b.
Proof.
  revert b. induction a as [|x a IH]; intros [|y b] Hlen; simpl in *; try discriminate.
  - split; [reflexivity | constructor].
  - injection Hlen as Hlen. split.
    + intros H. inversion H as [|? ? Hx Hrest]; subst.
      apply Z.lxor_eq, Z_of_byte_inj in Hx. subst. f_equal. now apply IH.
    + intros E. injection E as -> ->. constructor.
      * apply Z.lxor_nilpotent.
      * now apply IH.
Qed.

(** On buffers of equal length [timingSafeEqual] decides equality. *)
Lemma timingSafeEqual_same_length (a b : list byte) :
  List.length a = List.length b ->
  exists r, timingSafeEqual a b = Ok r /\ (r = true <-> a = b).
Proof.
  intros Hlen. unfold timingSafeEqual, Js.Buffer_length.
  rewrite Hlen, Z.eqb_refl. simpl. eexists. split; [reflexivity|].
  rewrite Z.eqb_eq, fold_lor_zero, xor_pairs_zero by assumption. tauto.
Qed.

Lemma be_bytes_length (n : nat) (x : Z) : List.length (Sha256.be_bytes n x) = n.
Proof. unfold Sha256.be_bytes. now rewrite length_map, length_seq. Qed.

Lemma digest_bytes_length (h : Sha256.hash_state) :
  List.length (Sha256.digest_bytes h) = 32%nat.
Proof.
  unfold Sha256.digest_bytes. rewrite !length_app, !be_bytes_length. reflexivity.
Qed.

Lemma sha256_length (msg : list byte) : List.length (Sha256.sha256 msg) = 32%nat.
Proof. unfold Sha256.sha256. cbv zeta. apply digest_bytes_length. Qed.

Lemma hmac_sha256_length (key msg : list byte) :
  List.length (Hmac.hmac_sha256 key msg) = 32%nat.
Proof. unfold Hmac.hmac_sha256. cbv zeta. apply sha256_length. Qed.

Lemma encode_truthy (l : list byte) :
  l <> [] -> Js.truthy_string (Base64.encode l) = true.
Proof.
  destruct l as [|a [|b [|c r]]]; intros H; [contradiction | reflexivity ..].
Qed.

(** The expected signature is never the empty string. *)
Lemma expectedSignature_truthy (secret : string) (body : list byte) :
  Js.truthy_string (expectedSignature secret body) = true.
Proof.
  apply encode_truthy. intros E.
  pose proof (hmac_sha256_length (Js.Buffer_from secret) body) as L.
  rewrite E in L. discriminate.
Qed.

Lemma Z_of_byte_range (b : byte) : 0 <= Js.Z_of_byte b < 256.
Proof.
  unfold Js.Z_of_byte. pose proof (Byte.to_N_bounded b). lia.
Qed.

Lemma undigit_digit (i : Z) : 0 <= i < 64 -> Base64.undigit (Base64.digit i) = Some i.
Proof.
  intros H. rewrite <- (Z2Nat.id i) by lia.
  assert (L : (Z.to_nat i < 64)%nat) by lia.
  generalize dependent (Z.to_nat i). clear. intros n L.
  do 64 (destruct n as [|n]; [reflexivity|]). lia.
Qed.

Lemma digit_inj (i j : Z) :
  0 <= i < 64 -> 0 <= j < 64 -> Base64.digit i = Base64.digit j -> i = j.
Proof.
  intros Hi Hj E. apply (f_equal Base64.undigit) in E.
  rewrite !undigit_digit in E by assumption. now inversion E.
Qed.

Lemma digit_not_pad (i : Z) : 0 <= i < 64 -> Base64.digit i <> "="%char.
Proof.
  intros Hi E. apply (f_equal Base64.undigit) in E.
  rewrite undigit_digit in E by assumption. discriminate.
Qed.

Lemma sextet_range (x : Z) : 0 <= Z.land x 63 < 64.
Proof. change 63 with (Z.ones 6). rewrite Z.land_ones by lia. apply Z.mod_pos_bound. lia. Qed.

Ltac sextets :=
  rewrite ?Z.shiftr_div_pow2, ?Z.shiftl_mul_pow2 in * by lia;
  change 63 with (Z.ones 6) in *; change 15 with (Z.ones 4) in *;
  change 3 with (Z.ones 2) in *;
  rewrite ?Z.land_ones in * by lia;
  change (2 ^ 2) with 4 in *; change (2 ^ 4) with 16 in *; change (2 ^ 6) with 64 in *;
  change (2 ^ 10) with 1024 in *; change (2 ^ 12) with 4096 in *;
  change (2 ^ 18) with 262144 in *.

Lemma encode_1 (a : byte) :
  Base64.encode [a] =
  String (Base64.digit (Z.shiftr (Js.Z_of_byte a) 2))
    (String (Base64.digit (Z.shiftl (Z.land (Js.Z_of_byte a) 3) 4)) "==").
Proof. reflexivity. Qed.

Lemma encode_2 (a b : byte) :
  Base64.encode [a; b] =
  String (Base64.digit (Z.shiftr (Js.Z_of_byte a * 256 + Js.Z_of_byte b) 10))
    (String (Base64.digit (Z.land (Z.shiftr (Js.Z_of_byte a * 256 + Js.Z_of_byte b) 4) 63))
       (String (Base64.digit
                  (Z.shiftl (Z.land (Js.Z_of_byte a * 256 + Js.Z_of_byte b) 15) 2)) "=")).
Proof. reflexivity. Qed.

Lemma encode_3 (a b c : byte) (rest : list byte) :
  Base64.encode (a :: b :: c :: rest) =
  let n := Js.Z_of_byte a * 65536 + Js.Z_of_byte b * 256 + Js.Z_of_byte c in
  String (Base64.digit (Z.shiftr n 18))
    (String (Base64.digit (Z.land (Z.shiftr n 12) 63))
       (String (Base64.digit (Z.land (Z.shiftr n 6) 63))
          (String (Base64.digit (Z.land n 63)) (Base64.encode rest)))).
Proof. reflexivity. Qed.

Lemma String_inj (c c' : ascii) (s s' : string) :
  String c s = String c' s' -> c = c' /\ s = s'.
Proof. intros H. now inversion H. Qed.

Ltac string_inv :=
  repeat match goal with
         | H : String _ _ = String _ _ |- _ => apply String_inj in H; destruct H
         | H : EmptyString = EmptyString |- _ => clear H
         end.

Ltac sextet_bound :=
  first [ apply sextet_range | sextets; Z.div_mod_to_equations; lia ].

Ltac pad_contra :=
  match goal with
  | H : "="%char = Base64.digit _ |- _ =>
      symmetry in H; apply digit_not_pad in H; [contradiction | sextet_bound]
  | H : Base64.digit _ = "="%char |- _ =>
      apply digit_not_pad in H; [contradiction | sextet_bound]
  end.

Ltac digits_inv :=
  repeat match goal with
         | H : Base64.digit _ = Base64.digit _ |- _ =>
             apply digit_inj in H; [| sextet_bound ..]
         end.

Lemma encode_inj : forall l1 l2 : list byte,
  Base64.encode l1 = Base64.encode l2 -> l1 = l2.
Proof.
  assert (G : forall n (l1 l2 : list byte), (List.length l1 <= n)%nat ->
              Base64.encode l1 = Base64.encode l2 -> l1 = l2).
  { induction n as [|n IH]; intros l1 l2 Hn E.
    - destruct l1; [|simpl in Hn; lia].
      destruct l2 as [|a [|b [|c r]]]; [reflexivity | discriminate ..].
    - destruct l1 as [|a1 l1].
      { destruct l2 as [|a2 [|b2 [|c2 r2]]]; [reflexivity | discriminate E ..]. }
      destruct l2 as [|a2 l2].
      { destruct l1 as [|b1 [|c1 r1]]; discriminate E. }
      destruct l1 as [|b1 [|c1 r1]]; destruct l2 as [|b2 [|c2 r2]];
        rewrite ?encode_1, ?encode_2, ?encode_3 in E; cbv zeta in E;
        rewrite ?Z.shiftl_mul_pow2 in E by lia;
        repeat match goal with
               | x : byte |- _ =>
                   lazymatch goal with
                   | _ : 0 <= Js.Z_of_byte x < 256 |- _ => fail
                   | _ => pose proof (Z_of_byte_range x)
                   end
               end;
        string_inv; try pad_contra.
      + digits_inv.
        f_equal. apply Z_of_byte_inj. sextets. Z.div_mod_to_equations. lia.
      + digits_inv.
        assert (Js.Z_of_byte a1 = Js.Z_of_byte a2 /\ Js.Z_of_byte b1 = Js.Z_of_byte b2)
          as [Ea Eb] by (sextets; Z.div_mod_to_equations; lia).
        apply Z_of_byte_inj in Ea, Eb. now subst.
      + digits_inv.
        assert (Js.Z_of_byte a1 = Js.Z_of_byte a2 /\ Js.Z_of_byte b1 = Js.Z_of_byte b2
                /\ Js.Z_of_byte c1 = Js.Z_of_byte c2)
          as (Ea & Eb & Ec) by (sextets; Z.div_mod_to_equations; lia).
        apply Z_of_byte_inj in Ea, Eb, Ec. subst.
        do 3 f_equal. apply IH; [simpl in Hn; lia | assumption]. }
  intros l1 l2. now apply (G (List.length l1)).
Qed.

Lemma one_changed_neq {A : Type} (l l' : list A) : one_changed l l' -> l <> l'.
Proof.
  intros (pre & x & y & post & Hxy & -> & ->) E.
  apply app_inv_head in E. now inversion E.
Qed.

End Primitives.

(* ================================================================== *)
(** ** The webhook verifier *)

Lemma compare_signatures_eqb (sig expected : string) :
  compare_signatures sig expected =
  if String.eqb sig expected then Ok true
  else Throw (ApiErr invalid_signature_error).
Proof.
  unfold compare_signatures, Js.Buffer_length. cbv zeta.
  destruct (Z.eqb_spec (Z.of_nat (List.length (Js.Buffer_from sig)))
                       (Z.of_nat (List.length (Js.Buffer_from expected)))) as [Hlen|Hlen];
    cbn [negb bind_result].
  - apply Nat2Z.inj in Hlen.
    destruct (timingSafeEqual_same_length _ _ Hlen) as (r & Hr & Hiff).
    rewrite Hr. cbn [bind_result]. destruct r; cbn [negb].
    + assert (E : sig = expected) by (apply Buffer_from_inj, Hiff; reflexivity).
      rewrite E, String.eqb_refl. reflexivity.
    + destruct (String.eqb_spec sig expected) as [E|_]; [|reflexivity].
      subst sig. destruct Hiff as [_ Hiff]. specialize (Hiff eq_refl). discriminate.
  - destruct (String.eqb_spec sig expected) as [E|_]; [|reflexivity].
    subst sig. contradiction Hlen. reflexivity.
Qed.

Section Verifier.

Variable secret : string.

Lemma verify_try_block_body (sig : string) (body : list byte) :
  verify_try_block secret sig (Some body) =
  if String.eqb sig (expectedSignature secret body) then Ok true
  else Throw (ApiErr invalid_signature_error).
Proof.
  unfold verify_try_block, expected_signature. cbn [bind_result].
  apply compare_signatures_eqb.
Qed.

(** The three outcomes of the verifier on a present header and body. *)
Lemma verifyWebhookSignature_body (sig : string) (body : list byte) :
  verifyWebhookSignature secret (Some sig) (Some body) =
  if negb (Js.truthy_string sig) then Throw (ApiErr missing_signature_error)
  else if String.eqb sig (expectedSignature secret body) then Ok true
  else Throw (ApiErr signature_verification_failed_error).
Proof.
  unfold verifyWebhookSignature. destruct (Js.truthy_string sig); cbn [negb]; [|reflexivity].
  rewrite verify_try_block_body.
  now destruct (String.eqb sig (expectedSignature secret body)).
Qed.

Lemma verify_accepts_iff (sig : string) (body : list byte) :
  verifyWebhookSignature secret (Some sig) (Some body) = Ok true
  <-> sig = expectedSignature secret body.
Proof.
  rewrite verifyWebhookSignature_body. split.
  - destruct (Js.truthy_string sig); cbn [negb]; [|discriminate].
    destruct (String.eqb_spec sig (expectedSignature secret body)); [trivial|discriminate].
  - intros ->. now rewrite expectedSignature_truthy, String.eqb_refl.
Qed.

(** Whatever the header and the body, the verifier returns [true] or throws
    an [ApiError]. *)
Lemma verify_true_or_throws (signature : option string) (rawBody : option (list byte)) :
  verifyWebhookSignature secret signature rawBody = Ok true
  \/ exists e, verifyWebhookSignature secret signature rawBody = Throw (ApiErr e).
Proof.
  destruct signature as [sig|]; [|right; eexists; reflexivity].
  destruct rawBody as [body|].
  - rewrite verifyWebhookSignature_body.
    destruct (Js.truthy_string sig); cbn [negb]; [|right; eexists; reflexivity].
    destruct (String.eqb sig (expectedSignature secret body));
      [now left | right; eexists; reflexivity].
  - right. unfold verifyWebhookSignature.
    destruct (Js.truthy_string sig); cbn [negb]; eexists; reflexivity.
Qed.

End Verifier.

(* ================================================================== *)
(** ** The webhook route, case by case *)

Section WebhookRoute.

Variables (config : Config) (env : Env).

(** Whatever [data.ref] holds, a row that [findFirst] answers with is a row
    of the table. *)
Lemma findFirst_where_In (v : RefValue) (l : list Payment) (payment : Payment) :
  findFirst_where v l = Ok (Some payment) -> In payment l.
Proof.
  destruct v as [| |r|pick|]; cbn [findFirst_where]; intros H;
    try discriminate; injection H as H.
  - destruct l as [|p l]; [discriminate|]. injection H as ->. now left.
  - now apply find_some in H.
  - now apply find_some in H.
  - destruct (pick (map paypackRef l)) as [i|]; [|discriminate].
    now apply nth_error_In in H.
Qed.

Lemma found_has_id (v : RefValue) (l : list Payment) (payment : Payment) :
  findFirst_where v l = Ok (Some payment) -> existsb (has_id (id payment)) l = true.
Proof.
  intros H. apply findFirst_where_In in H. apply existsb_exists.
  exists payment. split; [assumption | apply String.eqb_refl].
Qed.

Lemma webhook_process_found (data : WebhookData) (w : World) (payment : Payment) :
  findFirst_where (data_ref data) (payments w) = Ok (Some payment) ->
  webhook_process env data w =
  (Ok (mkResponse 200 (Text "Webhook processed.")),
   resolved env payment (newStatus_of (data_status data)) w).
Proof.
  intros H. unfold webhook_process, bind, payment_findFirst, resolved. rewrite H.
  unfold payment_update_status. rewrite (found_has_id _ _ _ H). cbn [negb].
  unfold notify_socket. cbn [paymentSockets emit_event set_payments].
  destruct (Map_get (id payment) (paymentSockets w)) as [socketId|]; [|reflexivity].
  destruct (Js.truthy_string socketId); reflexivity.
Qed.

Lemma webhook_process_not_found (data : WebhookData) (w : World) :
  findFirst_where (data_ref data) (payments w) = Ok None ->
  webhook_process env data w = (Ok (mkResponse 404 (Text "Payment not found.")), w).
Proof.
  intros H. unfold webhook_process, bind, payment_findFirst. now rewrite H.
Qed.

Lemma webhook_process_refused (data : WebhookData) (w : World) (e : exn) :
  findFirst_where (data_ref data) (payments w) = Throw e ->
  webhook_process env data w = (Throw e, w).
Proof.
  intros H. unfold webhook_process, bind, payment_findFirst. now rewrite H.
Qed.

Lemma webhook_throws (signature : option string) (rawBody : option (list byte))
      (data : option WebhookData) (w : World) (e : exn) :
  verifyWebhookSignature (PAYPACK_WEBHOOK_SECRET config) signature rawBody = Throw e ->
  webhook config env signature rawBody data w =
  (mkResponse 500 (Text "Error processing webhook."), w).
Proof.
  intros H. unfold webhook, webhook_try, bind, lift. now rewrite H.
Qed.

Lemma webhook_verified (signature : option string) (rawBody : option (list byte))
      (data : WebhookData) (w : World) :
  verifyWebhookSignature (PAYPACK_WEBHOOK_SECRET config) signature rawBody = Ok true ->
  webhook config env signature rawBody (Some data) w =
  match findFirst_where (data_ref data) (payments w) with
  | Ok (Some payment) =>
      (mkResponse 200 (Text "Webhook processed."),
       resolved env payment (newStatus_of (data_status data)) w)
  | Ok None => (mkResponse 404 (Text "Payment not found."), w)
  | Throw _ => (mkResponse 500 (Text "Error processing webhook."), w)
  end.
Proof.
  intros H. unfold webhook, webhook_try, bind, lift. rewrite H. cbn [negb].
  destruct (findFirst_where (data_ref data) (payments w)) as [[payment|]|e] eqn:F.
  - now rewrite (webhook_process_found _ _ _ F).
  - now rewrite (webhook_process_not_found _ _ F).
  - now rewrite (webhook_process_refused _ _ _ F).
Qed.

Lemma webhook_verified_no_data (signature : option string) (rawBody : option (list byte))
      (w : World) :
  verifyWebhookSignature (PAYPACK_WEBHOOK_SECRET config) signature rawBody = Ok true ->
  webhook config env signature rawBody None w =
  (mkResponse 500 (Text "Error processing webhook."), w).
Proof.
  intros H. unfold webhook, webhook_try, bind, lift. now rewrite H.
Qed.

(** The answers the route can give. *)
Lemma webhook_statuses (signature : option string) (rawBody : option (list byte))
      (data : option WebhookData) (w : World) :
  In (res_status (fst (webhook config env signature rawBody data w))) [200; 404; 500].
Proof.
  destruct (verify_true_or_throws (PAYPACK_WEBHOOK_SECRET config) signature rawBody)
    as [H|[e H]].
  - destruct data as [d|].
    + rewrite (webhook_verified _ _ _ _ H).
      destruct (findFirst_where (data_ref d) (payments w)) as [[payment|]|e];
        simpl; tauto.
    + rewrite (webhook_verified_no_data _ _ _ H). simpl; tauto.
  - rewrite (webhook_throws _ _ _ _ _ H). simpl; tauto.
Qed.

End WebhookRoute.

(* ================================================================== *)
(** ** The store *)

Section Store.

Lemma find_update_where (pid pid' : string) (f : Payment -> Payment) (l : list Payment) :
  (forall p, id (f p) = id p) ->
  find (has_id pid') (update_where pid f l) =
  option_map (fun p => if has_id pid p then f p else p) (find (has_id pid') l).
Proof.
  intros Hid. induction l as [|p l IH]; [reflexivity|].
  cbn [update_where map find]. fold (update_where pid f l).
  assert (E : has_id pid' (if has_id pid p then f p else p) = has_id pid' p).
  { unfold has_id at 1 3. destruct (has_id pid p); [now rewrite Hid | reflexivity]. }
  rewrite E. destruct (has_id pid' p); [reflexivity | exact IH].
Qed.

Lemma find_has_id (pid : string) (l : list Payment) (p : Payment) :
  find (has_id pid) l = Some p -> id p = pid.
Proof.
  intros H. apply find_some in H. destruct H as [_ H]. now apply String.eqb_eq in H.
Qed.

(** A status update changes the status of the payment it names and of no
    other. *)
Lemma status_of_update_status (pid pid' : string) (t : Z) (st : string) (w : World) :
  status_of pid' (set_payments (update_where pid (with_status t st)) w) =
  if String.eqb pid' pid then option_map (fun _ => st) (status_of pid' w)
  else status_of pid' w.
Proof.
  unfold status_of, set_payments. cbn [payments].
  rewrite find_update_where by reflexivity.
  destruct (find (has_id pid') (payments w)) as [p|] eqn:F; cbn [option_map].
  - apply find_has_id in F. unfold has_id. rewrite F.
    destruct (String.eqb pid' pid); reflexivity.
  - now destruct (String.eqb pid' pid).
Qed.

Lemma status_of_update_ref (pid pid' : string) (t : Z) (r : string) (w : World) :
  status_of pid' (set_payments (update_where pid (with_ref t r)) w) = status_of pid' w.
Proof.
  unfold status_of, set_payments. cbn [payments].
  rewrite find_update_where by reflexivity.
  destruct (find (has_id pid') (payments w)) as [p|]; [|reflexivity].
  cbn [option_map]. now destruct (has_id pid p).
Qed.

Lemma payments_notify_socket (pid st : string) (w : World) :
  payments (snd (notify_socket pid st w)) = payments w.
Proof.
  unfold notify_socket. destruct (Map_get pid (paymentSockets w)) as [s|]; [|reflexivity].
  destruct (Js.truthy_string s); reflexivity.
Qed.

Lemma status_of_resolved (env : Env) (payment : Payment) (st pid' : string) (w : World) :
  status_of pid' (resolved env payment st w) =
  if String.eqb pid' (id payment) then option_map (fun _ => st) (status_of pid' w)
  else status_of pid' w.
Proof.
  unfold resolved. unfold status_of at 1. rewrite payments_notify_socket.
  apply (status_of_update_status (id payment) pid' (now env) st w).
Qed.

Lemma status_of_found (v : RefValue) (w : World) (payment : Payment) :
  findFirst_where v (payments w) = Ok (Some payment) ->
  exists st, status_of (id payment) w = Some st.
Proof.
  intros H. apply found_has_id in H. apply existsb_exists in H.
  destruct H as (p & Hin & Hp). unfold status_of.
  destruct (find (has_id (id payment)) (payments w)) as [q|] eqn:F.
  - now exists (status q).
  - exfalso. apply (find_none _ _ F) in Hin. congruence.
Qed.

Lemma newStatus_of_cases (upstream : JsValue) :
  (upstream = JsString "successful" /\ newStatus_of upstream = "SUCCESSFUL")
  \/ (upstream <> JsString "successful" /\ newStatus_of upstream = "FAILED").
Proof.
  unfold newStatus_of, strict_equals_string.
  destruct upstream as [| |b|x|s|]; try (right; split; [discriminate|reflexivity]).
  destruct (String.eqb_spec s "successful") as [->|N].
  - left. now split.
  - right. split; [congruence | reflexivity].
Qed.

Lemma newStatus_of_terminal (upstream : JsValue) : terminal (newStatus_of upstream).
Proof.
  unfold terminal. destruct (newStatus_of_cases upstream) as [[_ ->]|[_ ->]]; tauto.
Qed.

End Store.

(* ================================================================== *)
(** ** Theorems about the verifier and the webhook route *)

(** C6: when the signature header is absent the verifier throws the
    INVALID_SIGNATURE error (status code 403), and the route answers with an
    error and leaves the store, the registry and the trace as they were. *)
Theorem missing_signature_is_rejected (config : Config) (env : Env)
        (rawBody : option (list byte)) (data : option WebhookData) (w : World) :
  verifyWebhookSignature (PAYPACK_WEBHOOK_SECRET config) None rawBody
  = Throw (ApiErr missing_signature_error)
  /\ code missing_signature_error = "INVALID_SIGNATURE"
  /\ webhook config env None rawBody data w
     = (mkResponse 500 (Text "Error processing webhook."), w).
Proof.
  split; [reflexivity|]. split; [reflexivity|].
  now apply webhook_throws with (e := ApiErr missing_signature_error).
Qed.

(** C7: a verified webhook whose reference resolves to a payment stores
    SUCCESSFUL when the upstream status is the string "successful" and FAILED
    for every other value. *)
Theorem upstream_status_mapping (config : Config) (env : Env)
        (signature : option string) (rawBody : option (list byte))
        (data : WebhookData) (w : World) (payment : Payment) :
  verifyWebhookSignature (PAYPACK_WEBHOOK_SECRET config) signature rawBody = Ok true ->
  findFirst_where (data_ref data) (payments w) = Ok (Some payment) ->
  let w' := snd (webhook config env signature rawBody (Some data) w) in
  (data_status data = JsString "successful" ->
   status_of (id payment) w' = Some "SUCCESSFUL")
  /\ (data_status data <> JsString "successful" ->
      status_of (id payment) w' = Some "FAILED").
Proof.
  intros Hv Hf w'. subst w'. rewrite (webhook_verified _ _ _ _ _ _ Hv), Hf.
  cbn [snd]. rewrite status_of_resolved, String.eqb_refl.
  destruct (status_of_found _ _ _ Hf) as [st0 ->]. cbn [option_map].
  destruct (newStatus_of_cases (data_status data)) as [[E ->]|[N ->]];
    split; intros H; congruence.
Qed.

Lemma upstream_status_mapping_witness :
  status_of "pay_1" (serve demo_config webhook_successful pending_world) = Some "SUCCESSFUL"
  /\ status_of "pay_1" (serve demo_config webhook_rejected pending_world) = Some "FAILED".
Proof.
  split.
  - refine (proj1 (upstream_status_mapping demo_config demo_env (Some sig_successful)
                     (Some (webhook_json "abc123" "successful"))
                     (mkWebhookData (RefString "abc123") (JsString "successful"))
                     pending_world pay_1_pending _ _) _);
      vm_compute; reflexivity.
  - refine (proj2 (upstream_status_mapping demo_config demo_env (Some sig_rejected)
                     (Some (webhook_json "abc123" "rejected"))
                     (mkWebhookData (RefString "abc123") (JsString "rejected"))
                     pending_world pay_1_pending _ _) _);
      [vm_compute; reflexivity | vm_compute; reflexivity | discriminate].
Defined.

(** C10: the verifier never returns [false].  Whatever its input it returns
    [true] or throws; on a present signature that differs from the expected
    one the [try] block throws the 401 error, the surrounding [catch] turns it
    into the 500 SIGNATURE_VERIFICATION_FAILED error, and so the route never
    gives its 401 answer. *)
Theorem verifier_never_returns_false (config : Config) (env : Env)
        (signature : option string) (rawBody : option (list byte))
        (data : option WebhookData) (w : World) :
  let secret := PAYPACK_WEBHOOK_SECRET config in
  verifyWebhookSignature secret signature rawBody <> Ok false
  /\ (verifyWebhookSignature secret signature rawBody = Ok true
      \/ exists e, verifyWebhookSignature secret signature rawBody = Throw (ApiErr e))
  /\ (forall sig body,
         signature = Some sig -> rawBody = Some body ->
         Js.truthy_string sig = true ->
         sig <> expectedSignature secret body ->
         verify_try_block secret sig rawBody = Throw (ApiErr invalid_signature_error)
         /\ statusCode invalid_signature_error = 401
         /\ verifyWebhookSignature secret signature rawBody
            = Throw (ApiErr signature_verification_failed_error)
         /\ statusCode signature_verification_failed_error = 500)
  /\ res_status (fst (webhook config env signature rawBody data w)) <> 401.
Proof.
  intros secret. repeat split.
  - destruct (verify_true_or_throws secret signature rawBody) as [H|[e H]];
      rewrite H; discriminate.
  - apply verify_true_or_throws.
  - subst. rewrite verify_try_block_body.
    destruct (String.eqb_spec sig (expectedSignature secret body)); [contradiction|reflexivity].
  - subst. rewrite verifyWebhookSignature_body. rewrite H1. cbn [negb].
    destruct (String.eqb_spec sig (expectedSignature secret body)); [contradiction|reflexivity].
  - pose proof (webhook_statuses config env signature rawBody data w) as H.
    cbn [In] in H. intros E. rewrite E in H.
    destruct H as [H|[H|[H|[]]]]; discriminate.
Qed.

Lemma verifier_never_returns_false_witness :
  verifyWebhookSignature "whsec_demo" (Some sig_rejected)
                         (Some (webhook_json "abc123" "successful"))
  = Throw (ApiErr signature_verification_failed_error)
  /\ fst (webhook demo_config demo_env (Some sig_rejected)
                  (Some (webhook_json "abc123" "successful"))
                  (Some (mkWebhookData (RefString "abc123") (JsString "successful"))) pending_world)
     = mkResponse 500 (Text "Error processing webhook.").
Proof.
  pose proof (verifier_never_returns_false demo_config demo_env (Some sig_rejected)
                (Some (webhook_json "abc123" "successful"))
                (Some (mkWebhookData (RefString "abc123") (JsString "successful")))
                pending_world) as (_ & _ & Hmis & _).
  specialize (Hmis sig_rejected (webhook_json "abc123" "successful") eq_refl eq_refl eq_refl).
  assert (N : sig_rejected
              <> expectedSignature "whsec_demo" (webhook_json "abc123" "successful")).
  { vm_compute. discriminate. }
  destruct (Hmis N) as (_ & _ & H500 & _).
  split; [exact H500|].
  unfold webhook, webhook_try, bind, lift. cbn [PAYPACK_WEBHOOK_SECRET demo_config].
  cbn [PAYPACK_WEBHOOK_SECRET demo_config] in H500. rewrite H500. reflexivity.
Defined.

(** What is established of C2.  The verifier returns [true] exactly when the
    signature is the base64 encoding of the HMAC-SHA256 of the raw body under
    the webhook secret, and from an accepted request a signature with one
    character changed makes the verifier throw.  For a body with one byte
    changed the verifier throws unless the changed body has the same
    HMAC-SHA256 digest as the original one; that no two bodies one byte apart
    share a digest is a property of the hash function which is neither proved
    nor refuted here, so this half of C2 stays open. *)
Theorem verify_iff_hmac_sha256_base64 (secret sig : string) (body : list byte) :
  (verifyWebhookSignature secret (Some sig) (Some body) = Ok true
   <-> sig = Base64.encode (Hmac.hmac_sha256 (Js.Buffer_from secret) body))
  /\ (forall sig',
         verifyWebhookSignature secret (Some sig) (Some body) = Ok true ->
         one_changed (list_ascii_of_string sig) (list_ascii_of_string sig') ->
         exists e, verifyWebhookSignature secret (Some sig') (Some body)
                   = Throw (ApiErr e))
  /\ (forall body',
         verifyWebhookSignature secret (Some sig) (Some body) = Ok true ->
         one_changed body body' ->
         (exists e, verifyWebhookSignature secret (Some sig) (Some body')
                    = Throw (ApiErr e))
         \/ Hmac.hmac_sha256 (Js.Buffer_from secret) body'
            = Hmac.hmac_sha256 (Js.Buffer_from secret) body).
Proof.
  split; [apply verify_accepts_iff|]. split.
  - intros sig' Hok Hch.
    destruct (verify_true_or_throws secret (Some sig') (Some body)) as [H|H]; [|exact H].
    exfalso. apply verify_accepts_iff in Hok, H. subst.
    now apply one_changed_neq in Hch.
  - intros body' Hok _.
    destruct (verify_true_or_throws secret (Some sig) (Some body')) as [H|H];
      [right | now left].
    apply verify_accepts_iff in Hok, H. unfold expectedSignature in Hok, H.
    apply encode_inj. congruence.
Qed.

Lemma verify_iff_hmac_sha256_base64_witness :
  verifyWebhookSignature "whsec_demo" (Some sig_successful)
                         (Some (webhook_json "abc123" "successful")) = Ok true
  /\ (exists e,
         verifyWebhookSignature "whsec_demo"
           (Some "kbbxpFKMZZ9oXFkxDHLG0vHjMACrjDoL8nWLC7dBLPs=")
           (Some (webhook_json "abc123" "successful")) = Throw (ApiErr e))
  /\ (exists e,
         verifyWebhookSignature "whsec_demo" (Some sig_successful)
           (Some (webhook_json "abc123" "successfuk")) = Throw (ApiErr e)).
Proof.
  destruct (verify_iff_hmac_sha256_base64 "whsec_demo" sig_successful
              (webhook_json "abc123" "successful")) as (Hiff & Hsig & Hbody).
  assert (Hok : verifyWebhookSignature "whsec_demo" (Some sig_successful)
                  (Some (webhook_json "abc123" "successful")) = Ok true).
  { apply Hiff. vm_compute. reflexivity. }
  split; [exact Hok|]. split.
  - apply Hsig; [exact Hok|].
    exists [], "j"%char, "k"%char,
           (list_ascii_of_string "bbxpFKMZZ9oXFkxDHLG0vHjMACrjDoL8nWLC7dBLPs=").
    repeat split; [discriminate | reflexivity ..].
  - destruct (Hbody (webhook_json "abc123" "successfuk") Hok) as [H|H].
    + exists (firstn 43 (webhook_json "abc123" "successful")), x6c, x6b,
             (skipn 44 (webhook_json "abc123" "successful")).
      repeat split; [discriminate | vm_compute; reflexivity ..].
    + exact H.
    + exfalso. revert H. vm_compute. discriminate.
Defined.

(* ================================================================== *)
(** ** The gateway client *)

Section Gateway.

Variables (config : Config) (env : Env).

Lemma phone_regex_test_spec (s : string) :
  phone_regex_test s = true <-> phone_format s.
Proof.
  split.
  - destruct s as [|c1 [|c2 rest]]; try discriminate.
    + destruct c1 as [[] [] [] [] [] [] [] []]; discriminate.
    + destruct c1 as [[] [] [] [] [] [] [] []]; try discriminate.
      destruct c2 as [[] [] [] [] [] [] [] []]; try discriminate.
      cbn [phone_regex_test]. intros H. apply andb_prop in H. destruct H as [L D].
      exists rest. split; [reflexivity|]. split; [now apply Nat.eqb_eq|].
      intros c Hc. rewrite forallb_forall in D. now apply D.
  - intros (digits & -> & L & D). cbn [append phone_regex_test].
    apply andb_true_intro. split; [now apply Nat.eqb_eq|].
    apply forallb_forall. exact D.
Qed.

Lemma same_store_refl (w : World) : same_store w w.
Proof. now split. Qed.

Lemma same_store_trans (w1 w2 w3 : World) :
  same_store w1 w2 -> same_store w2 w3 -> same_store w1 w3.
Proof. unfold same_store. intros [A B] [C D]. split; congruence. Qed.

(** Obtaining a token touches neither the store nor the registry. *)
Lemma getValidAccessToken_same_store (w : World) :
  same_store w (snd (getValidAccessToken config env w)).
Proof.
  unfold getValidAccessToken, getValidAccessToken_enter.
  destruct (isRefreshingToken (service w)), (tokenRefreshPromise (service w)) as [p|];
    try (destruct (token_is_fresh (now env) (service w)); [apply same_store_refl|];
         cbn [new_promise set_service emit_event promises service nextPromise];
         destruct (promises w (nextPromise w));
         [ | destruct (authenticate_continue _ _) ]; split; reflexivity).
  destruct (promises w p); [ | destruct (authenticate_continue _ _) ]; split; reflexivity.
Qed.

Lemma cashin_same_store (params : CashinParams) (w : World) :
  same_store w (snd (cashin config env params w)).
Proof.
  unfold cashin, bind, lift, modify.
  destruct (cashin_validate params); [|apply same_store_refl].
  pose proof (getValidAccessToken_same_store w) as S.
  destruct (getValidAccessToken config env w) as [[tok|e] w1]; cbn [snd] in *; [|exact S].
  destruct (cashinReply env); exact S.
Qed.

(** A rejected input stops [cashin] at once, with the state untouched. *)
Lemma cashin_invalid (params : CashinParams) (w : World) (e : exn) :
  cashin_validate params = Throw e -> cashin config env params w = (Throw e, w).
Proof.
  intros H. unfold cashin, bind, lift. now rewrite H.
Qed.

End Gateway.

(** C4: [cashin] with an amount below 100, or with a phone number that is not
    07 followed by eight digits, throws the 400 validation error
    (INVALID_AMOUNT or INVALID_PHONE) and leaves the whole state, including
    the trace of network calls, as it was: neither the authorize nor the
    cash-in request is sent. *)
Theorem cashin_rejects_invalid_input (config : Config) (env : Env)
        (params : CashinParams) (w : World) :
  PrimFloat.ltb (amount params) 100%float = true \/ ~ phone_format (number params) ->
  exists e,
    cashin config env params w = (Throw (ApiErr e), w)
    /\ statusCode e = 400
    /\ (code e = "INVALID_AMOUNT" \/ code e = "INVALID_PHONE")
    /\ network_calls (snd (cashin config env params w)) = network_calls w.
Proof.
  intros H.
  assert (V : exists e, cashin_validate params = Throw (ApiErr e) /\ statusCode e = 400
                        /\ (code e = "INVALID_AMOUNT" \/ code e = "INVALID_PHONE")).
  { unfold cashin_validate.
    destruct (PrimFloat.ltb (amount params) 100%float) eqn:A.
    - exists INVALID_AMOUNT_error. repeat split. now left.
    - destruct H as [H|H]; [discriminate|].
      destruct (phone_regex_test (number params)) eqn:P.
      + exfalso. apply H. now apply phone_regex_test_spec.
      + exists INVALID_PHONE_error. repeat split. now right. }
  destruct V as (e & V & Hs & Hc). exists e.
  rewrite (cashin_invalid config env params w _ V). repeat split; assumption.
Qed.

Lemma cashin_rejects_invalid_input_witness :
  (exists e, cashin demo_config demo_env (mkCashinParams "0781234567" 99.5%float)
                    initial_world = (Throw (ApiErr e), initial_world)
             /\ code e = "INVALID_AMOUNT")
  /\ (exists e, cashin demo_config demo_env (mkCashinParams "078123456" 500%float)
                       initial_world = (Throw (ApiErr e), initial_world)
                /\ code e = "INVALID_PHONE").
Proof.
  split.
  - destruct (cashin_rejects_invalid_input demo_config demo_env
                (mkCashinParams "0781234567" 99.5%float) initial_world)
      as (e & H & _ & _ & _).
    + left. reflexivity.
    + exists e. split; [exact H|].
      vm_compute in H. inversion H. reflexivity.
  - destruct (cashin_rejects_invalid_input demo_config demo_env
                (mkCashinParams "078123456" 500%float) initial_world)
      as (e & H & _ & _ & _).
    + right. intros (digits & E & L & _). cbn [number] in E.
      inversion E; subst. discriminate.
    + exists e. split; [exact H|].
      vm_compute in H. inversion H. reflexivity.
Defined.

(* ================================================================== *)
(** ** The initiate route *)

Section InitiateRoute.

Variables (config : Config) (env : Env).

(** Whatever [cashin] throws, the route answers 500. *)
Lemma initiate_payment_cashin_throws (ph : string) (a : float) (w : World) :
  Js.truthy_string ph = true -> Js.truthy_number a = true ->
  (exists e, cashin_validate (mkCashinParams ph a) = Throw e) ->
  fst (initiate_payment config env (Some ph) (Some a) w)
  = mkResponse 500 (JsonError "Failed to initiate payment.").
Proof.
  intros Hp Ha [e He]. unfold initiate_payment. rewrite Hp, Ha. cbn [negb orb].
  unfold initiate_payment_try, bind.
  destruct (payment_create env a w) as [[payment|e0] w1]; [|reflexivity].
  now rewrite (cashin_invalid config env _ w1 e He).
Qed.

Lemma find_app_old {A : Type} (f : A -> bool) (l : list A) (x y : A) :
  find f l = Some x -> find f (l ++ [y]) = Some x.
Proof.
  induction l as [|z l IH]; [discriminate|]. cbn [find app].
  destruct (f z); [trivial | exact IH].
Qed.

Lemma payment_create_status (a : float) (w : World) (pid st : string) :
  status_of pid w = Some st ->
  status_of pid (snd (payment_create env a w)) = Some st.
Proof.
  intros H. unfold payment_create.
  destruct (existsb (has_id (newId env)) (payments w)); [exact H|].
  unfold status_of in *. cbn [snd emit_event set_payments payments].
  destruct (find (has_id pid) (payments w)) as [p|] eqn:F; [|discriminate].
  now rewrite (find_app_old _ _ _ _ F).
Qed.

Lemma same_store_status (w w' : World) (pid : string) :
  same_store w w' -> status_of pid w' = status_of pid w.
Proof. intros [E _]. unfold status_of. now rewrite E. Qed.

Lemma payment_update_ref_status (pid' r : string) (w : World) (pid : string) :
  status_of pid (snd (payment_update_ref env pid' r w)) = status_of pid w.
Proof.
  unfold payment_update_ref.
  destruct (negb (existsb (has_id pid') (payments w))); [reflexivity|].
  destruct (existsb _ (payments w)); [reflexivity|].
  cbn [snd]. unfold status_of at 1. cbn [emit_event payments].
  apply (status_of_update_ref pid' pid (now env) r w).
Qed.

(** The initiate route never changes the status of a stored payment. *)
Lemma initiate_payment_status (ph : option string) (a : option float) (w : World)
      (pid st : string) :
  status_of pid w = Some st ->
  status_of pid (snd (initiate_payment config env ph a w)) = Some st.
Proof.
  intros H. unfold initiate_payment.
  destruct ph as [ph|], a as [a|]; try exact H.
  destruct (negb (Js.truthy_string ph) || negb (Js.truthy_number a)); [exact H|].
  unfold initiate_payment_try, bind.
  pose proof (payment_create_status a w pid st H) as H1.
  destruct (payment_create env a w) as [[payment|e0] w1]; cbn [snd] in *; [|exact H1].
  pose proof (cashin_same_store config env (mkCashinParams ph a) w1) as S.
  destruct (cashin config env (mkCashinParams ph a) w1) as [[resp|e1] w2]; cbn [snd] in *.
  - pose proof (payment_update_ref_status (id payment) (ref resp) w2 pid) as U.
    rewrite (same_store_status _ _ pid S), H1 in U.
    destruct (payment_update_ref env (id payment) (ref resp) w2) as [[[]|e2] w3];
      cbn [snd] in *; exact U.
  - now rewrite (same_store_status _ _ pid S).
Qed.

End InitiateRoute.

(** C5 (the code at the failing input): a request with a well-formed phone
    number and the amount 50 passes the presence check of the route, is
    refused by [cashin] with its 400 INVALID_AMOUNT error, and is answered
    with status 500. *)
Theorem initiate_small_amount_is_500 :
  cashin_validate (mkCashinParams "0781234567" 50%float)
  = Throw (ApiErr INVALID_AMOUNT_error)
  /\ statusCode INVALID_AMOUNT_error = 400
  /\ fst (initiate_payment demo_config demo_env (Some "0781234567") (Some 50%float)
                           initial_world)
     = mkResponse 500 (JsonError "Failed to initiate payment.").
Proof. repeat split. Qed.

(* ================================================================== *)
(** ** Status changes *)

Section StatusChanges.

Variable config : Config.

Lemma webhook_status (env : Env) (signature : option string)
      (rawBody : option (list byte)) (data : option WebhookData) (w : World)
      (pid st : string) :
  status_of pid w = Some st ->
  exists st', status_of pid (snd (webhook config env signature rawBody data w)) = Some st'
              /\ (st' = st \/ terminal st').
Proof.
  intros H.
  destruct (verify_true_or_throws (PAYPACK_WEBHOOK_SECRET config) signature rawBody)
    as [V|[e V]].
  - destruct data as [d|].
    + rewrite (webhook_verified _ _ _ _ _ _ V).
      destruct (findFirst_where (data_ref d) (payments w)) as [[payment|]|e];
        [|exists st; now split; [|left] ..].
      cbn [snd]. rewrite status_of_resolved, H. cbn [option_map].
      destruct (String.eqb pid (id payment)).
      * eexists. split; [reflexivity|]. right. apply newStatus_of_terminal.
      * exists st. now split; [|left].
    + rewrite (webhook_verified_no_data _ _ _ _ _ V). exists st. now split; [|left].
  - rewrite (webhook_throws _ _ _ _ _ _ _ V). exists st. now split; [|left].
Qed.

(** One request: the status of a stored payment stays, or becomes SUCCESSFUL
    or FAILED. *)
Lemma serve_status (req : Request) (w : World) (pid st : string) :
  status_of pid w = Some st ->
  exists st', status_of pid (serve config req w) = Some st'
              /\ (st' = st \/ terminal st').
Proof.
  intros H. destruct req as [env ph a|env sg raw d|sock p|sock]; cbn [serve].
  - exists st. split; [now apply initiate_payment_status | now left].
  - now apply webhook_status.
  - exists st. now split; [|left].
  - exists st. now split; [|left].
Qed.

Lemma serve_all_status (reqs : list Request) (w : World) (pid st : string) :
  status_of pid w = Some st ->
  exists st', status_of pid (serve_all config reqs w) = Some st'
              /\ (st' = st \/ terminal st').
Proof.
  revert w st. induction reqs as [|req reqs IH]; intros w st H.
  - exists st. now split; [|left].
  - destruct (serve_status req w pid st H) as (st1 & H1 & C1).
    destruct (IH _ _ H1) as (st2 & H2 & C2).
    exists st2. split; [exact H2|].
    destruct C2 as [->|T]; [exact C1 | now right].
Qed.

End StatusChanges.

(** C3, as the code has it: a request leaves the status of a stored payment
    as it is or sets it to SUCCESSFUL or FAILED; so a payment in a terminal
    state stays in a terminal state, and no request brings it back to
    PENDING. *)
Theorem status_stays_or_becomes_terminal (config : Config) (req : Request)
        (w : World) (pid st : string) :
  status_of pid w = Some st ->
  exists st',
    status_of pid (serve config req w) = Some st'
    /\ (st' = st \/ terminal st')
    /\ (terminal st -> terminal st').
Proof.
  intros H. destruct (serve_status config req w pid st H) as (st' & H' & C).
  exists st'. repeat split; [exact H' | exact C |].
  intros T. destruct C as [->|T']; assumption.
Qed.

Lemma status_stays_or_becomes_terminal_witness :
  exists st',
    status_of "pay_1" (serve demo_config webhook_rejected paid_world) = Some st'
    /\ terminal st'.
Proof.
  destruct (status_stays_or_becomes_terminal demo_config webhook_rejected paid_world
              "pay_1" "SUCCESSFUL") as (st' & H & _ & T).
  - vm_compute. reflexivity.
  - exists st'. split; [exact H|]. apply T. now left.
Defined.

(** C3, counterexample: the payment of the scenario is SUCCESSFUL after the
    first webhook, and a second verified webhook for the same reference with
    the upstream status rejected moves it to FAILED. *)
Lemma terminal_status_is_overwritten :
  status_of "pay_1" paid_world = Some "SUCCESSFUL"
  /\ terminal "SUCCESSFUL"
  /\ status_of "pay_1" (serve demo_config webhook_rejected paid_world) = Some "FAILED"
  /\ "FAILED" <> "SUCCESSFUL".
Proof.
  split; [vm_compute; reflexivity|]. split; [now left|].
  split; [vm_compute; reflexivity | discriminate].
Qed.

(* ================================================================== *)
(** ** Resolving a payment and notifying its socket *)

Section Resolve.

Lemma Map_get_not_in (k : string) (m : list (string * string)) :
  ~ In k (map fst m) -> Map_get k m = None.
Proof.
  induction m as [|[k' v] m IH]; [reflexivity|]. cbn [map fst In Map_get]. intros N.
  destruct (String.eqb_spec k' k) as [E|_]; [tauto|]. apply IH. tauto.
Qed.

(** After [delete] the key is gone. *)
Lemma Map_get_delete (k : string) (m : list (string * string)) :
  NoDup (map fst m) -> Map_get k (Map_delete k m) = None.
Proof.
  induction m as [|[k' v] m IH]; [reflexivity|]. cbn [map fst Map_delete]. intros N.
  inversion N as [|? ? Hnotin Hrest]; subst.
  destruct (String.eqb_spec k' k) as [E|D].
  - subst. now apply Map_get_not_in.
  - cbn [Map_get]. destruct (String.eqb_spec k' k); [contradiction|]. now apply IH.
Qed.

Lemma trace_resolved (env : Env) (payment : Payment) (st : string) (w : World) :
  trace (resolved env payment st w)
  = trace w ++ [DbSetStatus (id payment) st] ++ push_events (id payment) st w.
Proof.
  unfold resolved, notify_socket, push_events.
  cbn [paymentSockets emit_event set_payments].
  destruct (Map_get (id payment) (paymentSockets w)) as [s|];
    [destruct (Js.truthy_string s)|]; cbn [snd trace set_paymentSockets emit_event];
    rewrite <- ?app_assoc; reflexivity.
Qed.

Lemma paymentSockets_resolved (env : Env) (payment : Payment) (st : string) (w : World) :
  paymentSockets (resolved env payment st w)
  = match push_events (id payment) st w with
    | [] => paymentSockets w
    | _ :: _ => Map_delete (id payment) (paymentSockets w)
    end.
Proof.
  unfold resolved, notify_socket, push_events.
  cbn [paymentSockets emit_event set_payments].
  destruct (Map_get (id payment) (paymentSockets w)) as [s|];
    [destruct (Js.truthy_string s)|]; reflexivity.
Qed.

Lemma payments_resolved (env : Env) (payment : Payment) (st : string) (w : World) :
  payments (resolved env payment st w)
  = update_where (id payment) (with_status (now env) st) (payments w).
Proof. unfold resolved. now rewrite payments_notify_socket. Qed.

(** Once a payment has been resolved, resolving it again pushes nothing. *)
Lemma push_events_resolved (env : Env) (payment : Payment) (st st' : string) (w : World) :
  registry_ok w ->
  push_events (id payment) st' (resolved env payment st w) = [].
Proof.
  intros N. unfold push_events at 1. rewrite paymentSockets_resolved.
  unfold push_events.
  destruct (Map_get (id payment) (paymentSockets w)) as [s|] eqn:G.
  - destruct (Js.truthy_string s) eqn:T.
    + now rewrite Map_get_delete.
    + now rewrite G, T.
  - now rewrite G.
Qed.

Lemma find_map_same (f : Payment -> bool) (g : Payment -> Payment) (l : list Payment) :
  (forall p, f (g p) = f p) -> find f (map g l) = option_map g (find f l).
Proof.
  intros E. induction l as [|p l IH]; [reflexivity|].
  cbn [map find]. rewrite E. destruct (f p); [reflexivity | exact IH].
Qed.

(** A status update leaves the reference column alone, so [findFirst] finds
    the same row after it, with the new status, whatever [data.ref] holds. *)
Lemma findFirst_update_status (v : RefValue) (pid : string) (t : Z) (st : string)
      (l : list Payment) :
  findFirst_where v (update_where pid (with_status t st) l)
  = match findFirst_where v l with
    | Ok found =>
        Ok (option_map (fun p => if has_id pid p then with_status t st p else p) found)
    | Throw e => Throw e
    end.
Proof.
  unfold update_where.
  set (g := fun p => if has_id pid p then with_status t st p else p).
  assert (R : forall p, paypackRef (g p) = paypackRef p)
    by (intros p; unfold g; now destruct (has_id pid p)).
  destruct v as [| |r|pick|]; cbn [findFirst_where].
  - now destruct l.
  - f_equal. apply find_map_same. intros p. unfold ref_is_null. now rewrite R.
  - f_equal. apply find_map_same. intros p. unfold has_ref. now rewrite R.
  - f_equal. rewrite map_map. rewrite (map_ext _ _ R).
    destruct (pick (map paypackRef l)) as [i|]; [|reflexivity].
    apply nth_error_map.
  - reflexivity.
Qed.

(** Writing the same status twice stores the same statuses. *)
Lemma status_update_twice (pid : string) (t1 t2 : Z) (st : string) (l : list Payment) :
  map status (update_where pid (with_status t2 st) (update_where pid (with_status t1 st) l))
  = map status (update_where pid (with_status t1 st) l).
Proof.
  induction l as [|p l IH]; [reflexivity|].
  cbn [update_where map]. fold (update_where pid (with_status t1 st) l).
  fold (update_where pid (with_status t2 st) (update_where pid (with_status t1 st) l)).
  rewrite IH. f_equal.
  destruct (has_id pid p) eqn:E.
  - assert (E' : has_id pid (with_status t1 st p) = true) by exact E.
    now rewrite E'.
  - now rewrite E.
Qed.

Lemma ids_update_status (pid : string) (t : Z) (st : string) (l : list Payment) :
  map id (update_where pid (with_status t st) l) = map id l.
Proof.
  unfold update_where. rewrite map_map. apply map_ext.
  intros p. now destruct (has_id pid p).
Qed.

End Resolve.

(** C8: resolving the same reference twice with the same upstream status
    stores the same statuses after the second application as after the first,
    and the second application pushes nothing: the first one has removed the
    registration it consumed. *)
Theorem resolve_twice_same_status_no_second_push (env1 env2 : Env)
        (data : WebhookData) (w : World) :
  registry_ok w ->
  let w1 := snd (webhook_process env1 data w) in
  let w2 := snd (webhook_process env2 data w1) in
  map status (payments w2) = map status (payments w1)
  /\ map id (payments w2) = map id (payments w1)
  /\ pushes w2 = pushes w1
  /\ paymentSockets w2 = paymentSockets w1.
Proof.
  intros N w1 w2. subst w1 w2.
  destruct (findFirst_where (data_ref data) (payments w)) as [[payment|]|e] eqn:F.
  - rewrite (webhook_process_found env1 _ _ _ F). cbn [snd].
    set (st := newStatus_of (data_status data)).
    assert (F1 : findFirst_where (data_ref data) (payments (resolved env1 payment st w))
                 = Ok (Some (with_status (now env1) st payment))).
    { rewrite payments_resolved, findFirst_update_status, F. cbn [option_map].
      unfold has_id. now rewrite String.eqb_refl. }
    rewrite (webhook_process_found env2 _ _ _ F1). cbn [snd]. fold st.
    change (id (with_status (now env1) st payment)) with (id payment) in *.
    assert (P : push_events (id payment) st (resolved env1 payment st w) = [])
      by now apply push_events_resolved.
    repeat split.
    + set (p' := with_status (now env1) st payment).
      rewrite (payments_resolved env2 p'), (payments_resolved env1 payment).
      apply status_update_twice.
    + set (p' := with_status (now env1) st payment).
      rewrite (payments_resolved env2 p'), (payments_resolved env1 payment).
      now rewrite !ids_update_status.
    + unfold pushes.
      rewrite (trace_resolved env2 (with_status (now env1) st payment)).
      change (id (with_status (now env1) st payment)) with (id payment).
      rewrite P, !filter_app. cbn [filter is_emit]. now rewrite !app_nil_r.
    + rewrite (paymentSockets_resolved env2 (with_status (now env1) st payment)).
      change (id (with_status (now env1) st payment)) with (id payment).
      now rewrite P.
  - rewrite (webhook_process_not_found env1 _ _ F). cbn [snd].
    rewrite (webhook_process_not_found env2 _ _ F). cbn [snd]. now repeat split.
  - rewrite (webhook_process_refused env1 _ _ _ F). cbn [snd].
    rewrite (webhook_process_refused env2 _ _ _ F). cbn [snd]. now repeat split.
Qed.

Lemma resolve_twice_same_status_no_second_push_witness :
  registry_ok pending_world
  /\ pushes (snd (webhook_process demo_env (mkWebhookData (RefString "abc123") (JsString "successful"))
               (snd (webhook_process demo_env
                       (mkWebhookData (RefString "abc123") (JsString "successful")) pending_world))))
     = pushes (snd (webhook_process demo_env
                      (mkWebhookData (RefString "abc123") (JsString "successful")) pending_world)).
Proof.
  assert (N : registry_ok pending_world).
  { unfold registry_ok. vm_compute. constructor; [intros [] | constructor]. }
  split; [exact N|].
  destruct (resolve_twice_same_status_no_second_push demo_env demo_env
              (mkWebhookData (RefString "abc123") (JsString "successful")) pending_world N)
    as (_ & _ & P & _).
  exact P.
Defined.

(** C9: when a run of the webhook route pushes a notification, what the run
    adds to the trace is the store write of the new status followed by the
    push of that same status; the notification step starts from a state in
    which the store already holds that status, the store still holds it when
    the route returns, and whatever requests are served afterwards the
    payment is read in a terminal state. *)
Theorem store_write_precedes_push (config : Config) (env : Env)
        (signature : option string) (rawBody : option (list byte))
        (data : option WebhookData) (w : World)
        (added : list Event) (sock st : string) :
  trace (snd (webhook config env signature rawBody data w)) = trace w ++ added ->
  In (Emit sock st) added ->
  exists pid,
    added = [DbSetStatus pid st; Emit sock st]
    /\ (exists w_written,
          status_of pid w_written = Some st
          /\ trace w_written = trace w ++ [DbSetStatus pid st]
          /\ snd (webhook config env signature rawBody data w)
             = snd (notify_socket pid st w_written))
    /\ status_of pid (snd (webhook config env signature rawBody data w)) = Some st
    /\ terminal st
    /\ forall reqs, exists st',
         status_of pid (serve_all config reqs
                          (snd (webhook config env signature rawBody data w))) = Some st'
         /\ terminal st'.
Proof.
  intros Htr Hin.
  assert (Hnil : trace w = trace w ++ added -> False).
  { intros E. rewrite <- (app_nil_r (trace w)) in E at 1.
    apply app_inv_head in E. subst added. contradiction. }
  destruct (verify_true_or_throws (PAYPACK_WEBHOOK_SECRET config) signature rawBody)
    as [V|[e V]].
  2:{ rewrite (webhook_throws _ _ _ _ _ _ _ V) in Htr. now apply Hnil in Htr. }
  destruct data as [d|].
  2:{ rewrite (webhook_verified_no_data _ _ _ _ _ V) in Htr. now apply Hnil in Htr. }
  rewrite (webhook_verified _ _ _ _ _ _ V) in *.
  destruct (findFirst_where (data_ref d) (payments w)) as [[payment|]|e'] eqn:F.
  2,3: now apply Hnil in Htr.
  cbn [snd] in *. rewrite trace_resolved in Htr. apply app_inv_head in Htr. subst added.
  set (S := newStatus_of (data_status d)) in *.
  assert (Hpush : push_events (id payment) S w = [Emit sock st] /\ st = S).
  { destruct Hin as [Hin|Hin]; [discriminate|]. unfold push_events in *.
    destruct (Map_get (id payment) (paymentSockets w)) as [s|]; [|contradiction].
    destruct (Js.truthy_string s); [|contradiction].
    destruct Hin as [Hin|[]]. inversion Hin; subst. now split. }
  destruct Hpush as [Hpush ->]. rewrite Hpush.
  assert (Hst : status_of (id payment) (resolved env payment S w) = Some S).
  { rewrite status_of_resolved, String.eqb_refl.
    destruct (status_of_found _ _ _ F) as [st0 ->]. reflexivity. }
  exists (id payment). split; [reflexivity|]. split; [|repeat split].
  - exists (emit_event (DbSetStatus (id payment) S)
              (set_payments (update_where (id payment) (with_status (now env) S)) w)).
    repeat split.
    unfold resolved in Hst. unfold status_of in Hst. rewrite payments_notify_socket in Hst.
    exact Hst.
  - exact Hst.
  - apply newStatus_of_terminal.
  - intros reqs. destruct (serve_all_status config reqs _ _ _ Hst) as (st' & H' & C).
    exists st'. split; [exact H'|].
    destruct C as [->|T]; [apply newStatus_of_terminal | exact T].
Qed.

Lemma store_write_precedes_push_witness :
  exists pid,
    [DbSetStatus "pay_1" "SUCCESSFUL"; Emit "sock_1" "SUCCESSFUL"]
    = [DbSetStatus pid "SUCCESSFUL"; Emit "sock_1" "SUCCESSFUL"]
    /\ status_of pid paid_world = Some "SUCCESSFUL".
Proof.
  destruct (store_write_precedes_push demo_config demo_env (Some sig_successful)
              (Some (webhook_json "abc123" "successful"))
              (Some (mkWebhookData (RefString "abc123") (JsString "successful"))) pending_world
              [DbSetStatus "pay_1" "SUCCESSFUL"; Emit "sock_1" "SUCCESSFUL"]
              "sock_1" "SUCCESSFUL") as (pid & E & _ & H & _).
  - vm_compute. reflexivity.
  - right. left. reflexivity.
  - exists pid. split; [exact E | exact H].
Defined.

(* ================================================================== *)
(** ** The shared token refresh *)

Section TokenRefresh.

Variable config : Config.

Lemma auth_outcome_any_service (reply : NetResult PaypackAuthResponse)
      (svc : PaypackService) :
  fst (authenticate_continue reply svc) = auth_outcome reply.
Proof.
  unfold auth_outcome, authenticate_continue.
  destruct reply as [data|ax]; [|reflexivity].
  destruct (negb (Js.truthy_string (access data))); [reflexivity|].
  destruct (MAX_TIME_VALUE <? Z.abs (expires data * 1000)); reflexivity.
Qed.








(** Run alone, [getValidAccessToken] is a call, the reply and the resumption
    of that call. *)
Lemma getValidAccessToken_as_steps (env : Env) (w : World) :
  isRefreshingToken (service w) = false ->
  token_is_fresh (now env) (service w) = None ->
  promises w (nextPromise w) = None ->
  let l := loop_run config
             [Call 0 (now env); Reply (nextPromise w) (authReply env); Resume 0]
             (mkLoop w (fun _ => None)) in
  snd (getValidAccessToken config env w) = world l
  /\ exists r, callers l 0%nat = Some (Returned r)
               /\ fst (getValidAccessToken config env w) = result_of_settled r.
Proof.
  intros Hflag Hfresh Hp l. subst l.
  unfold getValidAccessToken, loop_run, fold_left, loop_step, getValidAccessToken_enter.
  cbn [world callers]. rewrite Hflag, Hfresh.
  cbn [new_promise set_service emit_event set_caller world callers service promises
       nextPromise]. rewrite Hp.
  unfold authenticate_settle, set_service, emit_event.
  cbn [promises service world callers payments paymentSockets nextPromise trace].
  rewrite Hp.
  destruct (authenticate_continue (authReply env) _) as [r svc].
  unfold settle, set_caller, getValidAccessToken_finally, set_service.
  cbn [promises service world callers payments paymentSockets nextPromise trace snd fst].
  rewrite !Nat.eqb_refl.
  cbn [promises service world callers payments paymentSockets nextPromise trace snd fst].
  split; [reflexivity|]. exists r. now split.
Qed.

(** What the call that starts a refresh leaves in the service. *)
Lemma call_starts_world (l : Loop) (c : nat) (t : Z) :
  isRefreshingToken (service (world l)) = false ->
  token_is_fresh t (service (world l)) = None ->
  let w := world l in
  let w' := world (loop_step config l (Call c t)) in
  service w' = mkService (accessToken (service w)) (tokenExpiresAt (service w))
                         true (Some (nextPromise w))
  /\ nextPromise w' = S (nextPromise w)
  /\ promises w' = promises w.
Proof.
  intros Hflag Hfresh w w'. subst w w'.
  unfold loop_step, getValidAccessToken_enter. rewrite Hflag, Hfresh.
  cbn [new_promise set_service emit_event set_caller world callers service
       promises nextPromise trace].
  repeat split.
Qed.








End TokenRefresh.



(** When the gateway refuses the credentials, the callers of the cycle all
    receive the same error, and the cache is left empty. *)
Example single_flight_failure :
  let refused :=
    NetFail (mkAxiosError (Some 401) (Some (mkErrorBody (Some "bad credentials") None))
                          "Request failed with status code 401") in
  let l := loop_run demo_config
             [Call 0 1700000000000; Call 1 1700000000001; Reply 0 refused;
              Resume 0; Resume 1] initial_loop in
  auth_calls (world l) = 1%nat
  /\ callers l 0%nat = callers l 1%nat
  /\ callers l 0%nat
     = Some (Returned (Rejected (mkApiError 401 "Payment Provider Error: bad credentials"
                                            "PAYPACK_API_ERROR"
                                            (Some (mkErrorBody (Some "bad credentials") None)))))
  /\ accessToken (service (world l)) = None.
Proof. vm_compute. repeat split. Qed.

(* ================================================================== *)
(** ** The registry in reachable states *)

Section Registry.

Variable config : Config.

Lemma Map_set_keys (k v x : string) (m : list (string * string)) :
  In x (map fst (Map_set k v m)) -> x = k \/ In x (map fst m).
Proof.
  induction m as [|[k' v'] m IH]; cbn [Map_set map fst In].
  - intros [E|[]]. now left.
  - destruct (String.eqb_spec k' k) as [E|N]; cbn [map fst In]; tauto.
Qed.

Lemma Map_set_NoDup (k v : string) (m : list (string * string)) :
  NoDup (map fst m) -> NoDup (map fst (Map_set k v m)).
Proof.
  induction m as [|[k' v'] m IH]; cbn [Map_set map fst]; intros N.
  - constructor; [intros [] | constructor].
  - inversion N as [|? ? Hnotin Hrest]; subst.
    destruct (String.eqb_spec k' k) as [E|D]; cbn [map fst].
    + now constructor.
    + constructor; [|now apply IH].
      intros I. apply Map_set_keys in I. destruct I as [E|I]; [congruence | contradiction].
Qed.

Lemma Map_delete_keys (k x : string) (m : list (string * string)) :
  In x (map fst (Map_delete k m)) -> In x (map fst m).
Proof.
  induction m as [|[k' v'] m IH]; cbn [Map_delete map fst In]; [tauto|].
  destruct (String.eqb k' k); cbn [map fst In]; tauto.
Qed.

Lemma Map_delete_NoDup (k : string) (m : list (string * string)) :
  NoDup (map fst m) -> NoDup (map fst (Map_delete k m)).
Proof.
  induction m as [|[k' v'] m IH]; cbn [Map_delete map fst]; intros N; [constructor|].
  inversion N as [|? ? Hnotin Hrest]; subst.
  destruct (String.eqb k' k); cbn [map fst]; [assumption|].
  constructor; [|now apply IH]. intros I. now apply Map_delete_keys in I.
Qed.

Lemma drop_first_of_socket_keys (sock x : string) (m : list (string * string)) :
  In x (map fst (drop_first_of_socket sock m)) -> In x (map fst m).
Proof.
  induction m as [|[k' v'] m IH]; cbn [drop_first_of_socket map fst In]; [tauto|].
  destruct (String.eqb v' sock); cbn [map fst In]; tauto.
Qed.

Lemma drop_first_of_socket_NoDup (sock : string) (m : list (string * string)) :
  NoDup (map fst m) -> NoDup (map fst (drop_first_of_socket sock m)).
Proof.
  induction m as [|[k' v'] m IH]; cbn [drop_first_of_socket map fst]; intros N;
    [constructor|].
  inversion N as [|? ? Hnotin Hrest]; subst.
  destruct (String.eqb v' sock); cbn [map fst]; [assumption|].
  constructor; [|now apply IH]. intros I. now apply drop_first_of_socket_keys in I.
Qed.

Lemma initiate_payment_registry (env : Env) (ph : option string) (a : option float)
      (w : World) :
  paymentSockets (snd (initiate_payment config env ph a w)) = paymentSockets w.
Proof.
  unfold initiate_payment.
  destruct ph as [ph|], a as [a|]; try reflexivity.
  destruct (negb (Js.truthy_string ph) || negb (Js.truthy_number a)); [reflexivity|].
  unfold initiate_payment_try, bind, ret.
  assert (C : paymentSockets (snd (payment_create env a w)) = paymentSockets w).
  { unfold payment_create. now destruct (existsb _ (payments w)). }
  destruct (payment_create env a w) as [[payment|e0] w1]; cbn [snd] in *; [|exact C].
  destruct (cashin_same_store config env (mkCashinParams ph a) w1) as [_ S].
  destruct (cashin config env (mkCashinParams ph a) w1) as [[resp|e1] w2]; cbn [snd] in *;
    [|congruence].
  assert (U : paymentSockets (snd (payment_update_ref env (id payment) (ref resp) w2))
              = paymentSockets w2).
  { unfold payment_update_ref.
    destruct (negb (existsb _ (payments w2))); [reflexivity|].
    now destruct (existsb _ (payments w2)). }
  destruct (payment_update_ref env (id payment) (ref resp) w2) as [[[]|e2] w3];
    cbn [snd] in *; congruence.
Qed.

Lemma serve_registry_ok (req : Request) (w : World) :
  registry_ok w -> registry_ok (serve config req w).
Proof.
  unfold registry_ok. intros N.
  destruct req as [env ph a|env sg raw d|sock pid|sock]; cbn [serve].
  - now rewrite initiate_payment_registry.
  - destruct (verify_true_or_throws (PAYPACK_WEBHOOK_SECRET config) sg raw) as [V|[e V]].
    + destruct d as [d|].
      * rewrite (webhook_verified _ _ _ _ _ _ V).
        destruct (findFirst_where (data_ref d) (payments w)) as [[payment|]|e];
          [|exact N ..].
        cbn [snd]. rewrite paymentSockets_resolved.
        destruct (push_events _ _ w); [exact N | now apply Map_delete_NoDup].
      * now rewrite (webhook_verified_no_data _ _ _ _ _ V).
    + now rewrite (webhook_throws _ _ _ _ _ _ _ V).
  - now apply Map_set_NoDup.
  - now apply drop_first_of_socket_NoDup.
Qed.

(** X25: in every state that the server reaches from start-up, whatever the
    requests and socket events, the registry holds each payment at most
    once. *)
Lemma reachable_registry_ok (reqs : list Request) :
  registry_ok (serve_all config reqs initial_world).
Proof.
  assert (G : forall w, registry_ok w -> registry_ok (serve_all config reqs w)).
  { induction reqs as [|req reqs IH]; intros w N; [exact N|].
    apply IH. now apply serve_registry_ok. }
  apply G. constructor.
Qed.

End Registry.

(* ================================================================== *)
(** ** The token cache, one call at a time *)

Section TokenCache.

Variable config : Config.

Lemma token_is_fresh_fields (t : Z) (svc : PaypackService) (tok : string) (exp : Z) :
  accessToken svc = Some tok -> tok <> "" -> tokenExpiresAt svc = Some exp ->
  token_is_fresh t svc = if t <? exp - 60000 then Some tok else None.
Proof.
  intros A N E. unfold token_is_fresh. rewrite A, E.
  destruct tok; [contradiction|]. reflexivity.
Qed.

(** A call that finds no refresh in flight and no fresh token, run to its
    return: one authorize request, the outcome of the reply, the fields that
    [authenticate] leaves, and the flags reset by [finally]. *)
Lemma getValidAccessToken_refreshes (env : Env) (w : World) :
  isRefreshingToken (service w) = false ->
  token_is_fresh (now env) (service w) = None ->
  promises_fresh w ->
  let started := mkService (accessToken (service w)) (tokenExpiresAt (service w))
                           true (Some (nextPromise w)) in
  let after := snd (authenticate_continue (authReply env) started) in
  let w' := snd (getValidAccessToken config env w) in
  fst (getValidAccessToken config env w) = result_of_settled (auth_outcome (authReply env))
  /\ trace w' = trace w ++ [authorize_request config]
  /\ service w' = mkService (accessToken after) (tokenExpiresAt after) false None
  /\ payments w' = payments w
  /\ paymentSockets w' = paymentSockets w
  /\ promises_fresh w'.
Proof.
  intros Hflag Hfresh Hp started after w'. subst w' after started.
  unfold getValidAccessToken, getValidAccessToken_enter. rewrite Hflag, Hfresh.
  unfold new_promise, set_service, emit_event.
  cbn [promises service payments paymentSockets nextPromise trace].
  rewrite (Hp (nextPromise w)) by lia.
  pose proof (auth_outcome_any_service (authReply env)
                (mkService (accessToken (service w)) (tokenExpiresAt (service w))
                           true (Some (nextPromise w)))) as O.
  destruct (authenticate_continue (authReply env) _) as [r svc].
  cbn [fst snd] in *. subst r.
  unfold getValidAccessToken_finally, settle, set_service.
  cbn [promises service payments paymentSockets nextPromise trace].
  repeat split; try reflexivity.
  intros q Hq. cbn [promises nextPromise] in *.
  destruct (Nat.eqb_spec q (nextPromise w)) as [E|_]; [lia|]. apply Hp. lia.
Qed.

End TokenCache.

(** X1: a cached token whose expiry lies more than 60 seconds ahead is
    returned as it is, when no refresh is in flight: no request is sent and
    nothing changes. *)
Theorem cached_token_is_reused (config : Config) (env : Env) (w : World)
        (tok : string) (exp : Z) :
  isRefreshingToken (service w) = false ->
  accessToken (service w) = Some tok -> tok <> "" ->
  tokenExpiresAt (service w) = Some exp ->
  now env < exp - 60000 ->
  getValidAccessToken config env w = (Ok tok, w).
Proof.
  intros Hflag A N E Ht. unfold getValidAccessToken, getValidAccessToken_enter.
  rewrite Hflag, (token_is_fresh_fields _ _ _ _ A N E).
  apply Z.ltb_lt in Ht. now rewrite Ht.
Qed.

Lemma cached_token_is_reused_witness :
  getValidAccessToken demo_config
    (mkEnv 1700003539999 "pay_2" (authReply demo_env) (cashinReply demo_env)) pending_world
  = (Ok "tok_1", pending_world).
Proof.
  apply (cached_token_is_reused demo_config _ pending_world "tok_1" 1700003600000);
    [reflexivity | reflexivity | discriminate | reflexivity | reflexivity].
Defined.

(** X2: a cached token is not reused from 60 seconds before its expiry on:
    at that instant or later the call sends one authorize request and returns
    the outcome of the reply. *)
Theorem token_near_expiry_is_refreshed (config : Config) (env : Env) (w : World)
        (exp : Z) :
  isRefreshingToken (service w) = false ->
  tokenExpiresAt (service w) = Some exp ->
  exp - 60000 <= now env ->
  promises_fresh w ->
  fst (getValidAccessToken config env w) = result_of_settled (auth_outcome (authReply env))
  /\ trace (snd (getValidAccessToken config env w)) = trace w ++ [authorize_request config].
Proof.
  intros Hflag E Ht Hp.
  assert (Hfresh : token_is_fresh (now env) (service w) = None).
  { unfold token_is_fresh. rewrite E. destruct (accessToken (service w)) as [tok|]; [|reflexivity].
    change (60 * 1000) with 60000. apply Z.ltb_ge in Ht. rewrite Ht.
    now rewrite andb_false_r. }
  destruct (getValidAccessToken_refreshes config env w Hflag Hfresh Hp) as (R & T & _).
  now split.
Qed.

Lemma token_near_expiry_is_refreshed_witness :
  let env := mkEnv 1700003540000 "pay_2"
                   (NetOk (mkAuthResponse "tok_2" "rfr_2" 1700007200))
                   (cashinReply demo_env) in
  fst (getValidAccessToken demo_config env pending_world) = Ok "tok_2"
  /\ trace (snd (getValidAccessToken demo_config env pending_world))
     = trace pending_world ++ [NetAuthorize "client-id" "client-secret"].
Proof.
  apply (token_near_expiry_is_refreshed demo_config
           (mkEnv 1700003540000 "pay_2"
                  (NetOk (mkAuthResponse "tok_2" "rfr_2" 1700007200))
                  (cashinReply demo_env))
           pending_world 1700003600000).
  - reflexivity.
  - reflexivity.
  - vm_compute. discriminate.
  - intros q Hq. destruct q as [|q]; [|reflexivity].
    exfalso. vm_compute in Hq. lia.
Defined.

Section Authenticate.

Lemma authenticate_continue_accepts (data : PaypackAuthResponse) (svc : PaypackService) :
  access data <> "" ->
  Z.abs (expires data * 1000) <= MAX_TIME_VALUE ->
  authenticate_continue (NetOk data) svc
  = (Fulfilled (access data),
     mkService (Some (access data)) (Some (expires data * 1000))
               (isRefreshingToken svc) (tokenRefreshPromise svc)).
Proof.
  intros A R. unfold authenticate_continue.
  destruct (access data); [contradiction|]. cbn [Js.truthy_string negb].
  apply Z.ltb_ge in R. now rewrite R.
Qed.

Lemma authenticate_continue_rejects (reply : NetResult PaypackAuthResponse)
      (svc : PaypackService) (e : ApiError) :
  auth_outcome reply = Rejected e ->
  snd (authenticate_continue reply svc)
  = mkService None None (isRefreshingToken svc) (tokenRefreshPromise svc).
Proof.
  unfold auth_outcome, authenticate_continue.
  destruct reply as [data|ax]; [|reflexivity].
  destruct (negb (Js.truthy_string (access data))); [reflexivity|].
  destruct (MAX_TIME_VALUE <? Z.abs (expires data * 1000)); [reflexivity|discriminate].
Qed.

End Authenticate.

(** X3: a refresh that succeeds returns the access token of the reply and
    caches it with the expiry of the reply; the in-flight markers are reset;
    and every later call made more than 60 seconds before that expiry gets
    the cached token without any request. *)
Theorem refresh_success_is_cached (config : Config) (env : Env) (w : World)
        (data : PaypackAuthResponse) :
  isRefreshingToken (service w) = false ->
  token_is_fresh (now env) (service w) = None ->
  promises_fresh w ->
  authReply env = NetOk data ->
  access data <> "" ->
  Z.abs (expires data * 1000) <= MAX_TIME_VALUE ->
  let w' := snd (getValidAccessToken config env w) in
  fst (getValidAccessToken config env w) = Ok (access data)
  /\ trace w' = trace w ++ [authorize_request config]
  /\ service w' = mkService (Some (access data)) (Some (expires data * 1000)) false None
  /\ forall env2, now env2 < expires data * 1000 - 60000 ->
                  getValidAccessToken config env2 w' = (Ok (access data), w').
Proof.
  intros Hflag Hfresh Hp Hreply A R w'.
  destruct (getValidAccessToken_refreshes config env w Hflag Hfresh Hp)
    as (F & T & S & _).
  fold w' in T, S. rewrite Hreply in F, S.
  rewrite authenticate_continue_accepts in S by assumption. cbn [snd accessToken tokenExpiresAt] in S.
  assert (O : auth_outcome (NetOk data) = Fulfilled (access data)).
  { unfold auth_outcome. now rewrite authenticate_continue_accepts. }
  rewrite O in F. repeat split; try assumption.
  intros env2 Ht. unfold getValidAccessToken, getValidAccessToken_enter. rewrite S.
  cbn [isRefreshingToken]. erewrite token_is_fresh_fields by (reflexivity || assumption).
  apply Z.ltb_lt in Ht. now rewrite Ht.
Qed.

Lemma refresh_success_is_cached_witness :
  fst (getValidAccessToken demo_config demo_env initial_world) = Ok "tok_1"
  /\ service (snd (getValidAccessToken demo_config demo_env initial_world))
     = mkService (Some "tok_1") (Some 1700003600000) false None.
Proof.
  destruct (refresh_success_is_cached demo_config demo_env initial_world
              (mkAuthResponse "tok_1" "rfr_1" 1700003600)) as (F & _ & S & _).
  - reflexivity.
  - reflexivity.
  - intros q _. reflexivity.
  - reflexivity.
  - discriminate.
  - vm_compute. discriminate.
  - split; [exact F | exact S].
Defined.

(** X4: a refresh that fails throws the error its promise was rejected with,
    leaves no token and no expiry in the cache and resets the in-flight
    markers; nothing is retried, and the next call sends a new authorize
    request. *)
Theorem refresh_failure_clears_cache (config : Config) (env : Env) (w : World)
        (e : ApiError) :
  isRefreshingToken (service w) = false ->
  token_is_fresh (now env) (service w) = None ->
  promises_fresh w ->
  auth_outcome (authReply env) = Rejected e ->
  let w' := snd (getValidAccessToken config env w) in
  fst (getValidAccessToken config env w) = Throw (ApiErr e)
  /\ trace w' = trace w ++ [authorize_request config]
  /\ service w' = new_PaypackService
  /\ forall env2,
       trace (snd (getValidAccessToken config env2 w'))
       = trace w' ++ [authorize_request config].
Proof.
  intros Hflag Hfresh Hp Hrej w'.
  destruct (getValidAccessToken_refreshes config env w Hflag Hfresh Hp)
    as (F & T & S & _ & _ & Hp').
  fold w' in T, S, Hp'. rewrite Hrej in F.
  rewrite (authenticate_continue_rejects _ _ _ Hrej) in S.
  cbn [accessToken tokenExpiresAt] in S. fold new_PaypackService in S.
  repeat split; try assumption.
  intros env2.
  destruct (getValidAccessToken_refreshes config env2 w') as (_ & T2 & _);
    try assumption; now rewrite S.
Qed.

Lemma refresh_failure_clears_cache_witness :
  let refused :=
    mkEnv 1700000000000 "pay_1"
          (NetFail (mkAxiosError (Some 401) None "Request failed with status code 401"))
          (cashinReply demo_env) in
  fst (getValidAccessToken demo_config refused initial_world)
  = Throw (ApiErr (mkApiError 401
                     "Payment Provider Error: Request failed with status code 401"
                     "PAYPACK_API_ERROR" None))
  /\ service (snd (getValidAccessToken demo_config refused initial_world))
     = new_PaypackService.
Proof.
  destruct (refresh_failure_clears_cache demo_config
              (mkEnv 1700000000000 "pay_1"
                 (NetFail (mkAxiosError (Some 401) None
                                        "Request failed with status code 401"))
                 (cashinReply demo_env))
              initial_world
              (mkApiError 401 "Payment Provider Error: Request failed with status code 401"
                          "PAYPACK_API_ERROR" None)) as (F & _ & S & _).
  - reflexivity.
  - reflexivity.
  - intros q _. reflexivity.
  - reflexivity.
  - split; [exact F | exact S].
Defined.

(** X5: an authorize reply without an access token is a failure with status
    500, code UNKNOWN_PAYPACK_ERROR and the message of the error raised for
    it; a reply whose expiry lies beyond the range of a [Date] is a failure
    with the same status and code, although it carries a token. *)
Theorem authenticate_rejects_unusable_reply (data : PaypackAuthResponse) :
  (access data = "" ->
   auth_outcome (NetOk data)
   = Rejected (mkApiError 500 "Authentication response did not include an access token."
                          "UNKNOWN_PAYPACK_ERROR" None))
  /\ (access data <> "" -> MAX_TIME_VALUE < Z.abs (expires data * 1000) ->
      exists e, auth_outcome (NetOk data) = Rejected e
                /\ statusCode e = 500 /\ code e = "UNKNOWN_PAYPACK_ERROR").
Proof.
  unfold auth_outcome, authenticate_continue. split.
  - intros ->. reflexivity.
  - intros A R. destruct (access data); [contradiction|].
    cbn [Js.truthy_string negb]. apply Z.ltb_lt in R. rewrite R.
    eexists. repeat split.
Qed.

Lemma authenticate_rejects_unusable_reply_witness :
  auth_outcome (NetOk (mkAuthResponse "" "rfr" 1700003600))
  = Rejected (mkApiError 500 "Authentication response did not include an access token."
                         "UNKNOWN_PAYPACK_ERROR" None)
  /\ exists e, auth_outcome (NetOk (mkAuthResponse "tok" "rfr" 8640000000001)) = Rejected e
               /\ statusCode e = 500 /\ code e = "UNKNOWN_PAYPACK_ERROR".
Proof.
  split.
  - apply (proj1 (authenticate_rejects_unusable_reply (mkAuthResponse "" "rfr" 1700003600))).
    reflexivity.
  - apply (proj2 (authenticate_rejects_unusable_reply
                    (mkAuthResponse "tok" "rfr" 8640000000001)));
      [discriminate | reflexivity].
Defined.

(** X6: the error that [handleApiError] throws always has a status code
    other than 0 and a message other than the empty string; for a failed
    request it is a PAYPACK_API_ERROR that carries the body of the response,
    the status of the response when there is one (500 otherwise), and the
    message of the body when the body has one; for anything else it is an
    UNKNOWN_PAYPACK_ERROR with status 500. *)
Theorem handleApiError_always_informative (error : exn) :
  statusCode (handleApiError error) <> 0
  /\ message (handleApiError error) <> ""
  /\ (forall ax, error = AxiosErr ax ->
        code (handleApiError error) = "PAYPACK_API_ERROR"
        /\ details (handleApiError error) = ax_data ax
        /\ (forall st, ax_status ax = Some st -> st <> 0 ->
                       statusCode (handleApiError error) = st)
        /\ (ax_status ax = None -> statusCode (handleApiError error) = 500)
        /\ (forall d m, ax_data ax = Some d -> body_message d = Some m -> m <> "" ->
                        message (handleApiError error)
                        = ("Payment Provider Error: " ++ m)%string))
  /\ ((forall ax, error <> AxiosErr ax) ->
      code (handleApiError error) = "UNKNOWN_PAYPACK_ERROR"
      /\ statusCode (handleApiError error) = 500).
Proof.
  split; [|split; [|split]].
  - destruct error as [a|ax|m]; cbn [handleApiError statusCode]; try discriminate.
    destruct (ax_status ax) as [st|]; [|discriminate].
    destruct (Z.eqb_spec st 0); [discriminate | assumption].
  - destruct error as [a|ax|m]; cbn [handleApiError message]; try discriminate;
      destruct (Js.truthy_string _) eqn:T; try discriminate;
      intros E; rewrite E in T; discriminate.
  - intros ax ->. cbn [handleApiError code details statusCode message].
    repeat split.
    + intros st -> N. destruct (Z.eqb_spec st 0); [contradiction|reflexivity].
    + now intros ->.
    + intros d m -> -> N. destruct m; [contradiction|]. reflexivity.
  - intros N. destruct error as [a|ax|m]; try (now split).
    now contradiction (N ax).
Qed.

Lemma handleApiError_always_informative_witness :
  statusCode (handleApiError
                (AxiosErr (mkAxiosError (Some 422)
                             (Some (mkErrorBody (Some "Insufficient funds") None))
                             "Request failed with status code 422"))) = 422
  /\ message (handleApiError
                (AxiosErr (mkAxiosError (Some 422)
                             (Some (mkErrorBody (Some "Insufficient funds") None))
                             "Request failed with status code 422")))
     = "Payment Provider Error: Insufficient funds".
Proof.
  destruct (handleApiError_always_informative
              (AxiosErr (mkAxiosError (Some 422)
                           (Some (mkErrorBody (Some "Insufficient funds") None))
                           "Request failed with status code 422")))
    as (_ & _ & H & _).
  destruct (H _ eq_refl) as (_ & _ & Hst & _ & Hmsg).
  split.
  - apply Hst; [reflexivity | discriminate].
  - apply (Hmsg (mkErrorBody (Some "Insufficient funds") None));
      [reflexivity | reflexivity | discriminate].
Defined.

(* ================================================================== *)
(** ** The token manager under any schedule *)

Section AnySchedule.

Variable config : Config.







End AnySchedule.



(* ================================================================== *)
(** ** The cash-in call, path by path *)

Section CashinPaths.

Variables (config : Config) (env : Env).

Lemma cashin_validate_ok (params : CashinParams) :
  PrimFloat.ltb (amount params) 100%float = false ->
  phone_format (number params) ->
  cashin_validate params = Ok tt.
Proof.
  intros A P. unfold cashin_validate. rewrite A.
  apply phone_regex_test_spec in P. now rewrite P.
Qed.

(** What the reply to the cash-in request makes [cashin] return. *)
Lemma cashin_after_token (params : CashinParams) (w : World) :
  cashin_validate params = Ok tt ->
  cashin config env params w
  = match getValidAccessToken config env w with
    | (Ok token, w1) =>
        (match cashinReply env with
         | NetOk data => Ok data
         | NetFail ax => Throw (ApiErr (handleApiError (AxiosErr ax)))
         end,
         emit_event (NetCashin token (amount params) (number params)) w1)
    | (Throw e, w1) => (Throw e, w1)
    end.
Proof.
  intros V. unfold cashin, bind, lift, modify. rewrite V.
  destruct (getValidAccessToken config env w) as [[token|e] w1]; [|reflexivity].
  destruct (cashinReply env); reflexivity.
Qed.

(** Obtaining a token sends the authorize request or nothing. *)
Lemma getValidAccessToken_trace (w : World) :
  trace (snd (getValidAccessToken config env w)) = trace w
  \/ trace (snd (getValidAccessToken config env w)) = trace w ++ [authorize_request config].
Proof.
  unfold getValidAccessToken, getValidAccessToken_enter.
  destruct (isRefreshingToken (service w)), (tokenRefreshPromise (service w)) as [p|];
    try (destruct (token_is_fresh (now env) (service w)); [now left|];
         cbn [new_promise set_service emit_event promises service nextPromise];
         destruct (promises w (nextPromise w));
         [ | destruct (authenticate_continue _ _) ]; right; reflexivity).
  destruct (promises w p); [ | destruct (authenticate_continue _ _) ]; left; reflexivity.
Qed.

End CashinPaths.

(** X8: with a valid amount and phone number and a fresh token in the cache,
    [cashin] sends exactly one request, the cash-in request carrying the
    cached token, the amount and the number; it returns the data of a
    successful reply and leaves the token cache as it was. *)
Theorem cashin_with_cached_token (config : Config) (env : Env) (params : CashinParams)
        (w : World) (tok : string) (exp : Z) (data : CashinResponse) :
  PrimFloat.ltb (amount params) 100%float = false ->
  phone_format (number params) ->
  isRefreshingToken (service w) = false ->
  accessToken (service w) = Some tok -> tok <> "" ->
  tokenExpiresAt (service w) = Some exp ->
  now env < exp - 60000 ->
  cashinReply env = NetOk data ->
  cashin config env params w
  = (Ok data, emit_event (NetCashin tok (amount params) (number params)) w).
Proof.
  intros A P Hflag T N E Ht Hreply.
  rewrite (cashin_after_token config env params w (cashin_validate_ok params A P)).
  assert (G : getValidAccessToken config env w = (Ok tok, w)).
  { unfold getValidAccessToken, getValidAccessToken_enter.
    rewrite Hflag, (token_is_fresh_fields _ _ _ _ T N E).
    apply Z.ltb_lt in Ht. now rewrite Ht. }
  now rewrite G, Hreply.
Qed.

Lemma cashin_with_cached_token_witness :
  cashin demo_config
         (mkEnv 1700000060000 "pay_2" (authReply demo_env) (cashinReply demo_env))
         (mkCashinParams "0788888888" 250%float) pending_world
  = (Ok (mkCashinResponse "abc123" "pending" 500%float "mtn" "2023-11-14"),
     emit_event (NetCashin "tok_1" 250%float "0788888888") pending_world).
Proof.
  apply (cashin_with_cached_token demo_config _ (mkCashinParams "0788888888" 250%float)
           pending_world "tok_1" 1700003600000); try reflexivity; try discriminate.
  exists "88888888". split; [reflexivity|]. split; [reflexivity|].
  intros c H. cbn in H. repeat (destruct H as [<-|H]; [reflexivity|]). contradiction.
Defined.

(** X9: with a valid amount and phone number, no refresh in flight and no
    fresh token, [cashin] first authenticates and then sends the cash-in
    request with the access token it has just received; these are its only
    two requests, in this order, and it returns the data of a successful
    reply. *)
Theorem cashin_authenticates_first (config : Config) (env : Env) (params : CashinParams)
        (w : World) (auth : PaypackAuthResponse) (data : CashinResponse) :
  PrimFloat.ltb (amount params) 100%float = false ->
  phone_format (number params) ->
  isRefreshingToken (service w) = false ->
  token_is_fresh (now env) (service w) = None ->
  promises_fresh w ->
  authReply env = NetOk auth ->
  access auth <> "" ->
  Z.abs (expires auth * 1000) <= MAX_TIME_VALUE ->
  cashinReply env = NetOk data ->
  fst (cashin config env params w) = Ok data
  /\ trace (snd (cashin config env params w))
     = trace w ++ [authorize_request config;
                   NetCashin (access auth) (amount params) (number params)].
Proof.
  intros A P Hflag Hfresh Hp Hreply Hacc Hexp Hcash.
  rewrite (cashin_after_token config env params w (cashin_validate_ok params A P)).
  destruct (getValidAccessToken_refreshes config env w Hflag Hfresh Hp) as (F & T & _).
  assert (O : auth_outcome (authReply env) = Fulfilled (access auth)).
  { rewrite Hreply. unfold auth_outcome. now rewrite authenticate_continue_accepts. }
  rewrite O in F. cbn [result_of_settled] in F.
  destruct (getValidAccessToken config env w) as [r w1]. cbn [fst snd] in *. subst r.
  rewrite Hcash. cbn [fst snd]. split; [reflexivity|].
  unfold emit_event. cbn [trace]. rewrite T, <- app_assoc. reflexivity.
Qed.

Lemma cashin_authenticates_first_witness :
  fst (cashin demo_config demo_env (mkCashinParams "0781234567" 500%float) initial_world)
  = Ok (mkCashinResponse "abc123" "pending" 500%float "mtn" "2023-11-14")
  /\ trace (snd (cashin demo_config demo_env (mkCashinParams "0781234567" 500%float)
                        initial_world))
     = [NetAuthorize "client-id" "client-secret"; NetCashin "tok_1" 500%float "0781234567"].
Proof.
  apply (cashin_authenticates_first demo_config demo_env
           (mkCashinParams "0781234567" 500%float) initial_world
           (mkAuthResponse "tok_1" "rfr_1" 1700003600));
    try reflexivity; try discriminate.
  - exists "81234567". split; [reflexivity|]. split; [reflexivity|].
    intros c H. cbn in H. repeat (destruct H as [<-|H]; [reflexivity|]). contradiction.
  - intros q _. reflexivity.
Defined.

(** X10: when authentication fails, [cashin] throws the authentication error
    and the cash-in request is never sent: the authorize request is the only
    request of the call. *)
Theorem cashin_stops_when_authentication_fails (config : Config) (env : Env)
        (params : CashinParams) (w : World) (e : ApiError) :
  PrimFloat.ltb (amount params) 100%float = false ->
  phone_format (number params) ->
  isRefreshingToken (service w) = false ->
  token_is_fresh (now env) (service w) = None ->
  promises_fresh w ->
  auth_outcome (authReply env) = Rejected e ->
  fst (cashin config env params w) = Throw (ApiErr e)
  /\ trace (snd (cashin config env params w)) = trace w ++ [authorize_request config]
  /\ accessToken (service (snd (cashin config env params w))) = None.
Proof.
  intros A P Hflag Hfresh Hp Hrej.
  rewrite (cashin_after_token config env params w (cashin_validate_ok params A P)).
  destruct (getValidAccessToken_refreshes config env w Hflag Hfresh Hp) as (F & T & S & _).
  rewrite Hrej in F. cbn [result_of_settled] in F.
  rewrite (authenticate_continue_rejects _ _ _ Hrej) in S.
  destruct (getValidAccessToken config env w) as [r w1]. cbn [fst snd] in *. subst r.
  cbn [fst snd]. repeat split; [exact T | now rewrite S].
Qed.

Lemma cashin_stops_when_authentication_fails_witness :
  let refused :=
    mkEnv 1700000000000 "pay_1"
          (NetFail (mkAxiosError (Some 401) None "Request failed with status code 401"))
          (cashinReply demo_env) in
  trace (snd (cashin demo_config refused (mkCashinParams "0781234567" 500%float)
                     initial_world))
  = [NetAuthorize "client-id" "client-secret"].
Proof.
  assert (P : phone_format (number (mkCashinParams "0781234567" 500%float))).
  { exists "81234567". split; [reflexivity|]. split; [reflexivity|].
    intros c H. cbn in H. repeat (destruct H as [<-|H]; [reflexivity|]). contradiction. }
  exact (proj1 (proj2
    (cashin_stops_when_authentication_fails demo_config
       (mkEnv 1700000000000 "pay_1"
          (NetFail (mkAxiosError (Some 401) None "Request failed with status code 401"))
          (cashinReply demo_env))
       (mkCashinParams "0781234567" 500%float) initial_world
       (mkApiError 401 "Payment Provider Error: Request failed with status code 401"
                   "PAYPACK_API_ERROR" None)
       eq_refl P eq_refl eq_refl (fun q _ => eq_refl) eq_refl))).
Defined.

(** X11: when the gateway answers the cash-in request with a failure,
    [cashin] throws a PAYPACK_API_ERROR that carries the body of the response
    and its status; the request has been sent with the token that was
    obtained, and neither the store nor the registry has changed. *)
Theorem cashin_reports_provider_failure (config : Config) (env : Env)
        (params : CashinParams) (w : World) (tok : string) (ax : AxiosError) :
  PrimFloat.ltb (amount params) 100%float = false ->
  phone_format (number params) ->
  fst (getValidAccessToken config env w) = Ok tok ->
  cashinReply env = NetFail ax ->
  exists e,
    fst (cashin config env params w) = Throw (ApiErr e)
    /\ code e = "PAYPACK_API_ERROR"
    /\ details e = ax_data ax
    /\ (forall st, ax_status ax = Some st -> st <> 0 -> statusCode e = st)
    /\ In (NetCashin tok (amount params) (number params))
          (trace (snd (cashin config env params w)))
    /\ payments (snd (cashin config env params w)) = payments w
    /\ paymentSockets (snd (cashin config env params w)) = paymentSockets w.
Proof.
  intros A P Htok Hreply.
  destruct (cashin_same_store config env params w) as [S1 S2].
  rewrite (cashin_after_token config env params w (cashin_validate_ok params A P)) in *.
  destruct (getValidAccessToken config env w) as [r w1]. cbn [fst] in Htok. subst r.
  rewrite Hreply in *. cbn [fst snd] in *.
  exists (handleApiError (AxiosErr ax)). repeat split; try assumption.
  - intros st Hst N. cbn [handleApiError statusCode]. rewrite Hst.
    destruct (Z.eqb_spec st 0); [contradiction | reflexivity].
  - unfold emit_event. cbn [trace]. apply in_or_app. right. now left.
Qed.

Lemma cashin_reports_provider_failure_witness :
  exists e,
    fst (cashin demo_config
              (mkEnv 1700000000000 "pay_1" (authReply demo_env)
                 (NetFail (mkAxiosError (Some 400)
                             (Some (mkErrorBody (Some "number not registered") None))
                             "Request failed with status code 400")))
              (mkCashinParams "0781234567" 500%float) initial_world)
       = Throw (ApiErr e)
       /\ code e = "PAYPACK_API_ERROR" /\ statusCode e = 400.
Proof.
  assert (P : phone_format (number (mkCashinParams "0781234567" 500%float))).
  { exists "81234567". split; [reflexivity|]. split; [reflexivity|].
    intros c H. cbn in H. repeat (destruct H as [<-|H]; [reflexivity|]). contradiction. }
  destruct (cashin_reports_provider_failure demo_config
              (mkEnv 1700000000000 "pay_1" (authReply demo_env)
                 (NetFail (mkAxiosError (Some 400)
                             (Some (mkErrorBody (Some "number not registered") None))
                             "Request failed with status code 400")))
              (mkCashinParams "0781234567" 500%float) initial_world "tok_1"
              (mkAxiosError (Some 400)
                 (Some (mkErrorBody (Some "number not registered") None))
                 "Request failed with status code 400")
              eq_refl P eq_refl eq_refl) as (e & F & C & _ & St & _).
  exists e. split; [exact F|]. split; [exact C|].
  apply St; [reflexivity | discriminate].
Defined.

(** X12: whatever its input and whatever the gateway replies, [cashin]
    writes nothing to the store, changes no registration and pushes no
    notification; it sends at most two requests, and they go to the
    gateway. *)
Theorem cashin_only_talks_to_the_gateway (config : Config) (env : Env)
        (params : CashinParams) (w : World) :
  payments (snd (cashin config env params w)) = payments w
  /\ paymentSockets (snd (cashin config env params w)) = paymentSockets w
  /\ exists added,
       trace (snd (cashin config env params w)) = trace w ++ added
       /\ (List.length added <= 2)%nat
       /\ forallb is_network added = true.
Proof.
  destruct (cashin_same_store config env params w) as [S1 S2].
  split; [exact S1|]. split; [exact S2|].
  destruct (cashin_validate params) as [[]|e] eqn:V.
  - rewrite (cashin_after_token config env params w V).
    pose proof (getValidAccessToken_trace config env w) as T.
    destruct (getValidAccessToken config env w) as [[tok|e] w1]; cbn [snd] in *.
    + unfold emit_event. cbn [trace].
      destruct T as [-> | ->].
      * eexists. split; [reflexivity|]. split; [cbn; lia | reflexivity].
      * rewrite <- app_assoc. eexists. split; [reflexivity|].
        split; [cbn; lia | reflexivity].
    + destruct T as [-> | ->].
      * exists []. rewrite app_nil_r. split; [reflexivity|]. split; [cbn; lia | reflexivity].
      * eexists. split; [reflexivity|]. split; [cbn; lia | reflexivity].
  - rewrite (cashin_invalid config env params w e V). cbn [snd].
    exists []. rewrite app_nil_r. split; [reflexivity|]. split; [cbn; lia | reflexivity].
Qed.

(* ================================================================== *)
(** ** The initiate route, path by path *)

Section InitiatePaths.

Variables (config : Config) (env : Env).

Lemma update_where_absent (pid : string) (f : Payment -> Payment) (l : list Payment) :
  existsb (has_id pid) l = false -> update_where pid f l = l.
Proof.
  induction l as [|p l IH]; [reflexivity|]. cbn [existsb update_where map].
  intros H. apply orb_false_elim in H. destruct H as [H1 H2].
  rewrite H1. f_equal. now apply IH.
Qed.

Lemma payment_create_fresh (a : float) (w : World) :
  existsb (has_id (newId env)) (payments w) = false ->
  payment_create env a w
  = (Ok (new_row env a),
     emit_event (DbCreate (newId env)) (set_payments (fun l => l ++ [new_row env a]) w)).
Proof. intros H. unfold payment_create. now rewrite H. Qed.

(** The route from the point where the row has been created. *)
Lemma initiate_payment_created (ph : string) (a : float) (w : World) :
  Js.truthy_string ph = true -> Js.truthy_number a = true ->
  existsb (has_id (newId env)) (payments w) = false ->
  initiate_payment config env (Some ph) (Some a) w
  = match cashin config env (mkCashinParams ph a)
            (emit_event (DbCreate (newId env))
               (set_payments (fun l => l ++ [new_row env a]) w)) with
    | (Ok resp, w2) =>
        match payment_update_ref env (newId env) (ref resp) w2 with
        | (Ok _, w3) => (mkResponse 200 (JsonPaymentId (newId env)), w3)
        | (Throw _, w3) => (mkResponse 500 (JsonError "Failed to initiate payment."), w3)
        end
    | (Throw _, w2) => (mkResponse 500 (JsonError "Failed to initiate payment."), w2)
    end.
Proof.
  intros Hp Ha Hid. unfold initiate_payment. rewrite Hp, Ha. cbn [negb orb].
  unfold initiate_payment_try, bind, ret. rewrite (payment_create_fresh a w Hid).
  cbn [id new_row].
  destruct (cashin config env _ _) as [[resp|e] w2]; [|reflexivity].
  destruct (payment_update_ref env (newId env) (ref resp) w2) as [[[]|e] w3]; reflexivity.
Qed.

Lemma existsb_app_new (f : Payment -> bool) (l : list Payment) (p : Payment) :
  existsb f (l ++ [p]) = existsb f l || f p.
Proof. rewrite existsb_app. cbn [existsb]. now rewrite orb_false_r. Qed.

Lemma update_where_new_row (pid : string) (f : Payment -> Payment)
      (l : list Payment) (p : Payment) :
  existsb (has_id pid) l = false -> id p = pid ->
  update_where pid f (l ++ [p]) = l ++ [f p].
Proof.
  intros H E. unfold update_where. rewrite map_app.
  fold (update_where pid f l). rewrite (update_where_absent pid f l H).
  cbn [map]. unfold has_id. rewrite E, String.eqb_refl. reflexivity.
Qed.

End InitiatePaths.

(** X13: a request whose phone number is missing or empty, or whose amount is
    missing, zero or NaN, is answered 400 before anything is done: no row is
    created and no request is sent. *)
Theorem initiate_payment_requires_both_fields (config : Config) (env : Env)
        (ph : option string) (a : option float) (w : World) :
  ph = None \/ ph = Some "" \/ a = None
  \/ (exists x, a = Some x /\ (PrimFloat.eqb x 0%float = true \/ PrimFloat.eqb x x = false)) ->
  initiate_payment config env ph a w
  = (mkResponse 400 (JsonError "Phone number and amount are required."), w).
Proof.
  intros [->|[->|[->|(x & -> & Hx)]]]; unfold initiate_payment.
  - reflexivity.
  - now destruct a.
  - now destruct ph.
  - destruct ph as [ph|]; [|reflexivity].
    assert (T : Js.truthy_number x = false).
    { unfold Js.truthy_number. destruct Hx as [-> | ->]; [reflexivity|].
      now rewrite andb_false_r. }
    rewrite T. cbn [negb]. now rewrite orb_true_r.
Qed.

Lemma initiate_payment_requires_both_fields_witness :
  initiate_payment demo_config demo_env (Some "0781234567") (Some 0%float) pending_world
  = (mkResponse 400 (JsonError "Phone number and amount are required."), pending_world)
  /\ initiate_payment demo_config demo_env (Some "0781234567") (Some nan) pending_world
     = (mkResponse 400 (JsonError "Phone number and amount are required."), pending_world).
Proof.
  split; apply initiate_payment_requires_both_fields; right; right; right.
  - exists 0%float. split; [reflexivity | left; reflexivity].
  - exists nan. split; [reflexivity | right; reflexivity].
Defined.

Section InitiateOutcomes.

Variables (config : Config) (env : Env).

(** Recording the reference on the row that has just been created. *)
Lemma payment_update_ref_new_row (a : float) (r : string) (w2 : World) (l : list Payment) :
  existsb (has_id (newId env)) l = false ->
  payments w2 = l ++ [new_row env a] ->
  payment_update_ref env (newId env) r w2
  = if existsb (has_ref r) l
    then (Throw (JsError "Unique constraint failed on the fields: (paypackRef)"), w2)
    else (Ok tt, emit_event (DbSetRef (newId env) r)
                   (set_payments (fun _ => l ++ [with_ref (now env) r (new_row env a)]) w2)).
Proof.
  intros Hid Hpay. unfold payment_update_ref. rewrite Hpay.
  rewrite existsb_app_new. unfold has_id at 2. cbn [id new_row].
  rewrite String.eqb_refl, orb_true_r. cbn [negb].
  rewrite existsb_app_new.
  assert (E : existsb (fun p => has_ref r p && negb (has_id (newId env) p)) l
              = existsb (has_ref r) l).
  { clear Hpay. induction l as [|p l' IH]; [reflexivity|]. cbn [existsb] in *.
    apply orb_false_elim in Hid. destruct Hid as [H1 H2].
    rewrite H1, (IH H2). cbn [negb]. now rewrite andb_true_r. }
  rewrite E. cbn [has_ref paypackRef new_row andb]. rewrite orb_false_r.
  destruct (existsb (has_ref r) l); [reflexivity|].
  unfold set_payments. rewrite Hpay.
  rewrite (update_where_new_row (newId env) _ l (new_row env a) Hid eq_refl).
  reflexivity.
Qed.

End InitiateOutcomes.

(** X14: a request with both fields, for which the store generates an unused
    identifier, [cashin] succeeds and the reference of the gateway is not
    yet used by a stored payment, is answered 200 with the new identifier;
    the store then holds every earlier row unchanged and one more row, which
    is PENDING and carries the amount and the reference. *)
Theorem initiate_payment_success (config : Config) (env : Env) (ph : string) (a : float)
        (w : World) (resp : CashinResponse) :
  Js.truthy_string ph = true -> Js.truthy_number a = true ->
  existsb (has_id (newId env)) (payments w) = false ->
  fst (cashin config env (mkCashinParams ph a) (snd (payment_create env a w))) = Ok resp ->
  existsb (has_ref (ref resp)) (payments w) = false ->
  fst (initiate_payment config env (Some ph) (Some a) w)
  = mkResponse 200 (JsonPaymentId (newId env))
  /\ payments (snd (initiate_payment config env (Some ph) (Some a) w))
     = payments w ++ [mkPayment (newId env) a "PENDING" (Some (ref resp))
                                (now env) (now env)].
Proof.
  intros Hp Ha Hid Hcash Href.
  rewrite (initiate_payment_created config env ph a w Hp Ha Hid).
  rewrite (payment_create_fresh env a w Hid) in Hcash. cbn [snd] in Hcash.
  pose proof (cashin_same_store config env (mkCashinParams ph a)
                (emit_event (DbCreate (newId env))
                   (set_payments (fun l => l ++ [new_row env a]) w))) as [S _].
  destruct (cashin config env _ _) as [r w2]. cbn [fst snd] in *. subst r.
  rewrite (payment_update_ref_new_row env a (ref resp) w2 (payments w) Hid S), Href.
  cbn [fst snd]. split; reflexivity.
Qed.

Lemma initiate_payment_success_witness :
  fst (initiate_payment demo_config demo_env (Some "0781234567") (Some 500%float)
                        initial_world)
  = mkResponse 200 (JsonPaymentId "pay_1")
  /\ payments (snd (initiate_payment demo_config demo_env (Some "0781234567")
                                     (Some 500%float) initial_world))
     = [pay_1_pending].
Proof.
  exact (initiate_payment_success demo_config demo_env "0781234567" 500%float initial_world
           (mkCashinResponse "abc123" "pending" 500%float "mtn" "2023-11-14")
           eq_refl eq_refl eq_refl eq_refl eq_refl).
Defined.

(** X15: when [cashin] throws after the row has been created, whatever the
    reason, the route answers 500 and the row stays in the store: PENDING,
    without a reference; the earlier rows are unchanged. *)
Theorem initiate_payment_failure_leaves_pending_row (config : Config) (env : Env)
        (ph : string) (a : float) (w : World) (e : exn) :
  Js.truthy_string ph = true -> Js.truthy_number a = true ->
  existsb (has_id (newId env)) (payments w) = false ->
  fst (cashin config env (mkCashinParams ph a) (snd (payment_create env a w))) = Throw e ->
  fst (initiate_payment config env (Some ph) (Some a) w)
  = mkResponse 500 (JsonError "Failed to initiate payment.")
  /\ payments (snd (initiate_payment config env (Some ph) (Some a) w))
     = payments w ++ [mkPayment (newId env) a "PENDING" None (now env) (now env)].
Proof.
  intros Hp Ha Hid Hcash.
  rewrite (initiate_payment_created config env ph a w Hp Ha Hid).
  rewrite (payment_create_fresh env a w Hid) in Hcash. cbn [snd] in Hcash.
  pose proof (cashin_same_store config env (mkCashinParams ph a)
                (emit_event (DbCreate (newId env))
                   (set_payments (fun l => l ++ [new_row env a]) w))) as [S _].
  destruct (cashin config env _ _) as [r w2]. cbn [fst snd] in *. subst r.
  split; [reflexivity | exact S].
Qed.

Lemma initiate_payment_failure_leaves_pending_row_witness :
  payments (snd (initiate_payment demo_config demo_env (Some "0781234567")
                                  (Some 50%float) initial_world))
  = [mkPayment "pay_1" 50%float "PENDING" None 1700000000000 1700000000000].
Proof.
  exact (proj2 (initiate_payment_failure_leaves_pending_row demo_config demo_env
                  "0781234567" 50%float initial_world (ApiErr INVALID_AMOUNT_error)
                  eq_refl eq_refl eq_refl eq_refl)).
Defined.

(** X16: when the gateway accepts the cash-in but returns a reference that a
    stored payment already carries, the unique index refuses the update: the
    route answers 500 and the new row stays PENDING without a reference. *)
Theorem initiate_payment_duplicate_reference (config : Config) (env : Env)
        (ph : string) (a : float) (w : World) (resp : CashinResponse) :
  Js.truthy_string ph = true -> Js.truthy_number a = true ->
  existsb (has_id (newId env)) (payments w) = false ->
  fst (cashin config env (mkCashinParams ph a) (snd (payment_create env a w))) = Ok resp ->
  existsb (has_ref (ref resp)) (payments w) = true ->
  fst (initiate_payment config env (Some ph) (Some a) w)
  = mkResponse 500 (JsonError "Failed to initiate payment.")
  /\ payments (snd (initiate_payment config env (Some ph) (Some a) w))
     = payments w ++ [mkPayment (newId env) a "PENDING" None (now env) (now env)].
Proof.
  intros Hp Ha Hid Hcash Href.
  rewrite (initiate_payment_created config env ph a w Hp Ha Hid).
  rewrite (payment_create_fresh env a w Hid) in Hcash. cbn [snd] in Hcash.
  pose proof (cashin_same_store config env (mkCashinParams ph a)
                (emit_event (DbCreate (newId env))
                   (set_payments (fun l => l ++ [new_row env a]) w))) as [S _].
  destruct (cashin config env _ _) as [r w2]. cbn [fst snd] in *. subst r.
  rewrite (payment_update_ref_new_row env a (ref resp) w2 (payments w) Hid S), Href.
  cbn [fst snd]. split; [reflexivity | exact S].
Qed.

Lemma initiate_payment_duplicate_reference_witness :
  let env2 := mkEnv 1700000060000 "pay_2" (authReply demo_env) (cashinReply demo_env) in
  fst (initiate_payment demo_config env2 (Some "0788888888") (Some 250%float) pending_world)
  = mkResponse 500 (JsonError "Failed to initiate payment.")
  /\ payments (snd (initiate_payment demo_config env2 (Some "0788888888") (Some 250%float)
                                     pending_world))
     = payments pending_world
       ++ [mkPayment "pay_2" 250%float "PENDING" None 1700000060000 1700000060000].
Proof.
  exact (initiate_payment_duplicate_reference demo_config
           (mkEnv 1700000060000 "pay_2" (authReply demo_env) (cashinReply demo_env))
           "0788888888" 250%float pending_world
           (mkCashinResponse "abc123" "pending" 500%float "mtn" "2023-11-14")
           eq_refl eq_refl eq_refl eq_refl eq_refl).
Defined.

Section StoredPayments.

Variable config : Config.

(** The initiate route appends at most one row and rewrites no earlier row. *)
Lemma initiate_payment_appends (env : Env) (ph : option string) (a : option float)
      (w : World) :
  exists added,
    payments (snd (initiate_payment config env ph a w)) = payments w ++ added
    /\ (List.length added <= 1)%nat.
Proof.
  assert (Z0 : exists added, payments w = payments w ++ added /\ (List.length added <= 1)%nat).
  { exists []. rewrite app_nil_r. split; [reflexivity | cbn; lia]. }
  destruct ph as [ph|], a as [a|]; try exact Z0.
  destruct (Js.truthy_string ph) eqn:Hp;
    [|unfold initiate_payment; rewrite Hp; exact Z0].
  destruct (Js.truthy_number a) eqn:Ha;
    [|unfold initiate_payment; rewrite Hp, Ha; exact Z0].
  destruct (existsb (has_id (newId env)) (payments w)) eqn:Hid.
  - unfold initiate_payment, initiate_payment_try, bind, payment_create.
    rewrite Hp, Ha, Hid. exact Z0.
  - rewrite (initiate_payment_created config env ph a w Hp Ha Hid).
    pose proof (cashin_same_store config env (mkCashinParams ph a)
                  (emit_event (DbCreate (newId env))
                     (set_payments (fun l => l ++ [new_row env a]) w))) as [S _].
    destruct (cashin config env _ _) as [[resp|e] w2]; cbn [snd] in S.
    + rewrite (payment_update_ref_new_row env a (ref resp) w2 (payments w) Hid S).
      destruct (existsb (has_ref (ref resp)) (payments w)); cbn [snd].
      * exists [new_row env a]. split; [exact S | cbn; lia].
      * eexists. split; [reflexivity | cbn; lia].
    + exists [new_row env a]. split; [exact S | cbn; lia].
Qed.

Lemma fixed_columns_update_status (pid : string) (t : Z) (st : string) (l : list Payment) :
  map fixed_columns (update_where pid (with_status t st) l) = map fixed_columns l.
Proof.
  unfold update_where. rewrite map_map. apply map_ext.
  intros p. now destruct (has_id pid p).
Qed.

(** The webhook route keeps the rows of the store and their fixed columns. *)
Lemma webhook_fixed_columns (env : Env) (signature : option string)
      (rawBody : option (list byte)) (data : option WebhookData) (w : World) :
  map fixed_columns (payments (snd (webhook config env signature rawBody data w)))
  = map fixed_columns (payments w).
Proof.
  destruct (verify_true_or_throws (PAYPACK_WEBHOOK_SECRET config) signature rawBody)
    as [V|[e V]].
  - destruct data as [d|].
    + rewrite (webhook_verified _ _ _ _ _ _ V).
      destruct (findFirst_where (data_ref d) (payments w)) as [[payment|]|e];
        [|reflexivity ..].
      cbn [snd]. rewrite payments_resolved. apply fixed_columns_update_status.
    + now rewrite (webhook_verified_no_data _ _ _ _ _ V).
  - now rewrite (webhook_throws _ _ _ _ _ _ _ V).
Qed.

End StoredPayments.

(** X17: no request deletes a stored payment or rewrites its identifier, its
    amount, its reference or its creation time: after any request the store
    holds the earlier rows in the same order with these columns unchanged,
    followed by at most one new row, and only the initiate route adds one. *)
Theorem serve_keeps_stored_payments (config : Config) (req : Request) (w : World) :
  exists added,
    map fixed_columns (payments (serve config req w))
    = map fixed_columns (payments w) ++ map fixed_columns added
    /\ (List.length added <= 1)%nat
    /\ ((forall env ph a, req <> InitiatePayment env ph a) -> added = []).
Proof.
  destruct req as [env ph a|env sg raw d|sock pid|sock]; cbn [serve].
  - destruct (initiate_payment_appends config env ph a w) as (added & E & L).
    exists added. rewrite E, map_app. repeat split; [exact L|].
    intros N. now contradiction (N env ph a).
  - exists []. rewrite app_nil_r. repeat split; [apply webhook_fixed_columns | cbn; lia].
  - exists []. rewrite app_nil_r. repeat split. cbn; lia.
  - exists []. rewrite app_nil_r. repeat split. cbn; lia.
Qed.

(* ================================================================== *)
(** ** The webhook route, outcome by outcome *)

Section WebhookOutcomes.

Variables (config : Config) (env : Env).

Lemma verify_accepts_only_signed (signature : option string)
      (rawBody : option (list byte)) :
  verifyWebhookSignature (PAYPACK_WEBHOOK_SECRET config) signature rawBody = Ok true ->
  exists body, rawBody = Some body
               /\ signature = Some (expectedSignature (PAYPACK_WEBHOOK_SECRET config) body).
Proof.
  intros H. destruct signature as [sig|]; [|discriminate].
  destruct rawBody as [body|].
  - exists body. split; [reflexivity|]. f_equal. now apply verify_accepts_iff.
  - unfold verifyWebhookSignature in H.
    destruct (Js.truthy_string sig); cbn [negb] in H; discriminate.
Qed.

Lemma verify_accepts_signed (body : list byte) :
  verifyWebhookSignature (PAYPACK_WEBHOOK_SECRET config)
    (Some (expectedSignature (PAYPACK_WEBHOOK_SECRET config) body)) (Some body) = Ok true.
Proof. now apply verify_accepts_iff. Qed.

Lemma Map_get_delete_other (k k' : string) (m : list (string * string)) :
  k' <> k -> Map_get k' (Map_delete k m) = Map_get k' m.
Proof.
  intros N. induction m as [|[k0 v0] m IH]; [reflexivity|]. cbn [Map_delete Map_get].
  destruct (String.eqb_spec k0 k) as [E|D].
  - subst k0. destruct (String.eqb_spec k k'); [congruence | reflexivity].
  - cbn [Map_get]. now rewrite IH.
Qed.

End WebhookOutcomes.

(** X18: a webhook that is not signed for its raw body under the webhook
    secret changes nothing: whatever its header, its body and its parsed
    data, the route answers 500 and the store, the registry, the token cache
    and the trace are as before. *)
Theorem unsigned_webhook_changes_nothing (config : Config) (env : Env)
        (signature : option string) (rawBody : option (list byte))
        (data : option WebhookData) (w : World) :
  (forall body, rawBody = Some body ->
                signature <> Some (expectedSignature (PAYPACK_WEBHOOK_SECRET config) body)) ->
  webhook config env signature rawBody data w
  = (mkResponse 500 (Text "Error processing webhook."), w).
Proof.
  intros N.
  destruct (verify_true_or_throws (PAYPACK_WEBHOOK_SECRET config) signature rawBody)
    as [V|[e V]].
  - apply verify_accepts_only_signed in V. destruct V as (body & Hb & Hs).
    now contradiction (N body Hb).
  - now apply webhook_throws with (e := ApiErr e).
Qed.

Lemma unsigned_webhook_changes_nothing_witness :
  webhook demo_config demo_env (Some sig_rejected)
          (Some (webhook_json "abc123" "successful"))
          (Some (mkWebhookData (RefString "abc123") (JsString "successful"))) pending_world
  = (mkResponse 500 (Text "Error processing webhook."), pending_world).
Proof.
  apply unsigned_webhook_changes_nothing.
  intros body Hb. inversion Hb; subst. vm_compute. discriminate.
Defined.

Lemma find_ref_none (r : string) (l : list Payment) :
  ~ In r (stored_refs l) -> find (has_ref r) l = None.
Proof.
  induction l as [|p l IH]; [reflexivity|]. unfold stored_refs. cbn [flat_map find].
  fold (stored_refs l). intros N. unfold has_ref at 1.
  destruct (paypackRef p) as [r'|].
  - destruct (String.eqb_spec r' r) as [E|_].
    + exfalso. apply N. left. exact E.
    + apply IH. intros I. apply N. now right.
  - now apply IH.
Qed.

(** X19: a signed webhook for which the store finds no payment is answered
    404 and changes nothing; this is the case of a reference, a string, that
    no stored payment carries.  A webhook whose data has no reference at all
    is not such a case once a payment is stored: the condition is dropped,
    the oldest payment is found, its status is written and the answer is
    200.  A reference that the store client refuses is answered 500 and
    changes nothing. *)
Theorem webhook_unknown_reference (config : Config) (env : Env) (body : list byte)
        (data : WebhookData) (w : World) :
  let out := webhook config env
               (Some (expectedSignature (PAYPACK_WEBHOOK_SECRET config) body))
               (Some body) (Some data) w in
  (findFirst_where (data_ref data) (payments w) = Ok None ->
   out = (mkResponse 404 (Text "Payment not found."), w))
  /\ (forall r, data_ref data = RefString r -> ~ In r (stored_refs (payments w)) ->
                out = (mkResponse 404 (Text "Payment not found."), w))
  /\ (forall oldest rest, data_ref data = RefUndefined -> payments w = oldest :: rest ->
        fst out = mkResponse 200 (Text "Webhook processed.")
        /\ status_of (id oldest) (snd out) = Some (newStatus_of (data_status data)))
  /\ (data_ref data = RefInvalid ->
      out = (mkResponse 500 (Text "Error processing webhook."), w)).
Proof.
  intros out. subst out.
  rewrite (webhook_verified _ _ _ _ _ _ (verify_accepts_signed config body)).
  split; [|split; [|split]].
  - intros F. now rewrite F.
  - intros r E N. rewrite E. cbn [findFirst_where]. now rewrite (find_ref_none _ _ N).
  - intros oldest rest E P.
    assert (F : findFirst_where (data_ref data) (payments w) = Ok (Some oldest))
      by (now rewrite E, P).
    rewrite F. cbn [fst snd]. split; [reflexivity|].
    rewrite status_of_resolved, String.eqb_refl.
    destruct (status_of_found _ _ _ F) as [st0 ->]. reflexivity.
  - intros E. now rewrite E.
Qed.

Lemma webhook_unknown_reference_witness :
  let no_ref := webhook_json_without_ref "successful" in
  webhook demo_config demo_env (Some sig_successful)
          (Some (webhook_json "abc123" "successful"))
          (Some (mkWebhookData (RefString "abc123") (JsString "successful"))) initial_world
  = (mkResponse 404 (Text "Payment not found."), initial_world)
  /\ status_of "pay_1"
       (snd (webhook demo_config demo_env
               (Some (expectedSignature (PAYPACK_WEBHOOK_SECRET demo_config) no_ref))
               (Some no_ref) (Some (mkWebhookData RefUndefined (JsString "successful")))
               pending_world))
     = Some "SUCCESSFUL".
Proof.
  assert (E : sig_successful
              = expectedSignature (PAYPACK_WEBHOOK_SECRET demo_config)
                                  (webhook_json "abc123" "successful"))
    by (vm_compute; reflexivity).
  cbv zeta. rewrite E. split.
  - exact (proj1 (webhook_unknown_reference demo_config demo_env
                    (webhook_json "abc123" "successful")
                    (mkWebhookData (RefString "abc123") (JsString "successful"))
                    initial_world) eq_refl).
  - exact (proj2 (proj1 (proj2 (proj2
             (webhook_unknown_reference demo_config demo_env
                (webhook_json_without_ref "successful")
                (mkWebhookData RefUndefined (JsString "successful")) pending_world)))
             pay_1_pending [] eq_refl eq_refl)).
Defined.

(** X20: a signed webhook for a payment that no socket has registered is
    answered 200: the new status is stored, nothing is pushed, and the
    registry is left as it was. *)
Theorem webhook_without_registration (config : Config) (env : Env) (body : list byte)
        (data : WebhookData) (w : World) (payment : Payment) :
  findFirst_where (data_ref data) (payments w) = Ok (Some payment) ->
  Map_get (id payment) (paymentSockets w) = None ->
  let out := webhook config env
               (Some (expectedSignature (PAYPACK_WEBHOOK_SECRET config) body))
               (Some body) (Some data) w in
  fst out = mkResponse 200 (Text "Webhook processed.")
  /\ status_of (id payment) (snd out) = Some (newStatus_of (data_status data))
  /\ trace (snd out)
     = trace w ++ [DbSetStatus (id payment) (newStatus_of (data_status data))]
  /\ paymentSockets (snd out) = paymentSockets w.
Proof.
  intros F G out. subst out.
  rewrite (webhook_verified _ _ _ _ _ _ (verify_accepts_signed config body)), F.
  cbn [fst snd].
  assert (P : push_events (id payment) (newStatus_of (data_status data)) w = [])
    by (unfold push_events; now rewrite G).
  split; [reflexivity|]. split; [|split].
  - rewrite status_of_resolved, String.eqb_refl.
    destruct (status_of_found _ _ _ F) as [st0 ->]. reflexivity.
  - now rewrite trace_resolved, P.
  - now rewrite paymentSockets_resolved, P.
Qed.

Lemma webhook_without_registration_witness :
  let env2 := mkEnv 1700000000000 "pay_1" (authReply demo_env) (cashinReply demo_env) in
  let unwatched :=
    snd (initiate_payment demo_config env2 (Some "0781234567") (Some 500%float)
                          initial_world) in
  trace (snd (webhook demo_config demo_env (Some sig_rejected)
                      (Some (webhook_json "abc123" "rejected"))
                      (Some (mkWebhookData (RefString "abc123") (JsString "rejected"))) unwatched))
  = trace unwatched ++ [DbSetStatus "pay_1" "FAILED"].
Proof.
  assert (E : sig_rejected
              = expectedSignature (PAYPACK_WEBHOOK_SECRET demo_config)
                                  (webhook_json "abc123" "rejected"))
    by (vm_compute; reflexivity).
  cbv zeta. rewrite E.
  set (unwatched := snd (initiate_payment demo_config _ _ _ initial_world)).
  assert (F : findFirst_where (data_ref (mkWebhookData (RefString "abc123") (JsString "rejected")))
                               (payments unwatched) = Ok (Some pay_1_pending))
    by (vm_compute; reflexivity).
  assert (G : Map_get (id pay_1_pending) (paymentSockets unwatched) = None)
    by (vm_compute; reflexivity).
  exact (proj1 (proj2 (proj2
    (webhook_without_registration demo_config demo_env
       (webhook_json "abc123" "rejected") (mkWebhookData (RefString "abc123") (JsString "rejected"))
       unwatched pay_1_pending F G)))).
Defined.

(** X21: a signed webhook for a payment that a socket has registered stores
    the new status, then pushes it once to that socket, and removes the
    registration; the registrations of the other payments are kept. *)
Theorem webhook_notifies_registered_socket (config : Config) (env : Env)
        (body : list byte) (data : WebhookData) (w : World) (payment : Payment)
        (sock : string) :
  registry_ok w ->
  findFirst_where (data_ref data) (payments w) = Ok (Some payment) ->
  Map_get (id payment) (paymentSockets w) = Some sock ->
  sock <> "" ->
  let out := webhook config env
               (Some (expectedSignature (PAYPACK_WEBHOOK_SECRET config) body))
               (Some body) (Some data) w in
  fst out = mkResponse 200 (Text "Webhook processed.")
  /\ trace (snd out)
     = trace w ++ [DbSetStatus (id payment) (newStatus_of (data_status data));
                   Emit sock (newStatus_of (data_status data))]
  /\ Map_get (id payment) (paymentSockets (snd out)) = None
  /\ forall k, k <> id payment ->
               Map_get k (paymentSockets (snd out)) = Map_get k (paymentSockets w).
Proof.
  intros N F G S out. subst out.
  rewrite (webhook_verified _ _ _ _ _ _ (verify_accepts_signed config body)), F.
  cbn [fst snd].
  assert (P : push_events (id payment) (newStatus_of (data_status data)) w
              = [Emit sock (newStatus_of (data_status data))]).
  { unfold push_events. rewrite G. destruct sock; [contradiction | reflexivity]. }
  split; [reflexivity|]. split; [|split].
  - now rewrite trace_resolved, P.
  - rewrite paymentSockets_resolved, P. now apply Map_get_delete.
  - intros k Hk. rewrite paymentSockets_resolved, P. now apply Map_get_delete_other.
Qed.

Lemma webhook_notifies_registered_socket_witness :
  trace (snd (webhook demo_config demo_env (Some sig_successful)
                      (Some (webhook_json "abc123" "successful"))
                      (Some (mkWebhookData (RefString "abc123") (JsString "successful")))
                      pending_world))
  = trace pending_world ++ [DbSetStatus "pay_1" "SUCCESSFUL"; Emit "sock_1" "SUCCESSFUL"].
Proof.
  assert (E : sig_successful
              = expectedSignature (PAYPACK_WEBHOOK_SECRET demo_config)
                                  (webhook_json "abc123" "successful"))
    by (vm_compute; reflexivity).
  assert (N : registry_ok pending_world).
  { unfold registry_ok. vm_compute. constructor; [intros [] | constructor]. }
  assert (F : findFirst_where (data_ref (mkWebhookData (RefString "abc123") (JsString "successful")))
                               (payments pending_world) = Ok (Some pay_1_pending))
    by (vm_compute; reflexivity).
  assert (G : Map_get (id pay_1_pending) (paymentSockets pending_world) = Some "sock_1")
    by (vm_compute; reflexivity).
  assert (S : "sock_1" <> "") by discriminate.
  rewrite E.
  exact (proj1 (proj2
    (webhook_notifies_registered_socket demo_config demo_env
       (webhook_json "abc123" "successful")
       (mkWebhookData (RefString "abc123") (JsString "successful"))
       pending_world pay_1_pending "sock_1" N F G S))).
Defined.

Section WebhookFrame.

Variables (config : Config) (env : Env).

Lemma service_resolved (payment : Payment) (st : string) (w : World) :
  service (resolved env payment st w) = service w.
Proof.
  unfold resolved, notify_socket. cbn [paymentSockets emit_event set_payments].
  destruct (Map_get (id payment) (paymentSockets w)) as [s|];
    [destruct (Js.truthy_string s)|]; reflexivity.
Qed.

Lemma network_calls_resolved (payment : Payment) (st : string) (w : World) :
  network_calls (resolved env payment st w) = network_calls w.
Proof.
  unfold network_calls. rewrite trace_resolved, !filter_app.
  cbn [filter is_network]. unfold push_events.
  destruct (Map_get (id payment) (paymentSockets w)) as [s|];
    [destruct (Js.truthy_string s)|]; cbn [filter is_network]; now rewrite !app_nil_r.
Qed.

End WebhookFrame.

(** X22: the webhook route sends no request to the gateway, leaves the token
    cache alone, and changes the stored status of no payment other than the
    one that [findFirst] answers with for the reference of its data, be the
    reference a string, [null], missing or a filter. *)
Theorem webhook_touches_one_payment (config : Config) (env : Env)
        (signature : option string) (rawBody : option (list byte))
        (data : option WebhookData) (w : World) :
  service (snd (webhook config env signature rawBody data w)) = service w
  /\ network_calls (snd (webhook config env signature rawBody data w)) = network_calls w
  /\ forall pid,
       status_of pid (snd (webhook config env signature rawBody data w)) = status_of pid w
       \/ exists d payment,
            data = Some d
            /\ findFirst_where (data_ref d) (payments w) = Ok (Some payment)
            /\ id payment = pid.
Proof.
  assert (Same : service w = service w /\ network_calls w = network_calls w
                 /\ forall pid,
                      status_of pid w = status_of pid w
                      \/ exists d payment,
                           data = Some d
                           /\ findFirst_where (data_ref d) (payments w) = Ok (Some payment)
                           /\ id payment = pid).
  { split; [reflexivity|]. split; [reflexivity|]. intros pid. now left. }
  destruct (verify_true_or_throws (PAYPACK_WEBHOOK_SECRET config) signature rawBody)
    as [V|[e V]].
  - destruct data as [d|].
    + rewrite (webhook_verified _ _ _ _ _ _ V).
      destruct (findFirst_where (data_ref d) (payments w)) as [[payment|]|e] eqn:F;
        [|exact Same ..].
      cbn [snd]. split; [apply service_resolved|]. split; [apply network_calls_resolved|].
      intros pid. rewrite status_of_resolved.
      destruct (String.eqb_spec pid (id payment)) as [E|_]; [|now left].
      right. exists d, payment. split; [reflexivity|]. split; [exact F | now symmetry].
    + rewrite (webhook_verified_no_data _ _ _ _ _ V). exact Same.
  - rewrite (webhook_throws _ _ _ _ _ _ _ V). exact Same.
Qed.

(* ================================================================== *)
(** ** The registry of sockets *)

Section RegistryLaws.

Lemma Map_get_set_same (k v : string) (m : list (string * string)) :
  Map_get k (Map_set k v m) = Some v.
Proof.
  induction m as [|[k' v'] m IH]; cbn [Map_set Map_get].
  - now rewrite String.eqb_refl.
  - destruct (String.eqb k' k) eqn:E; cbn [Map_get]; now rewrite E.
Qed.

Lemma Map_get_set_other (k k' v : string) (m : list (string * string)) :
  k' <> k -> Map_get k' (Map_set k v m) = Map_get k' m.
Proof.
  intros N. induction m as [|[k0 v0] m IH]; cbn [Map_set Map_get].
  - destruct (String.eqb_spec k k'); [congruence | reflexivity].
  - destruct (String.eqb_spec k0 k) as [E|D]; cbn [Map_get].
    + subst k0. destruct (String.eqb_spec k k'); [congruence | reflexivity].
    + now rewrite IH.
Qed.

Lemma Map_set_present_keys (k v v0 : string) (m : list (string * string)) :
  Map_get k m = Some v0 -> map fst (Map_set k v m) = map fst m.
Proof.
  induction m as [|[k' v'] m IH]; cbn [Map_set Map_get map fst]; [discriminate|].
  destruct (String.eqb k' k); cbn [map fst]; [reflexivity|].
  intros H. now rewrite IH.
Qed.

Lemma registrations_after_disconnect (sock : string) (m : list (string * string)) :
  registrations_of sock (drop_first_of_socket sock m) = tl (registrations_of sock m).
Proof.
  unfold registrations_of.
  induction m as [|[k v] m IH]; [reflexivity|]. cbn [drop_first_of_socket filter snd].
  destruct (String.eqb v sock) eqn:E; [reflexivity|].
  cbn [filter snd]. now rewrite E.
Qed.

Lemma registrations_of_other_socket (sock other : string) (m : list (string * string)) :
  other <> sock ->
  registrations_of other (drop_first_of_socket sock m) = registrations_of other m.
Proof.
  intros N. unfold registrations_of.
  induction m as [|[k v] m IH]; [reflexivity|]. cbn [drop_first_of_socket filter snd].
  destruct (String.eqb_spec v sock) as [E|D].
  - subst v. destruct (String.eqb_spec sock other); [congruence | reflexivity].
  - cbn [filter snd]. now rewrite IH.
Qed.

End RegistryLaws.

(** X23: registration is last writer wins.  After a socket registers a
    payment, a look-up of that payment gives this socket, also when another
    socket had registered it before; the second registration adds no entry,
    and the registrations of the other payments, the store and the trace are
    untouched. *)
Theorem registerPayment_last_writer_wins (sock1 sock2 pid : string) (w : World) :
  let w1 := registerPayment sock1 pid w in
  let w2 := registerPayment sock2 pid w1 in
  Map_get pid (paymentSockets w2) = Some sock2
  /\ map fst (paymentSockets w2) = map fst (paymentSockets w1)
  /\ (forall k, k <> pid -> Map_get k (paymentSockets w2) = Map_get k (paymentSockets w))
  /\ payments w2 = payments w
  /\ trace w2 = trace w.
Proof.
  cbv zeta. unfold registerPayment, set_paymentSockets. cbn [paymentSockets payments trace].
  split; [apply Map_get_set_same|]. split; [|split; [|split; reflexivity]].
  - apply Map_set_present_keys with (v0 := sock1). apply Map_get_set_same.
  - intros k N. now rewrite !Map_get_set_other.
Qed.

(** X24: when a socket disconnects, only its oldest registration is removed:
    its later registrations stay in the registry, and so do all the
    registrations of the other sockets. *)
Theorem disconnect_removes_oldest_registration_only (sock : string) (w : World) :
  registrations_of sock (paymentSockets (disconnect sock w))
  = tl (registrations_of sock (paymentSockets w))
  /\ (forall other, other <> sock ->
        registrations_of other (paymentSockets (disconnect sock w))
        = registrations_of other (paymentSockets w))
  /\ payments (disconnect sock w) = payments w.
Proof.
  unfold disconnect, set_paymentSockets. cbn [paymentSockets payments].
  split; [apply registrations_after_disconnect|]. split; [|reflexivity].
  intros other N. now apply registrations_of_other_socket.
Qed.

Lemma disconnect_removes_oldest_registration_only_witness :
  registrations_of "sock_2"
    (paymentSockets
       (disconnect "sock_1"
          (serve_all demo_config
             [RegisterPayment "sock_1" "pay_1"; RegisterPayment "sock_2" "pay_2";
              RegisterPayment "sock_1" "pay_3"] initial_world)))
  = registrations_of "sock_2"
      (paymentSockets
         (serve_all demo_config
            [RegisterPayment "sock_1" "pay_1"; RegisterPayment "sock_2" "pay_2";
             RegisterPayment "sock_1" "pay_3"] initial_world)).
Proof.
  apply (proj1 (proj2 (disconnect_removes_oldest_registration_only "sock_1"
           (serve_all demo_config
              [RegisterPayment "sock_1" "pay_1"; RegisterPayment "sock_2" "pay_2";
               RegisterPayment "sock_1" "pay_3"] initial_world)))).
  discriminate.
Defined.

(** A socket that registered two payments keeps the later one after it has
    disconnected. *)
Example disconnect_leaves_later_registration :
  paymentSockets
    (serve_all demo_config
       [RegisterPayment "sock_1" "pay_1"; RegisterPayment "sock_2" "pay_2";
        RegisterPayment "sock_1" "pay_3"; Disconnect "sock_1"] initial_world)
  = [("pay_2", "sock_2"); ("pay_3", "sock_1")].
Proof. reflexivity. Qed.

(* ================================================================== *)
(** ** Identifiers and references in reachable states *)

Section StoreKeys.

Variable config : Config.

Lemma NoDup_snoc {A : Type} (l : list A) (x : A) :
  NoDup l -> ~ In x l -> NoDup (l ++ [x]).
Proof.
  induction l as [|y l IH]; cbn [app]; intros N H.
  - constructor; [intros [] | constructor].
  - inversion N as [|? ? Hy Hl]; subst. constructor.
    + intros I. apply in_app_or in I. destruct I as [I|[E|[]]]; [contradiction|].
      apply H. now left.
    + apply IH; [assumption|]. intros I. apply H. now right.
Qed.

Lemma has_id_absent (pid : string) (l : list Payment) :
  existsb (has_id pid) l = false -> ~ In pid (map id l).
Proof.
  induction l as [|p l IH]; cbn [existsb map In]; [tauto|].
  intros H. apply orb_false_elim in H. destruct H as [H1 H2].
  intros [E|I]; [|now apply IH].
  unfold has_id in H1. rewrite E, String.eqb_refl in H1. discriminate.
Qed.

Lemma has_ref_absent (r : string) (l : list Payment) :
  existsb (has_ref r) l = false -> ~ In r (stored_refs l).
Proof.
  induction l as [|p l IH]; cbn [existsb stored_refs flat_map In]; [tauto|].
  intros H. apply orb_false_elim in H. destruct H as [H1 H2].
  intros I. apply in_app_or in I. destruct I as [I|I]; [|now apply IH].
  unfold has_ref in H1. destruct (paypackRef p) as [r'|]; [|contradiction].
  destruct I as [E|[]]. rewrite E, String.eqb_refl in H1. discriminate.
Qed.

Lemma stored_refs_update_status (pid : string) (t : Z) (st : string) (l : list Payment) :
  stored_refs (update_where pid (with_status t st) l) = stored_refs l.
Proof.
  induction l as [|p l IH]; [reflexivity|].
  cbn [update_where map stored_refs flat_map].
  fold (update_where pid (with_status t st) l). fold (stored_refs l).
  fold (stored_refs (update_where pid (with_status t st) l)).
  rewrite IH. now destruct (has_id pid p).
Qed.

(** The row that the initiate route adds, if it adds one: its identifier is
    new, and so is its reference when it has one. *)
Lemma initiate_payment_new_row (env : Env) (ph : option string) (a : option float)
      (w : World) :
  payments (snd (initiate_payment config env ph a w)) = payments w
  \/ exists row,
       payments (snd (initiate_payment config env ph a w)) = payments w ++ [row]
       /\ ~ In (id row) (map id (payments w))
       /\ (paypackRef row = None
           \/ exists r, paypackRef row = Some r /\ ~ In r (stored_refs (payments w))).
Proof.
  destruct ph as [ph|], a as [a|]; try (now left).
  destruct (Js.truthy_string ph) eqn:Hp;
    [|unfold initiate_payment; rewrite Hp; now left].
  destruct (Js.truthy_number a) eqn:Ha;
    [|unfold initiate_payment; rewrite Hp, Ha; now left].
  destruct (existsb (has_id (newId env)) (payments w)) eqn:Hid.
  - unfold initiate_payment, initiate_payment_try, bind, payment_create.
    rewrite Hp, Ha, Hid. now left.
  - right. rewrite (initiate_payment_created config env ph a w Hp Ha Hid).
    pose proof (cashin_same_store config env (mkCashinParams ph a)
                  (emit_event (DbCreate (newId env))
                     (set_payments (fun l => l ++ [new_row env a]) w))) as [S _].
    pose proof (has_id_absent _ _ Hid) as Hnew.
    destruct (cashin config env _ _) as [[resp|e] w2]; cbn [snd] in S.
    + rewrite (payment_update_ref_new_row env a (ref resp) w2 (payments w) Hid S).
      destruct (existsb (has_ref (ref resp)) (payments w)) eqn:Href; cbn [snd].
      * exists (new_row env a). split; [exact S|]. split; [exact Hnew | now left].
      * exists (with_ref (now env) (ref resp) (new_row env a)).
        split; [reflexivity|]. split; [exact Hnew|]. right. exists (ref resp).
        split; [reflexivity | now apply has_ref_absent].
    + exists (new_row env a). split; [exact S|]. split; [exact Hnew | now left].
Qed.

Lemma stored_refs_snoc (l : list Payment) (row : Payment) :
  stored_refs (l ++ [row])
  = stored_refs l ++ match paypackRef row with Some r => [r] | None => [] end.
Proof.
  unfold stored_refs. rewrite flat_map_app. cbn [flat_map]. now rewrite app_nil_r.
Qed.

Lemma serve_store_ok (req : Request) (w : World) :
  store_ok w -> store_ok (serve config req w).
Proof.
  unfold store_ok. intros [Nid Nref].
  destruct req as [env ph a|env sg raw d|sock pid|sock]; cbn [serve];
    try (now split).
  - destruct (initiate_payment_new_row env ph a w) as [E|(row & E & Hid & Href)];
      rewrite E; [now split|].
    rewrite map_app, stored_refs_snoc. cbn [map]. split; [now apply NoDup_snoc|].
    destruct Href as [->|(r & -> & Hr)]; [now rewrite app_nil_r | now apply NoDup_snoc].
  - destruct (verify_true_or_throws (PAYPACK_WEBHOOK_SECRET config) sg raw) as [V|[e V]].
    + destruct d as [d|].
      * rewrite (webhook_verified _ _ _ _ _ _ V).
        destruct (findFirst_where (data_ref d) (payments w)) as [[payment|]|e];
          [|now split ..].
        cbn [snd]. rewrite payments_resolved, ids_update_status, stored_refs_update_status.
        now split.
      * rewrite (webhook_verified_no_data _ _ _ _ _ V). now split.
    + rewrite (webhook_throws _ _ _ _ _ _ _ V). now split.
Qed.

(** With identifiers stored once, a look-up by identifier finds the row that
    [findFirst] answered with. *)
Lemma find_by_id_of_row (l : list Payment) (payment : Payment) :
  NoDup (map id l) ->
  In payment l ->
  find (has_id (id payment)) l = Some payment.
Proof.
  induction l as [|p l IH]; [contradiction|]. cbn [map find In]. intros N I.
  inversion N as [|? ? Hnotin Hrest]; subst.
  destruct I as [->|I].
  - unfold has_id. now rewrite String.eqb_refl.
  - destruct (has_id (id payment) p) eqn:Hi.
    + exfalso. apply Hnotin. apply String.eqb_eq in Hi. rewrite Hi.
      now apply in_map.
    + now apply IH.
Qed.

End StoreKeys.

(** X26: in every state that the server reaches from start-up, no two stored
    payments share an identifier and no two share a reference; so the
    payment that a webhook finds, whatever its data hold as reference, is the
    one stored under that payment's identifier. *)
Theorem store_keys_are_unique (config : Config) (reqs : list Request) :
  let w := serve_all config reqs initial_world in
  NoDup (map id (payments w))
  /\ NoDup (stored_refs (payments w))
  /\ forall v payment, findFirst_where v (payments w) = Ok (Some payment) ->
                       find (has_id (id payment)) (payments w) = Some payment.
Proof.
  assert (G : forall w, store_ok w -> store_ok (serve_all config reqs w)).
  { induction reqs as [|req reqs IH]; intros w N; [exact N|].
    cbn [serve_all fold_left]. apply IH. now apply serve_store_ok. }
  assert (S0 : store_ok initial_world) by (split; constructor).
  destruct (G _ S0) as [Nid Nref]. cbv zeta.
  split; [exact Nid|]. split; [exact Nref|].
  intros v payment F. apply find_by_id_of_row; [exact Nid|].
  now apply findFirst_where_In with (v := v).
Qed.

(** X27: a signature header that is present but empty is refused like an
    absent one, with the 403 INVALID_SIGNATURE error and before any digest is
    computed; and when the body parser has kept no raw body, a non-empty
    header is refused with the 500 SIGNATURE_VERIFICATION_FAILED error. *)
Theorem verifier_refuses_empty_header_and_missing_body (secret sig : string)
        (rawBody : option (list byte)) :
  verifyWebhookSignature secret (Some "") rawBody = Throw (ApiErr missing_signature_error)
  /\ (sig <> "" ->
      verifyWebhookSignature secret (Some sig) None
      = Throw (ApiErr signature_verification_failed_error)).
Proof.
  split; [reflexivity|]. intros N. unfold verifyWebhookSignature.
  destruct sig; [contradiction | reflexivity].
Qed.

Lemma verifier_refuses_empty_header_and_missing_body_witness :
  verifyWebhookSignature "whsec_demo" (Some sig_successful) None
  = Throw (ApiErr signature_verification_failed_error).
Proof.
  apply (proj2 (verifier_refuses_empty_header_and_missing_body
                  "whsec_demo" sig_successful None)).
  discriminate.
Defined.

(* ================================================================== *)
(** ** The page and the server *)

Section Page.

Lemma matches_here_spec (s : string) :
  Frontend.matches_here s = true
  <-> exists digits post,
        s = ("07" ++ digits ++ post)%string
        /\ String.length digits = 8%nat
        /\ forall c, In c (list_ascii_of_string digits) -> is_digit c = true.
Proof.
  split.
  - destruct s as [|c1 [|c2 rest]]; try discriminate.
    + destruct c1 as [[] [] [] [] [] [] [] []]; discriminate.
    + destruct c1 as [[] [] [] [] [] [] [] []]; try discriminate.
      destruct c2 as [[] [] [] [] [] [] [] []]; try discriminate.
      cbn [Frontend.matches_here]. intros H. apply andb_prop in H. destruct H as [L D].
      apply Nat.leb_le in L.
      exists (string_of_list_ascii (firstn 8 (list_ascii_of_string rest))),
             (string_of_list_ascii (skipn 8 (list_ascii_of_string rest))).
      split; [|split].
      * cbn [append]. do 2 f_equal.
        rewrite <- (string_of_list_ascii_of_string rest) at 1.
        rewrite <- (firstn_skipn 8 (list_ascii_of_string rest)) at 1.
        generalize (firstn 8 (list_ascii_of_string rest)) as l1.
        generalize (skipn 8 (list_ascii_of_string rest)) as l2.
        intros l2 l1. induction l1 as [|x l1 IH]; cbn; [reflexivity | now rewrite IH].
      * rewrite <- (list_ascii_of_string_of_list_ascii
                      (firstn 8 (list_ascii_of_string rest))) at 1.
        rewrite list_ascii_of_string_of_list_ascii.
        assert (E : forall l, String.length (string_of_list_ascii l) = List.length l)
          by (induction l as [|x l IH]; cbn; [reflexivity | now rewrite IH]).
        rewrite E, firstn_length_le; [reflexivity|].
        assert (E' : forall t, List.length (list_ascii_of_string t) = String.length t)
          by (induction t as [|x t IH]; cbn; [reflexivity | now rewrite IH]).
        now rewrite E'.
      * intros c Hc. rewrite list_ascii_of_string_of_list_ascii in Hc.
        rewrite forallb_forall in D. now apply D.
  - intros (digits & post & -> & L & D). cbn [append Frontend.matches_here].
    assert (E : forall a b, list_ascii_of_string (a ++ b)
                            = list_ascii_of_string a ++ list_ascii_of_string b)
      by (induction a as [|x a IH]; intros b; cbn; [reflexivity | now rewrite IH]).
    assert (E' : forall t, List.length (list_ascii_of_string t) = String.length t)
      by (induction t as [|x t IH]; cbn; [reflexivity | now rewrite IH]).
    apply andb_true_intro. split.
    + apply Nat.leb_le. rewrite <- E', E, length_app, E'. lia.
    + rewrite E, firstn_app, firstn_all2 by (rewrite E'; lia).
      rewrite E', L. cbn [Nat.sub firstn]. rewrite app_nil_r.
      now apply forallb_forall.
Qed.

Lemma phone_test_spec (s : string) :
  Frontend.phone_test s = true
  <-> exists pre digits post,
        s = (pre ++ "07" ++ digits ++ post)%string
        /\ String.length digits = 8%nat
        /\ forall c, In c (list_ascii_of_string digits) -> is_digit c = true.
Proof.
  split.
  - induction s as [|c s IH]; cbn [Frontend.phone_test].
    + rewrite orb_false_r. intros H. apply matches_here_spec in H.
      destruct H as (d & post & E & L & D). exists "", d, post. now repeat split.
    + intros H. apply orb_prop in H. destruct H as [H|H].
      * apply matches_here_spec in H. destruct H as (d & post & E & L & D).
        exists "", d, post. now repeat split.
      * destruct (IH H) as (pre & d & post & E & L & D).
        exists (String c pre), d, post. cbn [append]. rewrite E. now repeat split.
  - intros (pre & d & post & -> & L & D).
    assert (M : Frontend.matches_here ("07" ++ d ++ post) = true)
      by (apply matches_here_spec; exists d, post; now repeat split).
    assert (T : Frontend.phone_test ("07" ++ d ++ post) = true).
    { cbn [append] in *. cbn [Frontend.phone_test]. now rewrite M. }
    generalize dependent ("07" ++ d ++ post)%string. intros tail _ T.
    induction pre as [|c pre IH]; [exact T|].
    change (String c pre ++ tail)%string with (String c (pre ++ tail)).
    cbn [Frontend.phone_test]. rewrite IH. apply orb_true_r.
Qed.

End Page.

(** X29: the phone check of the page is weaker than the check of [cashin].
    The page accepts exactly the strings that contain 07 followed by eight
    digits somewhere; every number that [cashin] accepts passes it; and for a
    number that the page lets through although it is not in the format,
    [cashin], called with the price the page sends, refuses the request for
    the phone number and not for the amount. *)
Theorem page_phone_check_is_weaker (s : string) :
  (Frontend.phone_test s = true
   <-> exists pre digits post,
         s = (pre ++ "07" ++ digits ++ post)%string
         /\ String.length digits = 8%nat
         /\ forall c, In c (list_ascii_of_string digits) -> is_digit c = true)
  /\ (phone_regex_test s = true -> Frontend.phone_test s = true)
  /\ (phone_regex_test s = false ->
      cashin_validate (mkCashinParams s Frontend.PRODUCT_price)
      = Throw (ApiErr INVALID_PHONE_error)).
Proof.
  split; [apply phone_test_spec|]. split.
  - intros H. apply phone_regex_test_spec in H. destruct H as (digits & E & L & D).
    apply phone_test_spec. exists "", digits, "". cbn [append].
    assert (R : forall t, (t ++ "")%string = t)
      by (induction t as [|x t IH]; cbn; [reflexivity | now rewrite IH]).
    rewrite R. now repeat split.
  - intros H. unfold cashin_validate. cbn [amount number]. now rewrite H.
Qed.

Lemma page_phone_check_is_weaker_witness :
  Frontend.phone_test "0781234567" = true
  /\ Frontend.phone_test "call 07812345678 now" = true
  /\ cashin_validate (mkCashinParams "call 07812345678 now" Frontend.PRODUCT_price)
     = Throw (ApiErr INVALID_PHONE_error).
Proof.
  split; [|split].
  - apply (proj1 (proj2 (page_phone_check_is_weaker "0781234567"))). reflexivity.
  - apply (proj1 (page_phone_check_is_weaker "call 07812345678 now")).
    exists "call ", "81234567", "8 now". split; [reflexivity|]. split; [reflexivity|].
    intros c H. cbn in H. repeat (destruct H as [<-|H]; [reflexivity|]). contradiction.
  - apply (proj2 (proj2 (page_phone_check_is_weaker "call 07812345678 now"))).
    reflexivity.
Defined.


(** X28: initiate, register, webhook.  After a request has been accepted for
    a new payment and a socket has registered that payment, a signed webhook
    that carries the reference of the gateway stores the mapped status for
    that payment, pushes it to that socket exactly once, and removes the
    registration; a second identical webhook pushes nothing. *)
Theorem initiated_payment_is_notified_once (config : Config) (env env' env'' : Env)
        (ph : string) (a : float) (w : World) (resp : CashinResponse)
        (sock : string) (body : list byte) (data : WebhookData) :
  registry_ok w ->
  Js.truthy_string ph = true -> Js.truthy_number a = true ->
  existsb (has_id (newId env)) (payments w) = false ->
  fst (cashin config env (mkCashinParams ph a) (snd (payment_create env a w))) = Ok resp ->
  existsb (has_ref (ref resp)) (payments w) = false ->
  sock <> "" ->
  data_ref data = RefString (ref resp) ->
  let signature := Some (expectedSignature (PAYPACK_WEBHOOK_SECRET config) body) in
  let st := newStatus_of (data_status data) in
  let w1 := snd (initiate_payment config env (Some ph) (Some a) w) in
  let w2 := registerPayment sock (newId env) w1 in
  let w3 := snd (webhook config env' signature (Some body) (Some data) w2) in
  let w4 := snd (webhook config env'' signature (Some body) (Some data) w3) in
  trace w3 = trace w2 ++ [DbSetStatus (newId env) st; Emit sock st]
  /\ status_of (newId env) w3 = Some st
  /\ Map_get (newId env) (paymentSockets w3) = None
  /\ pushes w4 = pushes w3
  /\ status_of (newId env) w4 = Some st.
Proof.
  intros N Hp Ha Hid Hcash Href Hsock Hdata signature st w1 w2 w3 w4.
  pose proof (verify_accepts_signed config body) as V. fold signature in V.
  assert (H1 : payments w1 = payments w
                             ++ [mkPayment (newId env) a "PENDING" (Some (ref resp))
                                           (now env) (now env)]).
  { subst w1. rewrite (initiate_payment_created config env ph a w Hp Ha Hid).
    rewrite (payment_create_fresh env a w Hid) in Hcash. cbn [snd] in Hcash.
    pose proof (cashin_same_store config env (mkCashinParams ph a)
                  (emit_event (DbCreate (newId env))
                     (set_payments (fun l => l ++ [new_row env a]) w))) as [S _].
    destruct (cashin config env _ _) as [r0 w0]. cbn [fst snd] in *. subst r0.
    now rewrite (payment_update_ref_new_row env a (ref resp) w0 (payments w) Hid S), Href. }
  set (row := mkPayment (newId env) a "PENDING" (Some (ref resp)) (now env) (now env)) in *.
  assert (F2 : findFirst_where (data_ref data) (payments w2) = Ok (Some row)).
  { subst w2. unfold registerPayment, set_paymentSockets. cbn [payments].
    rewrite H1, Hdata. cbn [findFirst_where]. f_equal. clear - Href.
    induction (payments w) as [|p l IH]; cbn [app find existsb] in *.
    - unfold has_ref. cbn [paypackRef row]. now rewrite String.eqb_refl.
    - apply orb_false_elim in Href. destruct Href as [A B]. rewrite A. now apply IH. }
  assert (N2 : registry_ok w2).
  { subst w2. unfold registry_ok, registerPayment, set_paymentSockets.
    cbn [paymentSockets]. apply Map_set_NoDup. subst w1.
    now rewrite initiate_payment_registry. }
  assert (G2 : Map_get (id row) (paymentSockets w2) = Some sock).
  { subst w2. unfold registerPayment, set_paymentSockets. cbn [paymentSockets id row].
    apply Map_get_set_same. }
  assert (P2 : push_events (id row) st w2 = [Emit sock st]).
  { unfold push_events. rewrite G2. destruct sock; [contradiction | reflexivity]. }
  assert (E3 : w3 = resolved env' row st w2).
  { subst w3. now rewrite (webhook_verified _ _ _ _ _ _ V), F2. }
  assert (S3 : status_of (newId env) w3 = Some st).
  { rewrite E3. change (newId env) with (id row).
    rewrite status_of_resolved, String.eqb_refl.
    destruct (status_of_found _ _ _ F2) as [st0 ->]. reflexivity. }
  assert (F3 : findFirst_where (data_ref data) (payments w3)
               = Ok (Some (with_status (now env') st row))).
  { rewrite E3, payments_resolved, findFirst_update_status, F2. cbn [option_map].
    unfold has_id. now rewrite String.eqb_refl. }
  assert (E4 : w4 = resolved env'' (with_status (now env') st row) st w3).
  { subst w4. now rewrite (webhook_verified _ _ _ _ _ _ V), F3. }
  split; [|split; [|split; [|split]]].
  - rewrite E3, trace_resolved, P2. reflexivity.
  - exact S3.
  - rewrite E3, paymentSockets_resolved, P2. change (newId env) with (id row).
    now apply Map_get_delete.
  - rewrite E4. unfold pushes. rewrite trace_resolved.
    change (id (with_status (now env') st row)) with (id row).
    rewrite E3, (push_events_resolved env' row st st w2 N2), !filter_app.
    cbn [filter is_emit]. now rewrite !app_nil_r.
  - rewrite E4. change (newId env) with (id (with_status (now env') st row)).
    rewrite status_of_resolved, String.eqb_refl. cbn [id with_status].
    change (id row) with (newId env). now rewrite S3.
Qed.

Lemma initiated_payment_is_notified_once_witness :
  let signature :=
    Some (expectedSignature (PAYPACK_WEBHOOK_SECRET demo_config)
                            (webhook_json "abc123" "successful")) in
  let data := mkWebhookData (RefString "abc123") (JsString "successful") in
  let w2 := registerPayment "sock_1" (newId demo_env)
              (snd (initiate_payment demo_config demo_env (Some "0781234567")
                                     (Some 500%float) initial_world)) in
  let w3 := snd (webhook demo_config demo_env signature
                         (Some (webhook_json "abc123" "successful")) (Some data) w2) in
  let w4 := snd (webhook demo_config demo_env signature
                         (Some (webhook_json "abc123" "successful")) (Some data) w3) in
  trace w3 = trace w2 ++ [DbSetStatus (newId demo_env) (newStatus_of (data_status data));
                          Emit "sock_1" (newStatus_of (data_status data))]
  /\ pushes w4 = pushes w3.
Proof.
  assert (N : registry_ok initial_world) by constructor.
  assert (S : "sock_1" <> "") by discriminate.
  pose proof (initiated_payment_is_notified_once demo_config demo_env demo_env demo_env
                "0781234567" 500%float initial_world
                (mkCashinResponse "abc123" "pending" 500%float "mtn" "2023-11-14")
                "sock_1" (webhook_json "abc123" "successful")
                (mkWebhookData (RefString "abc123") (JsString "successful"))
                N eq_refl eq_refl eq_refl eq_refl eq_refl S eq_refl) as H.
  cbv zeta in H. destruct H as (T & _ & _ & P & _).
  cbv zeta. split; [exact T | exact P].
Defined.
